(** * genefab: assay metadata indexing, field resolution and data retrieval

    A shallow embedding of [genefab/_assay.py] and [genefab/_util.py].

    Conventions of the embedding:
    - Python strings are [string]; a pandas cell is [option string], where
      [None] stands for a missing value (NaN);
    - a Python [set] is a [gset], a [dict] is a [gmap]; iteration order of a
      set is the order of [elements];
    - an exception is a value of [exn]; a call that may raise returns a
      [result];
    - the [re] module of the Python standard library is an interface
      ([ReEngine]); the patterns a caller passes are regular expressions, and
      where the code makes a pattern of its own out of a file mask
      ([_get_file_url]) the interface tells whether it compiles. The calls of
      [sub] and [split] with a pattern fixed in the source are written out as
      string functions ([sub_delim], [split_commas], [sub_factor_value]);
    - the file system and the network are explicit components of a [World]
      that effectful functions thread through. *)

From stdpp Require Import gmap strings list fin_maps fin_sets pretty.
From Stdlib Require Import Ascii String.

Open Scope string_scope.

(** ** Python values, exceptions and results *)

Module Py.

(** The exceptions the two modules raise or let through. The repository's
    own exceptions and the ones it constructs carry their message; [ReError]
    is [re.error], raised for a pattern that does not compile. *)
Inductive exn : Type :=
| GeneLabJSONException (msg : string)
| GeneLabFileException (msg : string)
| GeneLabException (msg : string)
| IndexError (msg : string)
| KeyError (key : string)
| TypeError
| ValueError
| OSError (msg : string)
| URLError (msg : string)
| MissingSchema
| InvalidSchema
| FileNotFoundError
| ReError.

Inductive result (A : Type) : Type :=
| Ok (a : A)
| Raise (e : exn).
Arguments Ok {A} a.
Arguments Raise {A} e.

Definition bind {A B} (r : result A) (k : A → result B) : result B :=
  match r with
  | Ok a => k a
  | Raise e => Raise e
  end.

(** [set.union] applied to an unpacked sequence of sets: the unbound
    method needs at least one argument. *)
Definition set_union_star `{Countable A} (sets : list (gset A)) : result (gset A) :=
  match sets with
  | [] => Raise TypeError
  | s :: rest => Ok (s ∪ ⋃ rest)
  end.

(** [for x in xs: r.append(f(x))], stopping at the first exception. *)
Fixpoint map_result {A B} (f : A → result B) (xs : list A) : result (list B) :=
  match xs with
  | [] => Ok []
  | x :: xs' =>
      match f x with
      | Raise e => Raise e
      | Ok y =>
          match map_result f xs' with
          | Raise e => Raise e
          | Ok ys => Ok (y :: ys)
          end
      end
  end.

(** [s.pop()] on a set that the caller has checked to hold one element, and
    [list(s)[0]]. *)
Definition set_first `{Countable A} (s : gset A) : option A := head (elements s).

End Py.
Export Py.

Notation "x <- r ;; k" := (Py.bind r (fun x => k))
  (at level 100, r at next level, right associativity).

(** ** String functions *)

Module Str.

Definition chars (s : string) : list ascii := list_ascii_of_string s.
Definition of_chars (l : list ascii) : string := string_of_list_ascii l.

Definition ascii_eqb (a b : ascii) : bool := Ascii.eqb a b.

(** [c.lower()] on an ASCII letter. *)
Definition lower_char (c : ascii) : ascii :=
  let n := nat_of_ascii c in
  if (65 <=? n)%nat && (n <=? 90)%nat then ascii_of_nat (n + 32) else c.

(** [str.lower]. *)
Definition lower (s : string) : string := of_chars (map lower_char (chars s)).

(** [\s] on ASCII text: space, tab, newline, vertical tab, form feed,
    carriage return and the four separators 0x1c-0x1f. *)
Definition is_space (c : ascii) : bool :=
  let n := nat_of_ascii c in
  (n =? 32)%nat || ((9 <=? n)%nat && (n <=? 13)%nat)
  || ((28 <=? n)%nat && (n <=? 31)%nat).

(** The character class [[._-]]. *)
Definition is_delim_char (c : ascii) : bool :=
  ascii_eqb c "." || ascii_eqb c "_" || ascii_eqb c "-".

(** [sub(r'[._-]', name_delim, f)]: every character of the class is replaced
    by the delimiter (a delimiter without backslashes, which [re.sub] would
    read as escapes). *)
Fixpoint sub_delim (name_delim : string) (f : string) : string :=
  match f with
  | EmptyString => EmptyString
  | String c rest =>
      if is_delim_char c then name_delim ++ sub_delim name_delim rest
      else String c (sub_delim name_delim rest)
  end.

Fixpoint lstrip (l : list ascii) : list ascii :=
  match l with
  | c :: l' => if is_space c then lstrip l' else l
  | [] => []
  end.

Definition rstrip (l : list ascii) : list ascii := rev (lstrip (rev l)).

(** Pieces of [l] between commas, as [str.split] on a comma gives them. *)
Fixpoint split_on_comma (l : list ascii) (cur : list ascii) : list (list ascii) :=
  match l with
  | [] => [rev cur]
  | c :: l' =>
      if ascii_eqb c ","
      then rev cur :: split_on_comma l' []
      else split_on_comma l' (c :: cur)
  end.

(** Whitespace around a comma belongs to the separator: every piece but the
    first loses its leading whitespace, every piece but the last its
    trailing whitespace. *)
Fixpoint trim_pieces (first : bool) (ps : list (list ascii)) : list (list ascii) :=
  match ps with
  | [] => []
  | [p] => [if first then p else lstrip p]
  | p :: ps' => rstrip (if first then p else lstrip p) :: trim_pieces false ps'
  end.

(** [split(r'\s*,\s*', e)]. *)
Definition split_commas (e : string) : list string :=
  map of_chars (trim_pieces true (split_on_comma (chars e) [])).

Fixpoint starts_with_ci (prefix l : list ascii) : option (list ascii) :=
  match prefix, l with
  | [], _ => Some l
  | p :: prefix', c :: l' =>
      if ascii_eqb (lower_char p) (lower_char c) then starts_with_ci prefix' l' else None
  | _ :: _, [] => None
  end.

(** [sub] of the pattern [^factor value:\s+] by the empty string, with
    [flags=IGNORECASE]. *)
Definition sub_factor_value (f : string) : string :=
  match starts_with_ci (chars "factor value:") (chars f) with
  | Some (c :: rest) => if is_space c then of_chars (lstrip rest) else f
  | _ => f
  end.

(** First component of [s.split] on a slash. *)
Fixpoint before_slash (s : string) : string :=
  match s with
  | EmptyString => EmptyString
  | String c rest => if ascii_eqb c "/" then EmptyString else String c (before_slash rest)
  end.

(** [s.replace]: every asterisk becomes a dot and an asterisk. *)
Fixpoint star_to_dotstar (s : string) : string :=
  match s with
  | EmptyString => EmptyString
  | String c rest =>
      if ascii_eqb c "*" then String "." (String "*" (star_to_dotstar rest))
      else String c (star_to_dotstar rest)
  end.

Definition ends_with_slash (s : string) : bool :=
  match rev (chars s) with
  | c :: _ => ascii_eqb c "/"
  | [] => false
  end.

Definition starts_with_slash (s : string) : bool :=
  match s with
  | String c _ => ascii_eqb c "/"
  | EmptyString => false
  end.

(** [os.path.join(a, b)] for two components. *)
Definition join (a b : string) : string :=
  if starts_with_slash b then b
  else if String.eqb a "" || ends_with_slash a then a ++ b
  else a ++ "/" ++ b.

End Str.

(** ** The [re] module *)

(** What the code asks of the standard library's regular expressions: whether
    [search(pattern, string)] and [fullmatch(pattern, string)] find a match,
    the first argument telling whether [flags=IGNORECASE] was passed, and
    whether a string compiles as a pattern; a call with a string that does
    not compile raises [re.error]. *)
Class ReEngine : Type := {
  re_search : bool → string → string → bool;
  re_fullmatch : bool → string → string → bool;
  re_compiles : string → bool
}.

(** The [method] argument of [_match_field_titles]: [search] or [fullmatch],
    already applied to its flags. *)
Definition re_method : Type := string → string → bool.

(** A matcher for a fragment of the [re] syntax, to run the definitions below
    on concrete inputs: literals, [.], [^], [$], classes in brackets, the
    escapes [\s], [\d], [\w] and escaped punctuation, groups, alternation and
    the postfix operators [*], [+], [?]. A string outside the fragment is
    taken not to compile, and matches nothing. *)
Module MiniRe.

Inductive regex : Type :=
| RFail
| REps
| RChar (c : ascii)
| RDot
| RAny
| RSet (negated : bool) (members : list ascii) (ranges : list (ascii * ascii))
| RBol
| REol
| RCat (a b : regex)
| RAlt (a b : regex)
| RStar (a : regex).

Definition in_range (c : ascii) (r : ascii * ascii) : bool :=
  let n := nat_of_ascii c in
  (nat_of_ascii r.1 <=? n)%nat && (n <=? nat_of_ascii r.2)%nat.

Definition fold_case (ci : bool) (c : ascii) : ascii :=
  if ci then Str.lower_char c else c.

Definition in_set (ci : bool) (members : list ascii) (ranges : list (ascii * ascii)) (c : ascii) : bool :=
  existsb (λ m, Str.ascii_eqb (fold_case ci m) (fold_case ci c)) members
  || existsb (in_range c) ranges
  || (ci && existsb (in_range (Str.lower_char c)) ranges).

Definition newline : ascii := ascii_of_nat 10.

(** Can [r] match the empty string at a position that is at the start
    and/or at the end of the subject? *)
Fixpoint nullable (at_start at_end : bool) (r : regex) : bool :=
  match r with
  | REps | RStar _ => true
  | RBol => at_start
  | REol => at_end
  | RCat a b => nullable at_start at_end a && nullable at_start at_end b
  | RAlt a b => nullable at_start at_end a || nullable at_start at_end b
  | _ => false
  end.

(** Brzozowski derivative by the character [c], read at a position that is
    the start of the subject when [at_start], and in front of a final
    newline when [at_end]. *)
Fixpoint deriv (ci at_start at_end : bool) (c : ascii) (r : regex) : regex :=
  match r with
  | RChar c' => if Str.ascii_eqb (fold_case ci c') (fold_case ci c) then REps else RFail
  | RDot => if Str.ascii_eqb c newline then RFail else REps
  | RAny => REps
  | RSet negated members ranges =>
      if xorb negated (in_set ci members ranges c) then REps else RFail
  | RCat a b =>
      let left := RCat (deriv ci at_start at_end c a) b in
      if nullable at_start at_end a
      then RAlt left (deriv ci at_start at_end c b)
      else left
  | RAlt a b => RAlt (deriv ci at_start at_end c a) (deriv ci at_start at_end c b)
  | RStar a => RCat (deriv ci at_start at_end c a) (RStar a)
  | _ => RFail
  end.

Fixpoint simpl_re (r : regex) : regex :=
  match r with
  | RCat a b =>
      match simpl_re a, simpl_re b with
      | RFail, _ | _, RFail => RFail
      | REps, b' => b'
      | a', b' => RCat a' b'
      end
  | RAlt a b =>
      match simpl_re a, simpl_re b with
      | RFail, b' => b'
      | a', RFail => a'
      | a', b' => RAlt a' b'
      end
  | _ => r
  end.

Fixpoint matches (ci at_start : bool) (r : regex) (s : list ascii) : bool :=
  match s with
  | [] => nullable at_start true r
  | c :: s' =>
      let at_end := match s' with [] => Str.ascii_eqb c newline | _ => false end in
      matches ci false (simpl_re (deriv ci at_start at_end c r)) s'
  end.

Definition space_set : regex :=
  RSet false [" "%char] [(ascii_of_nat 9, ascii_of_nat 13); (ascii_of_nat 28, ascii_of_nat 31)].
Definition digit_set : regex := RSet false [] [("0"%char, "9"%char)].
Definition word_set : regex :=
  RSet false ["_"%char] [("0"%char, "9"%char); ("a"%char, "z"%char); ("A"%char, "Z"%char)].

Definition is_alnum (c : ascii) : bool :=
  match word_set with
  | RSet _ m r => in_set false m r c
  | _ => false
  end.

(** An escape: a class letter, or an escaped punctuation character. Escaped
    letters and digits with another meaning are outside the fragment. *)
Definition escape (c : ascii) : option regex :=
  if Str.ascii_eqb c "s" then Some space_set
  else if Str.ascii_eqb c "d" then Some digit_set
  else if Str.ascii_eqb c "w" then Some word_set
  else if is_alnum c then None
  else Some (RChar c).

(** The inside of a bracket class, up to the closing bracket. *)
Fixpoint parse_set (members : list ascii) (ranges : list (ascii * ascii))
    (s : list ascii) : option (list ascii * list (ascii * ascii) * list ascii) :=
  match s with
  | [] => None
  | c :: s1 =>
      if Str.ascii_eqb c "]" then Some (members, ranges, s1)
      else if Str.ascii_eqb c "\" then None
      else
        match s1 with
        | d :: e :: s2 =>
            if Str.ascii_eqb d "-" && negb (Str.ascii_eqb e "]")
            then None
            else parse_set (c :: members) ranges s1
        | _ => parse_set (c :: members) ranges s1
        end
  end.

Fixpoint postfix (r : regex) (s : list ascii) : regex * list ascii :=
  match s with
  | c :: s' =>
      if Str.ascii_eqb c "*" then postfix (RStar r) s'
      else if Str.ascii_eqb c "+" then postfix (RCat r (RStar r)) s'
      else if Str.ascii_eqb c "?" then postfix (RAlt r REps) s'
      else (r, s)
  | [] => (r, s)
  end.

Definition is_meta (c : ascii) : bool :=
  existsb (Str.ascii_eqb c) (Str.chars ")|*+?{}").

Fixpoint parse_alt (fuel : nat) (s : list ascii) : option (regex * list ascii) :=
  match fuel with
  | 0 => None
  | S fuel' =>
      let parse_atom (s : list ascii) : option (regex * list ascii) :=
        match s with
        | [] => None
        | c :: s1 =>
            if Str.ascii_eqb c "(" then
              match parse_alt fuel' s1 with
              | Some (r, d :: s2) => if Str.ascii_eqb d ")" then Some (r, s2) else None
              | _ => None
              end
            else if Str.ascii_eqb c "[" then
              match s1 with
              | d :: s2 =>
                  let negated := Str.ascii_eqb d "^" in
                  match parse_set [] [] (if negated then s2 else s1) with
                  | Some (m, rg, s3) => Some (RSet negated m rg, s3)
                  | None => None
                  end
              | [] => None
              end
            else if Str.ascii_eqb c "\" then
              match s1 with
              | d :: s2 => match escape d with Some r => Some (r, s2) | None => None end
              | [] => None
              end
            else if Str.ascii_eqb c "." then Some (RDot, s1)
            else if Str.ascii_eqb c "^" then Some (RBol, s1)
            else if Str.ascii_eqb c "$" then Some (REol, s1)
            else if is_meta c then None
            else Some (RChar c, s1)
        end in
      let parse_cat :=
        fix cat (m : nat) (acc : regex) (s : list ascii) : option (regex * list ascii) :=
          match m with
          | 0 => None
          | S m' =>
              match s with
              | [] => Some (acc, s)
              | c :: _ =>
                  if Str.ascii_eqb c ")" || Str.ascii_eqb c "|" then Some (acc, s)
                  else
                    match parse_atom s with
                    | Some (r, s1) => let '(r', s2) := postfix r s1 in cat m' (RCat acc r') s2
                    | None => None
                    end
              end
          end in
      match parse_cat (S (List.length s)) REps s with
      | Some (r1, c :: s2) =>
          if Str.ascii_eqb c "|" then
            match parse_alt fuel' s2 with
            | Some (r2, s3) => Some (RAlt r1 r2, s3)
            | None => None
            end
          else Some (r1, c :: s2)
      | other => other
      end
  end.

Definition compile (pattern : string) : option regex :=
  match parse_alt (S (String.length pattern)) (Str.chars pattern) with
  | Some (r, []) => Some (simpl_re r)
  | _ => None
  end.

Definition fullmatch (ci : bool) (pattern subject : string) : bool :=
  match compile pattern with
  | Some r => matches ci true r (Str.chars subject)
  | None => false
  end.

Definition search (ci : bool) (pattern subject : string) : bool :=
  match compile pattern with
  | Some r => matches ci true (RCat (RStar RAny) (RCat r (RStar RAny))) (Str.chars subject)
  | None => false
  end.

Definition compiles (pattern : string) : bool :=
  match compile pattern with
  | Some _ => true
  | None => false
  end.

Definition engine : ReEngine :=
  {| re_search := search; re_fullmatch := fullmatch; re_compiles := compiles |}.

End MiniRe.

(** ** pandas frames *)

Module Pandas.

(** A row or column label: a position of a [RangeIndex], a string, or a
    missing value. *)
Inductive label : Type :=
| LInt (n : nat)
| LStr (s : string)
| LNaN.

#[global] Instance label_eq_dec : EqDecision label.
Proof. solve_decision. Defined.

Definition label_to_sum (l : label) : nat + (string + unit) :=
  match l with
  | LInt n => inl n
  | LStr s => inr (inl s)
  | LNaN => inr (inr ())
  end.

Definition label_of_sum (x : nat + (string + unit)) : label :=
  match x with
  | inl n => LInt n
  | inr (inl s) => LStr s
  | inr (inr _) => LNaN
  end.

#[global] Instance label_countable : Countable label.
Proof.
  refine (inj_countable' label_to_sum label_of_sum _).
  by intros [].
Defined.

(** A frame: its index, its column names, and one record per row; a column
    absent from a record is a missing cell. *)
Record DataFrame (V : Type) : Type := {
  index : list label;
  columns : list string;
  rows : list (gmap string V)
}.
Arguments index {V} _.
Arguments columns {V} _.
Arguments rows {V} _.

Section frames.
Context {V : Type}.

(** [DataFrame()]. *)
Definition empty_frame : DataFrame V :=
  {| index := []; columns := []; rows := [] |}.

(** [len(df)]. *)
Definition len (df : DataFrame V) : nat := List.length (rows df).

(** [concat(map(Series, raw), axis=1).T]: one row per record, the columns
    are the union of the records' keys. Nothing to concatenate is a
    [ValueError]. *)
Definition from_records (raw : list (gmap string V)) : result (DataFrame V) :=
  match raw with
  | [] => Raise ValueError
  | _ =>
      Ok {| index := LInt <$> seq 0 (List.length raw);
            columns := elements (⋃ (dom <$> raw) : gset string);
            rows := raw |}
  end.

(** [DataFrame(data=rows, columns=cols)]. *)
Definition from_rows (cols : list string) (data : list (list V)) : DataFrame V :=
  {| index := LInt <$> seq 0 (List.length data);
     columns := cols;
     rows := (λ r, list_to_map (zip cols r)) <$> data |}.

(** [df[col]]: the column as a sequence of cells. *)
Definition getcol (df : DataFrame V) (col : string) : result (list (option V)) :=
  if decide (col ∈ columns df)
  then Ok ((λ r : gmap string V, r !! col) <$> rows df)
  else Raise (KeyError col).

(** [df[cols]] for a list of column names. *)
Definition getcols (df : DataFrame V) (cols : list string) : result (DataFrame V) :=
  match list_find (λ c, c ∉ columns df) cols with
  | Some (_, c) => Raise (KeyError c)
  | None =>
      Ok {| index := index df;
            columns := cols;
            rows := filter (λ kv, kv.1 ∈ cols) <$> rows df |}
  end.

(** [df.values.flatten()]. *)
Definition values_flatten (df : DataFrame V) : list (option V) :=
  r ← rows df; (λ c, r !! c) <$> columns df.

Definition rows_labelled (df : DataFrame V) (l : label) : list (label * gmap string V) :=
  filter (λ ir, ir.1 = l) (zip (index df) (rows df)).

(** [df.loc[labels]] for a list of labels: the rows carrying each label,
    in the order of the list; a label that no row carries is a
    [KeyError]. *)
Definition loc_labels (df : DataFrame V) (labels : list label) : result (DataFrame V) :=
  match list_find (λ l, rows_labelled df l = []) labels with
  | Some _ => Raise (KeyError "not in index")
  | None =>
      let picked := l ← labels; rows_labelled df l in
      Ok {| index := picked.*1; columns := columns df; rows := picked.*2 |}
  end.

(** [df[mask]] for a boolean sequence aligned with the rows. *)
Definition select_mask (df : DataFrame V) (mask : list bool) : DataFrame V :=
  let kept := filter (λ x, x.1 = true) (zip mask (zip (index df) (rows df))) in
  {| index := kept.*2.*1; columns := columns df; rows := kept.*2.*2 |}.

End frames.

(** [df.set_index(field)] on a frame of strings. *)
Definition set_index (df : DataFrame string) (field : option string) : result (DataFrame string) :=
  match field with
  | None => Raise (KeyError "None")
  | Some f =>
      if decide (f ∈ columns df)
      then Ok {| index := (λ r : gmap string string, from_option LStr LNaN (r !! f)) <$> rows df;
                 columns := filter (λ c, c ≠ f) (columns df);
                 rows := delete f <$> rows df |}
      else Raise (KeyError f)
  end.

(** [sub(r'[._-]', name_delim, f)] applied to a label: only a string is
    accepted. *)
Definition sub_delim_label (name_delim : string) (l : label) : result label :=
  match l with
  | LStr s => Ok (LStr (Str.sub_delim name_delim s))
  | _ => Raise TypeError
  end.

End Pandas.
Export Pandas.

(** How a value reads once formatted into a message. *)
Definition fmt (o : option string) : string := default "None" o.

(** ** Downloads: [genefab/_util.py] *)

Module Util.

(** What a path of the local file system holds. *)
Inductive node : Type :=
| Dir
| File (content : string).

(** The response [requests.get(url, stream=True)] returns: its status, the
    value of its [content-length] header if it carries one, and the blocks
    [iter_content(1024)] yields for a body that arrives in full. *)
Record response : Type := {
  status_code : nat;
  content_length : option nat;
  iter_content : list string
}.

(** Calls that leave the process, in the order they were made. *)
Inductive call : Type :=
| CallFetchFile (file_name : string) (url : option string) (target_directory : string) (update : bool)
| CallGet (url : string)
| CallReadCsv (path : string).

(** The local file system, the remote server, and the record of calls. *)
Record World : Type := {
  fs : gmap string node;
  http : string → result response;
  calls : list call
}.

(** The calls that are requests to the server. *)
Definition is_get (c : call) : Prop :=
  match c with
  | CallGet _ => True
  | _ => False
  end.

Definition set_fs (w : World) (v : gmap string node) : World :=
  {| fs := v; http := http w; calls := calls w |}.

Definition record_call (c : call) (w : World) : World :=
  {| fs := fs w; http := http w; calls := (calls w ++ [c])%list |}.

Definition isdir (w : World) (path : string) : bool :=
  match fs w !! path with Some Dir => true | _ => false end.

Definition isfile (w : World) (path : string) : bool :=
  match fs w !! path with Some (File _) => true | _ => false end.

(** [os.makedirs(path)], as far as the path itself goes: the directory is
    there afterwards. The parents it makes on the way are not recorded. *)
Definition makedirs (path : string) (w : World) : World :=
  set_fs w (<[path := Dir]> (fs w)).

Definition remove (path : string) (w : World) : World :=
  set_fs w (delete path (fs w)).

(** [sub] of the pattern [^ftp://] by [http://]. *)
Definition ftp_to_http (url : string) : string :=
  match url with
  | String "f" (String "t" (String "p" (String ":" (String "/" (String "/" rest))))) =>
      "http://" ++ rest
  | _ => url
  end.

(** [requests.get(url, stream=True)]; a URL that is [None] has no scheme. *)
Definition get (url : option string) (w : World) : result response * World :=
  match url with
  | None => (Raise MissingSchema, w)
  | Some u => (http w u, record_call (CallGet u) w)
  end.

(** The request of [fetch_file]: when the URL's scheme is not supported and
    [http_fallback] is set, the request is made again over HTTP. *)
Definition get_with_fallback (url : option string) (http_fallback : bool) (w : World)
    : result response * World :=
  match get url w with
  | (Raise InvalidSchema, w') =>
      if http_fallback then get (ftp_to_http <$> url) w' else (Raise InvalidSchema, w')
  | other => other
  end.

(** [fetch_file(file_name, url, target_directory, update, http_fallback)].
    The [verbose] argument only adds progress output and is left out. The
    file system is flat, a path being the key it is spelled with: opening a
    path for writing fails only when the path is a directory, which is how
    the code behaves for a file name that names an entry of the storage
    directory ([plain_name]). *)
Definition fetch_file (file_name : string) (url : option string) (target_directory : string)
    (update http_fallback : bool) (w : World) : result string * World :=
  let w := record_call (CallFetchFile file_name url target_directory update) w in
  if negb (isdir w target_directory) && isfile w target_directory then
    (Raise (OSError "Local storage exists and is not a directory"), w)
  else
    let w := if isdir w target_directory then w else makedirs target_directory w in
    let target_file := Str.join target_directory file_name in
    if negb update && isdir w target_file then
      (Raise (OSError ("Directory with target name exists: " ++ target_file)), w)
    else if negb update && isfile w target_file then
      (Ok target_file, w)
    else
      let '(stream, w) := get_with_fallback url http_fallback w in
      match stream with
      | Raise e => (Raise e, w)
      | Ok stream =>
          if negb (status_code stream =? 200)%nat then
            (Raise (URLError (fmt url ++ ": status code " ++ pretty (status_code stream))), w)
          else
            let total_bytes := default 0 (content_length stream) in
            if isdir w target_file then (Raise (OSError "Is a directory"), w)
            else
              let w := set_fs w (<[target_file := File (String.concat "" (iter_content stream))]> (fs w)) in
              let written_bytes := sum_list (String.length <$> iter_content stream) in
              if negb (total_bytes =? written_bytes)%nat then
                (Raise (URLError "Failed to download the correct number of bytes"),
                 remove target_file w)
              else (Ok target_file, w)
      end.

End Util.
Export Util.

(** ** Assays: [genefab/_assay.py] *)

(** A parsed data file: the frame [read_csv] returns, with its column labels,
    the name given to the column axis, and the row index and cells. *)
Record Table : Type := {
  tbl_columns : list label;
  tbl_columns_name : option string;
  tbl_index : list string;
  tbl_cells : list (list string)
}.

Definition set_tbl_columns (t : Table) (cols : list label) : Table :=
  {| tbl_columns := cols; tbl_columns_name := tbl_columns_name t;
     tbl_index := tbl_index t; tbl_cells := tbl_cells t |}.

Definition set_tbl_columns_name (t : Table) (n : option string) : Table :=
  {| tbl_columns := tbl_columns t; tbl_columns_name := n;
     tbl_index := tbl_index t; tbl_cells := tbl_cells t |}.

(** The attributes of an [Assay] object. [_indexed_by] and
    [_field_indexed_by] are [None] until [__init__] assigns them;
    [_normalized_data] and [_processed_data] are [None] until a fetch stores a
    table. *)
Record Assay : Type := {
  name : string;
  _fields : gmap string (gset string);
  raw_metadata : DataFrame string;
  glds_file_urls : gmap string string;
  storage : string;
  _normalized_data : option Table;
  _processed_data : option Table;
  _indexed_by : option string;
  _name_delim : string;
  _field_indexed_by : option string
}.

Definition set_fields (self : Assay) (v : gmap string (gset string)) : Assay :=
  {| name := name self; _fields := v; raw_metadata := raw_metadata self;
     glds_file_urls := glds_file_urls self; storage := storage self;
     _normalized_data := _normalized_data self; _processed_data := _processed_data self;
     _indexed_by := _indexed_by self; _name_delim := _name_delim self;
     _field_indexed_by := _field_indexed_by self |}.

Definition set_raw_metadata (self : Assay) (v : DataFrame string) : Assay :=
  {| name := name self; _fields := _fields self; raw_metadata := v;
     glds_file_urls := glds_file_urls self; storage := storage self;
     _normalized_data := _normalized_data self; _processed_data := _processed_data self;
     _indexed_by := _indexed_by self; _name_delim := _name_delim self;
     _field_indexed_by := _field_indexed_by self |}.

Definition set_indexed_by (self : Assay) (v : option string) : Assay :=
  {| name := name self; _fields := _fields self; raw_metadata := raw_metadata self;
     glds_file_urls := glds_file_urls self; storage := storage self;
     _normalized_data := _normalized_data self; _processed_data := _processed_data self;
     _indexed_by := v; _name_delim := _name_delim self;
     _field_indexed_by := _field_indexed_by self |}.

Definition set_field_indexed_by (self : Assay) (v : option string) : Assay :=
  {| name := name self; _fields := _fields self; raw_metadata := raw_metadata self;
     glds_file_urls := glds_file_urls self; storage := storage self;
     _normalized_data := _normalized_data self; _processed_data := _processed_data self;
     _indexed_by := _indexed_by self; _name_delim := _name_delim self;
     _field_indexed_by := v |}.

Definition set_normalized_data (self : Assay) (v : option Table) : Assay :=
  {| name := name self; _fields := _fields self; raw_metadata := raw_metadata self;
     glds_file_urls := glds_file_urls self; storage := storage self;
     _normalized_data := v; _processed_data := _processed_data self;
     _indexed_by := _indexed_by self; _name_delim := _name_delim self;
     _field_indexed_by := _field_indexed_by self |}.

Definition set_processed_data (self : Assay) (v : option Table) : Assay :=
  {| name := name self; _fields := _fields self; raw_metadata := raw_metadata self;
     glds_file_urls := glds_file_urls self; storage := storage self;
     _normalized_data := _normalized_data self; _processed_data := v;
     _indexed_by := _indexed_by self; _name_delim := _name_delim self;
     _field_indexed_by := _field_indexed_by self |}.

(** Truth value of [self._indexed_by] in a condition: [None] and the empty
    string are false. *)
Definition truthy (o : option string) : bool :=
  match o with
  | Some s => negb (String.eqb s "")
  | None => false
  end.

Section assay.
Context {re : ReEngine}.

(** [search] and [fullmatch] with [flags=IGNORECASE], the flags
    [_match_field_titles] passes by default. *)
Definition search : re_method := re_search true.
Definition fullmatch : re_method := re_fullmatch true.

(** [Assay._match_field_titles(pattern, flags=IGNORECASE, method)]. *)
Definition _match_field_titles (self : Assay) (pattern : string) (method : re_method) : gset string :=
  let field_pool : gset string :=
    match _indexed_by self with
    | Some t => if truthy (_indexed_by self) then dom (_fields self) ∪ {[t]} else dom (_fields self)
    | None => dom (_fields self)
    end in
  filter (λ title, Is_true (method pattern title)) field_pool.

(** [Assay._get_unique_field_from_title(title)]. The result is a field id,
    or [None] when the index title is matched on an object whose
    [_field_indexed_by] is still [None]. *)
Definition _get_unique_field_from_title (self : Assay) (title : string) : result (option string) :=
  let matching_titles := _match_field_titles self title search in
  if bool_decide (size matching_titles = 0) then
    Raise (IndexError ("Nonexistent '" ++ title ++ "'"))
  else if bool_decide (1 < size matching_titles) then
    Raise (IndexError ("Ambiguous '" ++ title ++ "'"))
  else
    matching_fields <-
      (match set_first matching_titles with
      | Some matching_title =>
          if bool_decide (Some matching_title = _indexed_by self)
          then Ok ({[ _field_indexed_by self ]} : gset (option string))
          else
            match _fields self !! matching_title with
            | Some fields => Ok (set_map (D := gset (option string)) Some fields)
            | None => Raise (KeyError matching_title)
            end
      | None => Raise (KeyError "pop from an empty set")
      end : result (gset (option string)));;
    if bool_decide (size matching_fields = 0) then
      Raise (IndexError ("Nonexistent '" ++ title ++ "'"))
    else if bool_decide (1 < size matching_fields) then
      Raise (IndexError ("Ambiguous '" ++ title ++ "'"))
    else
      match set_first matching_fields with
      | Some f => Ok f
      | None => Raise (IndexError "list index out of range")
      end.

(** [AssayMetadata.__getitem__(patterns)] for a list-like of title
    patterns. *)
Definition metadata_getitem (self : Assay) (patterns : list string) : result (DataFrame string) :=
  let titles : gset string :=
    ∅ ∪ ⋃ ((λ p, _match_field_titles self p fullmatch) <$> patterns) in
  if bool_decide (titles ≠ ∅) then
    field_sets <- map_result
      (λ t, match _fields self !! t with
            | Some fs => Ok fs
            | None => Raise (KeyError t)
            end) (elements titles);;
    fields <- set_union_star field_sets;;
    getcols (raw_metadata self) (elements fields)
  else Ok empty_frame.

(** [AssayMetadata.__getitem__(patterns)] for a frame of one column used as
    a boolean indexer; [None] is a column whose dtype is not [bool]. *)
Definition metadata_getitem_mask (self : Assay) (indexer : option (list bool)) : result (DataFrame string) :=
  match indexer with
  | Some mask => Ok (select_mask (raw_metadata self) mask)
  | None => Raise (IndexError "Cannot index by arbitrary DataFrame")
  end.

(** The index labels that a pattern matches in full; matching against a
    label that is not a string is a [TypeError]. *)
Definition index_matches (self : Assay) (pattern : string) : result (gset label) :=
  matched <- map_result
    (λ ix, match ix with
           | LStr s => Ok (if fullmatch pattern s then [ix] else [])
           | _ => Raise TypeError
           end) (index (raw_metadata self));;
  Ok (list_to_set (List.concat matched)).

(** The keys [AssayMetadataLocator.__getitem__] interprets itself: a pair
    of pattern collections, a frame of one column, a collection of index
    patterns. Any other key is handed to pandas as it is. *)
Inductive loc_key : Type :=
| KPair (index_patterns title_patterns : list string)
| KMask (indexer : option (list bool))
| KPatterns (patterns : list string).

(** The branch of [AssayMetadataLocator.__getitem__] for a collection of
    index patterns. *)
Definition locator_patterns (self : Assay) (patterns : list string) : result (DataFrame string) :=
  sets <- map_result (index_matches self) patterns;;
  indices <- set_union_star sets;;
  loc_labels (raw_metadata self) (elements indices).

(** A label used as a pattern by the re-entrant call of the pair branch. *)
Definition label_pattern (l : label) : result string :=
  match l with
  | LStr s => Ok s
  | _ => Raise TypeError
  end.

(** [AssayMetadataLocator.__getitem__(key)]. In the pair branch
    [self.parent.loc] is the locator itself, so the matched labels are
    looked up as patterns again. *)
Definition locator_getitem (self : Assay) (key : loc_key) : result (DataFrame string) :=
  match key with
  | KPair index_patterns title_patterns =>
      sets <- map_result (index_matches self) index_patterns;;
      indices <- set_union_star sets;;
      again <- map_result label_pattern (elements indices);;
      row_subset <- locator_patterns self again;;
      field_titles <- set_union_star
        ((λ t, _match_field_titles self t fullmatch) <$> title_patterns);;
      field_sets <- map_result
        (λ t, match _fields self !! t with
              | Some fs => Ok fs
              | None => Raise (KeyError t)
              end) (elements field_titles);;
      fields <- set_union_star field_sets;;
      getcols row_subset (elements fields)
  | KMask indexer => metadata_getitem_mask self indexer
  | KPatterns patterns => locator_patterns self patterns
  end.

(** [Assay.has_arrays], [has_normalized_data], [has_processed_data]. *)
Definition has_arrays (self : Assay) : bool :=
  bool_decide ("Array Design REF" ∈ dom (_fields self)).
Definition has_normalized_data (self : Assay) : bool :=
  bool_decide (0 < size (_match_field_titles self "normalized data files" search)).
Definition has_processed_data (self : Assay) : bool :=
  bool_decide (0 < size (_match_field_titles self "normalized annotated data files" search)).

(** [Assay._get_file_url(filemask)]; [search] is called without flags, once
    for every known file name: with a file name to search in, a mask whose
    conversion does not compile raises [re.error]. *)
Definition _get_file_url (self : Assay) (filemask : string) : result (option string) :=
  let regex_filemask := Str.star_to_dotstar (Str.before_slash filemask) in
  if bool_decide (dom (glds_file_urls self) ≠ ∅) && negb (re_compiles regex_filemask)
  then Raise ReError else
  let matching_names : gset string :=
    filter (λ filename, Is_true (re_search false regex_filemask filename))
           (dom (glds_file_urls self)) in
  if bool_decide (size matching_names = 0) then Ok None
  else if bool_decide (1 < size matching_names) then
    Raise (GeneLabJSONException "Multiple file URLs match name")
  else
    match set_first matching_names with
    | Some n =>
        match glds_file_urls self !! n with
        | Some url => Ok (Some url)
        | None => Raise (KeyError n)
        end
    | None => Raise (KeyError "pop from an empty set")
    end.

End assay.

(** ** Construction and derived data *)

Section assay_data.
Context {re : ReEngine}.

(** The sentinel of [genefab/_util.py] for a name delimiter that leaves
    sample names as they are. *)
Variable DELIM_AS_IS : string.

(** [pandas.read_csv] on the content of a file, with the separator. *)
Variable parse_csv : string → string → result Table.

(** [Assay.__init__(parent, name, json, glds_file_urls, storage_prefix,
    index_by, name_delim)], with [json] given as its [header] (pairs of a
    field id and a title) and its [raw] records. *)
Definition Assay__init__ (name : string) (header : list (string * string))
    (raw : list (gmap string string)) (glds_file_urls : gmap string string)
    (storage_prefix index_by name_delim : string) : result Assay :=
  let _field2title : gmap string string := foldl (λ m e, <[e.1 := e.2]> m) ∅ header in
  if bool_decide (size _field2title ≠ List.length header) then
    Raise (GeneLabJSONException "Conflicting IDs of data fields")
  else
    let fields : gmap string (gset string) :=
      map_fold (λ field title acc, <[title := default ∅ (acc !! title) ∪ {[field]}]> acc)
               ∅ _field2title in
    frame <- from_records raw;;
    let self :=
      {| name := name; _fields := fields; raw_metadata := frame;
         glds_file_urls := glds_file_urls; storage := Str.join storage_prefix name;
         _normalized_data := None; _processed_data := None;
         _indexed_by := None; _name_delim := name_delim; _field_indexed_by := None |} in
    field <- _get_unique_field_from_title self index_by;;
    let self := set_field_indexed_by self field in
    let maybe_indexed_by := _match_field_titles self index_by fullmatch in
    if bool_decide (size maybe_indexed_by ≠ 1) then
      Raise (IndexError ("Nonexistent or ambiguous index_by value: '" ++ index_by ++ "'"))
    else
      let self := set_indexed_by self (set_first maybe_indexed_by) in
      frame <- set_index (raw_metadata self) (_field_indexed_by self);;
      let self := set_raw_metadata self frame in
      self <-
        (if bool_decide (name_delim ≠ DELIM_AS_IS) then
           ix <- map_result (sub_delim_label name_delim) (index (raw_metadata self));;
           Ok (set_raw_metadata self
                 {| index := ix; columns := columns (raw_metadata self);
                    rows := rows (raw_metadata self) |})
         else Ok self);;
      match _indexed_by self with
      | Some t =>
          if bool_decide (t ∈ dom (_fields self))
          then Ok (set_fields self (delete t (_fields self)))
          else Raise (KeyError t)
      | None => Raise (KeyError "None")
      end.

(** A cell used as a pattern or as a string: a missing value is a
    [TypeError]. *)
Definition cell_str (c : option string) : result string :=
  match c with
  | Some s => Ok s
  | None => Raise TypeError
  end.

Definition cell_label (c : option string) : label := from_option LStr LNaN c.

(** [Assay._translate_data_sample_names(data, data_columns)]. *)
Definition _translate_data_sample_names (self : Assay) (data : Table) (data_columns : string) : result Table :=
  field_from <- _get_unique_field_from_title self data_columns;;
  let field_to := _field_indexed_by self in
  column_from <-
    match field_from with
    | Some f =>
        if bool_decide (Some f = field_to) then Ok (index (raw_metadata self))
        else cells <- getcol (raw_metadata self) f;; Ok (cell_label <$> cells)
    | None => Raise (KeyError "None")
    end;;
  column_to <-
    match field_to with
    | Some _ => Ok (index (raw_metadata self))
    | None => Raise (KeyError "None")
    end;;
  if bool_decide (List.length column_from = size (list_to_set column_from : gset label)
                  ∧ size (list_to_set column_from : gset label)
                    = size (list_to_set column_to : gset label)) then
    let column_translator : gmap label label :=
      foldl (λ m kv, <[kv.1 := kv.2]> m) ∅ (zip column_from column_to) in
    translated_columns <- map_result
      (λ column,
         column <- label_pattern column;;
         hits <- map_result
           (λ k, p <- label_pattern k;; Ok (if re_search false p column then [k] else []))
           (elements (dom column_translator));;
         let matching_keys : gset label := list_to_set (List.concat hits) in
         if bool_decide (size matching_keys = 1) then
           match set_first matching_keys ≫= (column_translator !!.) with
           | Some v => Ok v
           | None => Raise (KeyError "pop from an empty set")
           end
         else
           Raise (IndexError ("Cannot reindex '" ++ fmt (_indexed_by self)
                                ++ "' to ambiguous '" ++ data_columns ++ "'")))
      (tbl_columns data);;
    Ok (set_tbl_columns data translated_columns)
  else
    Raise (IndexError ("Cannot reindex '" ++ fmt (_indexed_by self)
                         ++ "' to ambiguous '" ++ data_columns ++ "'")).

(** [read_csv(csv, sep=sep, index_col=0)] on a path of the local file
    system. *)
Definition read_csv (path sep : string) (w : World) : result Table * World :=
  let w := record_call (CallReadCsv path) w in
  match fs w !! path with
  | Some (File content) => (parse_csv content sep, w)
  | _ => (Raise FileNotFoundError, w)
  end.

(** The candidate file names of [_read_data_from]: the names in the cells,
    split at commas, without those the blacklist matches. *)
Definition target_filenames (blacklist_regex : string) (cells : list (option string)) : result (gset string) :=
  sets <- map_result (λ e, s <- cell_str e;; Ok (list_to_set (Str.split_commas s) : gset string)) cells;;
  filenames <- set_union_star sets;;
  Ok (filter (λ fn, ¬ Is_true (re_search false blacklist_regex fn)) filenames).

(** The last stage of [_read_data_from], once the single file name is
    known: resolve its URL, fetch, parse, rename the columns. *)
Definition fetch_and_parse (self : Assay) (filename : string)
    (force_redownload translate_sample_names : bool) (data_columns sep : string)
    (w : World) : result (option Table) * World :=
  match _get_file_url self filename with
  | Raise e => (Raise e, w)
  | Ok url =>
      match fetch_file filename url (storage self) force_redownload true w with
      | (Raise e, w) => (Raise e, w)
      | (Ok _, w) =>
          let csv := Str.join (storage self) filename in
          match read_csv csv sep w with
          | (Raise e, w) => (Raise e, w)
          | (Ok data, w) =>
              let data := set_tbl_columns_name data (_indexed_by self) in
              (data <- (if translate_sample_names
                        then _translate_data_sample_names self data data_columns
                        else Ok data);;
               data <- (if bool_decide (_name_delim self ≠ DELIM_AS_IS)
                        then cols <- map_result (sub_delim_label (_name_delim self)) (tbl_columns data);;
                             Ok (set_tbl_columns data cols)
                        else Ok data);;
               Ok (Some data), w)
          end
      end
  end.

(** [Assay._read_data_from(field_title, blacklist_regex, force_redownload,
    translate_sample_names, data_columns, sep)]. *)
Definition _read_data_from (self : Assay) (field_title blacklist_regex : string)
    (force_redownload translate_sample_names : bool) (data_columns sep : string)
    (w : World) : result (option Table) * World :=
  match metadata_getitem self [field_title] with
  | Raise e => (Raise e, w)
  | Ok meta_files =>
      if bool_decide (len meta_files ≠ 0) then
        match target_filenames blacklist_regex (values_flatten meta_files) with
        | Raise e => (Raise e, w)
        | Ok target_filenames =>
            if bool_decide (size target_filenames = 0) then
              (Raise (GeneLabFileException "No suitable normalized annotated data files found"), w)
            else if bool_decide (1 < size target_filenames) then
              (Raise (GeneLabFileException "Multiple normalized annotated data files found"), w)
            else
              match set_first target_filenames with
              | Some filename =>
                  fetch_and_parse self filename force_redownload translate_sample_names
                                  data_columns sep w
              | None => (Raise (KeyError "pop from an empty set"), w)
              end
        end
      else (Ok None, w)
  end.

(** A method that assigns its result to an attribute of [self]: when the
    call raises, the attribute keeps its value. *)
Definition assign (setter : Assay → option Table → Assay) (self : Assay)
    (r : result (option Table) * World) : result (option Table) * Assay * World :=
  match r with
  | (Ok v, w) => (Ok v, setter self v, w)
  | (Raise e, w) => (Raise e, self, w)
  end.

(** [Assay.get_normalized_data(force_redownload, translate_sample_names,
    data_columns)]. *)
Definition get_normalized_data (force_redownload translate_sample_names : bool)
    (data_columns : string) (self : Assay) (w : World) : result (option Table) * Assay * World :=
  assign set_normalized_data self
    (_read_data_from self ".*normalized data files.*" "\.rda(ta)?(\.gz)?$"
       force_redownload translate_sample_names data_columns (String (ascii_of_nat 9) "") w).

(** The property [Assay.normalized_data]. *)
Definition normalized_data (self : Assay) (w : World) : result (option Table) * Assay * World :=
  match _normalized_data self with
  | None => get_normalized_data false false "sample name" self w
  | Some data => (Ok (Some data), self, w)
  end.

(** [Assay.get_processed_data(force_redownload, translate_sample_names,
    data_columns)]. *)
Definition get_processed_data (force_redownload translate_sample_names : bool)
    (data_columns : string) (self : Assay) (w : World) : result (option Table) * Assay * World :=
  assign set_processed_data self
    (_read_data_from self ".*normalized annotated data files.*" "\.rda(ta)?(\.gz)?$"
       force_redownload translate_sample_names data_columns (String (ascii_of_nat 9) "") w).

(** The property [Assay.processed_data]. *)
Definition processed_data (self : Assay) (w : World) : result (option Table) * Assay * World :=
  match _processed_data self with
  | None => get_processed_data false false "sample name" self w
  | Some data => (Ok (Some data), self, w)
  end.

End assay_data.

(** ** Collections of assays: [AssayDispatcher] *)

Definition ASSAY_CHARACTERISTICS : list string := [
  "normalized annotated data file";
  "differential expression analysis data transformation";
  "normalized counts data file"
].

Definition ASSAY_PROTOCOL_LIST : list string := [
  "genelab microarray data processing protocol";
  "genelab rnaseq data processing protocol"
].

(** A cell of the summary frame, or a value it is compared with. *)
Inductive value : Type :=
| VStr (s : string)
| VBool (b : bool)
| VInt (n : nat).

#[global] Instance value_eq_dec : EqDecision value.
Proof. solve_decision. Defined.

(** Objects live in a store and are held by reference: two collections
    share an [Assay] when they hold the same reference. *)
Abbreviation ref := positive (only parsing).
Abbreviation Store := (gmap ref Assay) (only parsing).

(** An [AssayDispatcher] is a [dict] from assay names to [Assay] objects. *)
Abbreviation AssayDispatcher := (gmap string ref) (only parsing).

Section dispatcher.
Context {re : ReEngine}.

(** The columns of the frame [Assay.annotation()] returns; it is computed
    from the samples of the parent study. *)
Variable annotation_columns : Assay → result (list string).

(** The columns of [Assay.factors()]. *)
Definition factors_columns (assay : Assay) : result (list string) :=
  cols <- annotation_columns assay;;
  Ok (filter (λ field, Is_true (re_search true "^factor value" field)) cols).

Definition deref (h : Store) (r : ref) : result Assay :=
  match h !! r with
  | Some a => Ok a
  | None => Raise (KeyError "no such object")
  end.

(** The rows one assay contributes to the summary: one per factor. *)
Definition summary_rows (assay_name : string) (assay : Assay) : result (list (list value)) :=
  protocol_frame <- metadata_getitem assay ["Protocol REF"];;
  protocols <- map_result
    (λ c, match c with Some s => Ok (Str.lower s) | None => Raise TypeError end)
    (values_flatten protocol_frame);;
  let protocol_set : gset string := list_to_set protocols in
  cols <- factors_columns assay;;
  let factors : gset string := list_to_set (Str.sub_factor_value <$> cols) in
  Ok ((λ factor,
         ([VStr assay_name; VStr factor]
          ++ ((λ characteristic,
                 VBool (bool_decide (0 < size (_match_field_titles assay characteristic search))))
                <$> ASSAY_CHARACTERISTICS)
          ++ ((λ protocol, VBool (bool_decide (protocol ∈ protocol_set)))
                <$> ASSAY_PROTOCOL_LIST))%list)
        <$> elements factors).

Definition summary_columns : list string :=
  (["name"; "factors"] ++ ASSAY_CHARACTERISTICS ++ ASSAY_PROTOCOL_LIST)%list.

(** The property [AssayDispatcher._summary_dataframe]. *)
Definition _summary_dataframe (self : AssayDispatcher) (h : Store) : result (DataFrame value) :=
  repr_rows <- map_result
    (λ item : string * ref, assay <- deref h item.2;; summary_rows item.1 assay)
    (map_to_list self);;
  Ok (from_rows summary_columns (List.concat repr_rows)).

(** [subsetter &= (rd[column] == v)]. *)
Definition and_equal (rd : DataFrame value) (subsetter : list bool) (column : string)
    (v : option value) : result (list bool) :=
  match v with
  | None => Ok subsetter
  | Some v =>
      col <- getcol rd column;;
      Ok (zip_with andb subsetter ((λ c, bool_decide (c = Some v)) <$> col))
  end.

(** [deepcopy] of a collection: every object it reaches is copied to a
    fresh reference, once. *)
Definition deepcopy_item (h : Store) (item : string * ref)
    (acc : AssayDispatcher * Store * gmap ref ref) : AssayDispatcher * Store * gmap ref ref :=
  let '(d, h', memo) := acc in
  match memo !! item.2 with
  | Some r' => (<[item.1 := r']> d, h', memo)
  | None =>
      match h !! item.2 with
      | Some a =>
          let r' := fresh (dom h') in
          (<[item.1 := r']> d, <[r' := a]> h', <[item.2 := r']> memo)
      | None => acc
      end
  end.

Definition deepcopy (self : AssayDispatcher) (h : Store) : AssayDispatcher * Store :=
  (foldr (deepcopy_item h) (∅, h, ∅) (map_to_list self)).1.

(** The end of [choose]: copy the collection, then delete from the copy
    every name that is not among the chosen index labels. *)
Definition choose_subset (chosen_names : gset label) (self : AssayDispatcher) (h : Store)
    : AssayDispatcher * Store :=
  let '(chosen_subset, h') := deepcopy self h in
  (foldl (λ subset name,
            if bool_decide (LStr name ∉ chosen_names) then delete name subset else subset)
         chosen_subset (elements (dom self)),
   h').

(** The index labels [choose] selects from the summary frame. *)
Definition chosen_names (factors : option string)
    (has_arrays has_normalized_data has_processed_data : option bool)
    (rd : DataFrame value) : result (gset label) :=
  col <- getcol rd "has_arrays";;
  let subsetter := (λ c, bool_decide (c ≠ Some (VInt 2))) <$> col in
  subsetter <- and_equal rd subsetter "factors" (VStr <$> factors);;
  subsetter <- and_equal rd subsetter "has_arrays" (VBool <$> has_arrays);;
  subsetter <- and_equal rd subsetter "has_normalized_data" (VBool <$> has_normalized_data);;
  subsetter <- and_equal rd subsetter "has_processed_data" (VBool <$> has_processed_data);;
  Ok (list_to_set (index (select_mask rd subsetter))).

(** [AssayDispatcher.choose(factors, material_type, has_arrays,
    has_normalized_data, has_processed_data)]; [material_type] is not
    used. *)
Definition choose (factors : option string)
    (has_arrays has_normalized_data has_processed_data : option bool)
    (self : AssayDispatcher) (h : Store) : result AssayDispatcher * Store :=
  match rd <- _summary_dataframe self h;;
        chosen_names factors has_arrays has_normalized_data has_processed_data rd with
  | Raise e => (Raise e, h)
  | Ok names => let '(subset, h') := choose_subset names self h in (Ok subset, h')
  end.

End dispatcher.

(** ** Readings used in the statements *)

(** The rewrite of a sample name as the specification words it: a dot or a
    dash becomes an underscore, every other character stays. *)
Fixpoint replace_dot_dash (s : string) : string :=
  match s with
  | EmptyString => EmptyString
  | String c rest =>
      String (if Str.ascii_eqb c "." || Str.ascii_eqb c "-" then "_"%char else c)
             (replace_dot_dash rest)
  end.

(** A file name that names an entry of the directory it is joined to: not
    empty, not [.] or [..], without a slash and without a null character. *)
Definition plain_name (file_name : string) : bool :=
  negb (String.eqb file_name "") && negb (String.eqb file_name ".")
  && negb (String.eqb file_name "..")
  && forallb (λ c, negb (Str.ascii_eqb c "/") && negb (Str.ascii_eqb c (ascii_of_nat 0)))
             (Str.chars file_name).

(** ** Concrete inputs *)

Module Examples.

(** The name-delimiter sentinel as the package sets it. *)
Definition delim_as_is : string := "as.is".

Definition header : list (string * string) :=
  [("a100", "Sample Name"); ("a101", "Protocol REF");
   ("a102", "Parameter Value: Normalized Data Files")].

Definition record1 : gmap string string :=
  list_to_map [("a100", "GSM-1.a"); ("a101", "GeneLab RNAseq data processing protocol");
               ("a102", "GLDS-1_out.txt, GLDS-1_out.rda.gz")].

Definition record2 : gmap string string :=
  list_to_map [("a100", "GSM-2.b"); ("a101", "GeneLab RNAseq data processing protocol");
               ("a102", "GLDS-1_out.txt")].

Definition file_urls : gmap string string :=
  list_to_map [("GLDS-1_out.txt", "https://host/GLDS-1_out.txt");
               ("SRR123_1.fastq", "https://host/SRR123_1.fastq");
               ("SRR123_2.fastq", "https://host/SRR123_2.fastq")].

(** A parser that reads nothing from the file but its column labels. *)
Definition parse_csv (content sep : string) : result Table :=
  Ok {| tbl_columns := LStr <$> Str.split_commas content; tbl_columns_name := None;
        tbl_index := []; tbl_cells := [] |}.

Definition init (header : list (string * string)) (raw : list (gmap string string))
    (index_by name_delim : string) : result Assay :=
  @Assay__init__ MiniRe.engine delim_as_is "a1" header raw file_urls "/store" index_by name_delim.

Definition unwrap (r : result Assay) : Assay :=
  match r with
  | Ok a => a
  | Raise _ =>
      {| name := ""; _fields := ∅; raw_metadata := empty_frame; glds_file_urls := ∅;
         storage := ""; _normalized_data := None; _processed_data := None;
         _indexed_by := None; _name_delim := ""; _field_indexed_by := None |}
  end.

(** An assay of two samples, indexed by sample name, names rewritten with
    an underscore. *)
Definition assay : Assay := Eval vm_compute in unwrap (init header [record1; record2] "Sample Name" "_").

(** An assay with two file columns, the title of one contained in the
    title of the other. *)
Definition array_header : list (string * string) :=
  [("a100", "Sample Name"); ("a104", "Array Data File"); ("a105", "Derived Array Data File")].

Definition array_record : gmap string string :=
  list_to_map [("a100", "GSM-1.a"); ("a104", "s1.CEL"); ("a105", "s1.txt")].

Definition arrays : Assay :=
  Eval vm_compute in unwrap (init array_header [array_record] "Sample Name" "_").

(** A header whose index column carries an empty title. *)
Definition untitled_header : list (string * string) :=
  [("a100", ""); ("a101", "Protocol REF")].

Definition untitled : Assay :=
  Eval vm_compute in unwrap (init untitled_header [record1; record2] "^$" "_").

(** A server that answers one URL, with or without a [content-length]. *)
Definition server (declared : option nat) (url : string) : result response :=
  if String.eqb url "https://host/GLDS-1_out.txt"
  then Ok {| status_code := 200; content_length := declared;
             iter_content := ["GSM-1.a,"; "GSM-2.b"] |}
  else Raise (URLError "unknown host").

Definition world (declared : option nat) : World :=
  {| fs := ∅; http := server declared; calls := [] |}.

(** A collection of one assay, held by reference [1]. *)
Definition collection : AssayDispatcher := {[ "a1" := 1%positive ]}.
Definition store : Store := {[ 1%positive := assay ]}.
Definition annotation_columns (a : Assay) : result (list string) :=
  Ok ["Factor Value:  Spaceflight"; "Characteristics: Organism"].

(** An assay whose data files are all archives. *)
Definition archive_record : gmap string string :=
  list_to_map [("a100", "GSM-1.a"); ("a101", "GeneLab RNAseq data processing protocol");
               ("a102", "GLDS-1_out.rda.gz, GLDS-1_out.rdata")].

Definition archives : Assay :=
  Eval vm_compute in unwrap (init header [archive_record] "Sample Name" "_").

(** The table parsed from the file the server sends. *)
Definition table : Table :=
  {| tbl_columns := [LStr "GSM_1_a"; LStr "GSM_2_b"]; tbl_columns_name := Some "Sample Name";
     tbl_index := []; tbl_cells := [] |}.

(** The first fetch of normalized data, from a server that declares the
    length of the file. *)
Definition fetched : result (option Table) * Assay * World :=
  get_normalized_data (re := MiniRe.engine) delim_as_is parse_csv false false "sample name"
    assay (world (Some 15)).

End Examples.

(** ** The registry of fields *)

(** The dictionary from field ids to titles that [Assay.__init__] builds
    from the header, and the dictionary from titles to sets of field ids it
    derives from it. *)
Definition field2title (header : list (string * string)) : gmap string string :=
  foldl (λ m e, <[e.1 := e.2]> m) ∅ header.

Definition registry (header : list (string * string)) : gmap string (gset string) :=
  map_fold (λ field title acc, <[title := default ∅ (acc !! title) ∪ {[field]}]> acc)
           ∅ (field2title header).


(** A label that some pattern of a collection matches in full, case
    ignored: the test of the comprehensions in
    [AssayMetadataLocator.__getitem__], for a label that is a string. *)
Definition label_matches {re : ReEngine} (patterns : list string) (l : label) : bool :=
  match l with
  | LStr s => existsb (λ p, re_fullmatch true p s) patterns
  | _ => false
  end.

(** ** Construction of a collection *)

(** The [json] of one assay: a dictionary that may or may not have its
    [raw] records and its [header]. *)
Record assay_json : Type := {
  json_raw : option (list (gmap string string));
  json_header : option (list (string * string))
}.

(** What [AssayDispatcher.__init__] raises: an exception of [Assay.__init__]
    that its handler does not catch, or the [AttributeError] of the handler
    itself, which formats [self.accession], an attribute that neither [dict]
    nor the class defines. *)
Inductive dispatcher_exn : Type :=
| Escaped (e : exn)
| AttributeError (attribute : string).

Inductive dispatcher_result : Type :=
| Built (d : gmap string positive)
| Failed (e : dispatcher_exn).

Section dispatcher_init.
Context {re : ReEngine}.
Variable DELIM_AS_IS : string.

(** [Assay(parent, name, json, ...)], from the dictionary of the assay:
    [__init__] reads [json["raw"]], then [json["header"]]. *)
Definition Assay_of_json (name : string) (json : assay_json)
    (glds_file_urls : gmap string string) (storage_prefix index_by name_delim : string)
    : result Assay :=
  match json_raw json with
  | None => Raise (KeyError "raw")
  | Some raw =>
      match json_header json with
      | None => Raise (KeyError "header")
      | Some header =>
          Assay__init__ DELIM_AS_IS name header raw glds_file_urls storage_prefix
                        index_by name_delim
      end
  end.

(** The loop of [AssayDispatcher.__init__] under its handler: the items of
    [json] in order, each new [Assay] stored under its name. *)
Fixpoint dispatcher_loop (items : list (string * assay_json))
    (glds_file_urls : gmap string string) (storage_prefix index_by name_delim : string)
    (self : gmap string positive) (h : gmap positive Assay)
    : dispatcher_result * gmap positive Assay :=
  match items with
  | [] => (Built self, h)
  | (assay_name, assay_json) :: rest =>
      match Assay_of_json assay_name assay_json glds_file_urls storage_prefix
                          index_by name_delim with
      | Ok assay =>
          let r := fresh (dom h) in
          dispatcher_loop rest glds_file_urls storage_prefix index_by name_delim
                          (<[assay_name := r]> self) (<[r := assay]> h)
      | Raise (KeyError _) => (Failed (AttributeError "accession"), h)
      | Raise e => (Failed (Escaped e), h)
      end
  end.

(** [AssayDispatcher(parent, json, glds_file_urls, storage_prefix, index_by,
    name_delim)], with [json] given as its items. *)
Definition AssayDispatcher__init__ (json : list (string * assay_json))
    (glds_file_urls : gmap string string) (storage_prefix index_by name_delim : string)
    (h : gmap positive Assay) : dispatcher_result * gmap positive Assay :=
  dispatcher_loop json glds_file_urls storage_prefix index_by name_delim ∅ h.

End dispatcher_init.

(** ** CLS output: [genefab/_display.py] *)

(** The default [space_sub] of [to_cls]: [sub] of the pattern [\s] by the
    empty string, on ASCII text. *)
Definition space_sub (s : string) : string :=
  Str.of_chars (List.filter (λ c, negb (Str.is_space c)) (Str.chars s)).

(** [Series.unique()]: the values in the order they first appear. *)
Fixpoint unique {A} `{EqDecision A} (l : list A) : list A :=
  match l with
  | [] => []
  | x :: l' => x :: filter (λ y, y ≠ x) (unique l')
  end.

(** The argument [continuous] of [to_cls]: a string or a boolean. *)
Inductive py_continuous : Type :=
| CStr (s : string)
| CBool (b : bool).

Definition newline : string := String (ascii_of_nat 10) "".
Definition tab : string := String (ascii_of_nat 9) "".

Section cls.

(** Floating-point numbers, the conversion of a cell by [astype(float)]
    ([None] when it raises a [ValueError]), and [str] of a number. *)
Variable float : Type.
Variable float_of_cell : option string → option float.
Variable str_float : float → string.

(** [dataframe[target].astype(float)]. *)
Definition astype_float (column : list (option string)) : result (list float) :=
  map_result (λ c, match float_of_cell c with
                   | Some x => Ok x
                   | None => Raise ValueError
                   end) column.

(** [to_cls(dataframe, target, continuous)], with the default
    [space_sub]. *)
Definition to_cls (dataframe : DataFrame string) (target : string)
    (continuous : py_continuous) : result string :=
  let sample_count := len dataframe in
  continuous <-
    (match continuous with
     | CStr s =>
         if String.eqb s "infer" then
           column <- getcol dataframe target;;
           match astype_float column with
           | Ok _ => Ok true
           | Raise ValueError => Ok false
           | Raise e => Raise e
           end
         else if String.eqb s "0" then Ok false
         else if String.eqb s "1" then Ok true
         else Raise TypeError
     | CBool b => Ok b
     end);;
  cls_data <-
    (if continuous : bool then
       column <- getcol dataframe target;;
       floats <- astype_float column;;
       Ok [["#numeric"]; ["#" ++ target]; str_float <$> floats]
     else
       column <- getcol dataframe target;;
       let classes := unique column in
       first <- match classes with
                | [] => Raise (IndexError "index 0 is out of bounds for axis 0 with size 0")
                | c :: _ => s <- cell_str c;; Ok (space_sub s)
                end;;
       others <- map_result (λ c, s <- cell_str c;; Ok (space_sub s)) (tail classes);;
       ids <- map_result
                (λ v, match list_find (λ c, c = v) classes with
                      | Some (i, _) => Ok i
                      | None => Raise (KeyError (fmt v))
                      end) column;;
       Ok [[pretty sample_count; pretty (List.length classes); "1"];
           ("# " ++ first) :: others;
           pretty <$> ids]);;
  Ok (String.concat newline (String.concat tab <$> cls_data)).

End cls.

(** ** File listings: [genefab/_dataset.py] *)

(** Assignment to a key of a [dict] kept in insertion order: a key that is
    there keeps its place and takes the new value. *)
Fixpoint dict_set (k v : string) (d : list (string * string)) : list (string * string) :=
  match d with
  | [] => [(k, v)]
  | (k', v') :: d' => if String.eqb k k' then (k, v) :: d' else (k', v') :: dict_set k v d'
  end.

Section dataset.

(** The constants [URL_ROOT] and [LOCAL_STORAGE], and [get_json] as the
    records the server lists under a URL. *)
Variable URL_ROOT LOCAL_STORAGE : string.
Variable get_json : string → result (list (gmap string string)).

(** The loop of [file_list] over the items of the listing. *)
Fixpoint fetch_listed (items : list (string * string)) (update : bool) (w : World)
    : result unit * World :=
  match items with
  | [] => (Ok (), w)
  | (file_name, url) :: rest =>
      match fetch_file file_name (Some url) LOCAL_STORAGE update true w with
      | (Raise e, w) => (Raise e, w)
      | (Ok _, w) => fetch_listed rest update w
      end
  end.

(** [GeneLabDataSet.file_list(fetch, update)], for a data set with the given
    [_internal_id]. *)
Definition file_list (_internal_id : string) (fetch update : bool) (w : World)
    : result (list (string * string)) * World :=
  let listing_url := URL_ROOT ++ "/data/study/filelistings/" ++ _internal_id in
  match
    records <- get_json listing_url;;
    names <- map_result (λ record : gmap string string,
                           match record !! "file_name" with
                           | Some n => Ok n
                           | None => Raise (KeyError "file_name")
                           end) records;;
    Ok (foldl (λ d n, dict_set n (URL_ROOT ++ "/static/media/dataset/" ++ n) d) [] names)
  with
  | Raise e => (Raise e, w)
  | Ok file_list =>
      if fetch then
        match fetch_listed file_list update w with
        | (Raise e, w) => (Raise e, w)
        | (Ok _, w) => (Ok file_list, w)
        end
      else (Ok file_list, w)
  end.

End dataset.

(** ** The stages of a download *)

(** The world [fetch_file] works in after its checks of the storage
    directory. *)
Definition storage_ready (file_name : string) (url : option string) (target_directory : string)
    (update : bool) (w : World) : World :=
  let w := record_call (CallFetchFile file_name url target_directory update) w in
  if isdir w target_directory then w else makedirs target_directory w.

(** ** More concrete inputs *)

Module Cases.

(** An assay built without a name delimiter from two records, the second
    without a sample name. *)
Definition unnamed : Assay :=
  Eval vm_compute in
    Examples.unwrap (Examples.init Examples.header [Examples.record1; {[ "a101" := "unnamed" ]}]
                       "Sample Name" Examples.delim_as_is).



(** A file system that holds the data file of the assay already, and a
    server that is out of reach. *)
Definition cached_world : World :=
  {| fs := {[ "/store/a1" := Dir; "/store/a1/GLDS-1_out.txt" := File "GSM-1.a,GSM-2.b" ]};
     http := λ _, Raise (URLError "unreachable");
     calls := [] |}.

(** An assay of two records with the same sample name. *)
Definition twins : Assay :=
  Eval vm_compute in
    Examples.unwrap (Examples.init Examples.header [Examples.record1; Examples.record1]
                       "Sample Name" "_").

(** A data table whose column labels contain the sample names. *)
Definition raw_table : Table :=
  {| tbl_columns := [LStr "GSM_2_b_raw"; LStr "GSM_1_a_raw"]; tbl_columns_name := None;
     tbl_index := ["gene1"]; tbl_cells := [["1"; "2"]] |}.

(** The summary frame of the collection of one assay. *)
Definition summary : DataFrame value :=
  Eval vm_compute in
    match _summary_dataframe (re := MiniRe.engine) Examples.annotation_columns
            Examples.collection Examples.store with
    | Ok rd => rd
    | Raise _ => empty_frame
    end.

(** The [json] of a study with one assay. *)
Definition study_json : list (string * assay_json) :=
  [("a1", {| json_raw := Some [Examples.record1; Examples.record2];
             json_header := Some Examples.header |})].

(** A frame of factors for three samples. *)
Definition factors_frame : DataFrame string :=
  {| index := [LStr "GSM_1_a"; LStr "GSM_2_b"; LStr "GSM_3_c"];
     columns := ["Spaceflight"];
     rows := [{[ "Spaceflight" := "Space Flight" ]}; {[ "Spaceflight" := "Ground Control" ]};
              {[ "Spaceflight" := "Space Flight" ]}] |}.

(** Numbers written with digits only, kept as their text; a missing cell
    converts to the text of a missing number. *)
Definition float_of_cell (c : option string) : option string :=
  match c with
  | Some s =>
      if forallb (λ a, (48 <=? nat_of_ascii a)%nat && (nat_of_ascii a <=? 57)%nat) (Str.chars s)
         && negb (String.eqb s "")
      then Some s else None
  | None => Some "nan"
  end.

(** A listing of one file, and a server that holds it under the media
    root. *)
Definition get_json (url : string) : result (list (gmap string string)) :=
  if String.eqb url "https://host/data/study/filelistings/42"
  then Ok [{[ "file_name" := "GLDS-1_out.txt" ]}]
  else Raise (URLError "unknown host").

Definition media_server (url : string) : result response :=
  if String.eqb url "https://host/static/media/dataset/GLDS-1_out.txt"
  then Ok {| status_code := 200; content_length := Some 15;
             iter_content := ["GSM-1.a,"; "GSM-2.b"] |}
  else Raise (URLError "unknown host").

Definition media_world : World := {| fs := ∅; http := media_server; calls := [] |}.

End Cases.

(** * Properties *)

(** ** The string functions and the matcher on examples *)

Example split_commas_ex :
  Str.split_commas "GLDS-1_out.txt, GLDS-1_out.rda.gz" = ["GLDS-1_out.txt"; "GLDS-1_out.rda.gz"].
Proof. reflexivity. Qed.
Example split_commas_ex2 : Str.split_commas "a , ,b" = ["a"; ""; "b"].
Proof. reflexivity. Qed.
Example sub_delim_ex : Str.sub_delim "_" "A-1.b_c" = "A_1_b_c".
Proof. reflexivity. Qed.
Example sub_factor_ex : Str.sub_factor_value "Factor Value:  Spaceflight" = "Spaceflight".
Proof. reflexivity. Qed.
Example mini_re_blacklist :
  MiniRe.search false "\.rda(ta)?(\.gz)?$" "GLDS-1_out.rda.gz" = true
  ∧ MiniRe.search false "\.rda(ta)?(\.gz)?$" "GLDS-1_out.txt" = false.
Proof. split; reflexivity. Qed.
Example mini_re_ignorecase :
  MiniRe.search true "sample name" "Sample Name" = true
  ∧ MiniRe.fullmatch true "sample" "Sample Name" = false.
Proof. split; reflexivity. Qed.

(** ** Results *)

Lemma bind_Ok {A B} (r : result A) (k : A → result B) (v : B) :
  Py.bind r k = Ok v → ∃ a, r = Ok a ∧ k a = Ok v.
Proof. destruct r as [a|e]; simpl; [eauto | discriminate]. Qed.

Lemma map_result_Ok {A B} (f : A → result B) (xs : list A) (ys : list B) :
  map_result f xs = Ok ys → Forall2 (λ x y, f x = Ok y) xs ys.
Proof.
  revert ys. induction xs as [|x xs IH]; intros ys; simpl.
  - intros [= <-]. constructor.
  - destruct (f x) as [y|e] eqn:Hfx; [|discriminate].
    destruct (map_result f xs) as [ys'|e]; [|discriminate].
    intros [= <-]. constructor; auto.
Qed.

Lemma map_result_all_Ok {A B} (f : A → result B) (g : A → B) (xs : list A) :
  Forall (λ x, f x = Ok (g x)) xs → map_result f xs = Ok (g <$> xs).
Proof.
  induction 1 as [|x xs Hx _ IH]; simpl; [done|]. by rewrite Hx, IH.
Qed.

Ltac inv_bind H :=
  let a := fresh "a" in
  let Ha := fresh "Ha" in
  apply bind_Ok in H; destruct H as (a & Ha & H).

(** ** Name delimiters *)

Section delimiters.

Lemma sub_delim_underscore (s : string) :
  Str.sub_delim "_" s = replace_dot_dash s.
Proof.
  induction s as [|c s IH]; simpl; [done|].
  unfold Str.is_delim_char, Str.ascii_eqb.
  destruct (Ascii.eqb_spec c "."); simpl; [by rewrite IH|].
  destruct (Ascii.eqb_spec c "_") as [->|]; simpl; [by rewrite IH|].
  destruct (Ascii.eqb_spec c "-"); simpl; by rewrite IH.
Qed.

Lemma replace_dot_dash_idem (s : string) :
  replace_dot_dash (replace_dot_dash s) = replace_dot_dash s.
Proof.
  induction s as [|c s IH]; simpl; [done|]. rewrite IH. f_equal.
  unfold Str.ascii_eqb.
  destruct (Ascii.eqb_spec c "."); simpl; [done|].
  destruct (Ascii.eqb_spec c "-"); simpl; [done|].
  destruct (Ascii.eqb_spec c ".") as [|_]; [done|].
  destruct (Ascii.eqb_spec c "-") as [|_]; [done|]. done.
Qed.

Lemma sub_delim_idem (s : string) :
  Str.sub_delim "_" (Str.sub_delim "_" s) = Str.sub_delim "_" s.
Proof. rewrite !sub_delim_underscore. apply replace_dot_dash_idem. Qed.

End delimiters.

(** ** Construction *)

Section construction.
Context {re : ReEngine}.
Variable DELIM_AS_IS : string.

Lemma set_index_Ok (df : DataFrame string) (field : option string) (df' : DataFrame string) :
  set_index df field = Ok df' →
  ∃ f, field = Some f
       ∧ index df' = (λ r : gmap string string, from_option LStr LNaN (r !! f)) <$> rows df.
Proof.
  unfold set_index. destruct field as [f|]; [|discriminate].
  case_decide; [|discriminate]. intros [= <-]. eauto.
Qed.

Lemma from_records_rows (raw : list (gmap string string)) (df : DataFrame string) :
  from_records raw = Ok df → rows df = raw.
Proof. destruct raw; [discriminate|]. by intros [= <-]. Qed.

(** What a successful construction establishes, step by step. *)
Lemma init_Ok name header raw urls prefix index_by name_delim self :
  Assay__init__ DELIM_AS_IS name header raw urls prefix index_by name_delim = Ok self →
  ∃ field title fields0 ix,
    _field_indexed_by self = Some field
    ∧ _indexed_by self = Some title
    ∧ _fields self = delete title fields0
    ∧ title ∈ dom fields0
    ∧ _name_delim self = name_delim
    ∧ _normalized_data self = None ∧ _processed_data self = None
    ∧ ix = (λ r : gmap string string, from_option LStr LNaN (r !! field)) <$> raw
    ∧ (if bool_decide (name_delim ≠ DELIM_AS_IS)
       then map_result (sub_delim_label name_delim) ix = Ok (index (raw_metadata self))
       else index (raw_metadata self) = ix).
Proof.
  unfold Assay__init__. case_bool_decide; [discriminate|].
  intros Hinit. inv_bind Hinit. rename a into frame0.
  inv_bind Hinit. rename a into field0.
  case_bool_decide; [discriminate|].
  inv_bind Hinit. rename a into frame1.
  inv_bind Hinit. rename a into self1.
  simpl in *.
  apply set_index_Ok in Ha1 as (f & -> & Hix).
  rewrite (from_records_rows _ _ Ha) in Hix.
  destruct (_indexed_by self1) as [t|] eqn:Ht; [|discriminate].
  case_bool_decide as Hin; [|discriminate].
  injection Hinit as <-. simpl.
  case_bool_decide as Hdelim.
  - inv_bind Ha2. injection Ha2 as <-. simpl in *.
    eexists f, t, _, _. repeat split; try done. by rewrite <- Hix.
  - injection Ha2 as <-. simpl in *.
    eexists f, t, _, _. repeat split; done.
Qed.

Lemma rewritten_index_inv (d field : string) (raw : list (gmap string string)) (idx : list label) :
  map_result (sub_delim_label d)
    ((λ r : gmap string string, from_option LStr LNaN (r !! field)) <$> raw) = Ok idx →
  ∃ names, Forall2 (λ (r : gmap string string) n, r !! field = Some n) raw names
           ∧ idx = (λ n, LStr (Str.sub_delim d n)) <$> names.
Proof.
  revert idx. induction raw as [|r raw IH]; intros idx; simpl.
  - intros [= <-]. exists []. split; [constructor | done].
  - destruct (r !! field) as [n|] eqn:Hr; simpl; [|discriminate].
    destruct (map_result _ _) as [idx'|] eqn:Hrest; [|discriminate].
    intros [= <-]. destruct (IH idx' eq_refl) as (names & Hnames & ->).
    exists (n :: names). split; [by constructor | done].
Qed.

(** C6. With the delimiter [_], the rewrite of an index of sample names
never fails and gives the names with every dot and dash replaced by an
underscore (an underscore stays); rewriting a name twice is rewriting it
once. An assay built with this delimiter has such an index: every record
carries a sample name under the index field, and the index is the list of
these names rewritten, which a further rewrite leaves as it is. *)
Theorem index_rewritten_with_underscore :
  (∀ names : list string,
     map_result (sub_delim_label "_") (LStr <$> names)
     = Ok ((λ n, LStr (replace_dot_dash n)) <$> names))
  ∧ (∀ n : string, Str.sub_delim "_" (Str.sub_delim "_" n) = Str.sub_delim "_" n)
  ∧ (∀ name header raw urls prefix index_by self,
       "_" ≠ DELIM_AS_IS →
       Assay__init__ DELIM_AS_IS name header raw urls prefix index_by "_" = Ok self →
       ∃ field names,
         _field_indexed_by self = Some field
         ∧ Forall2 (λ (r : gmap string string) n, r !! field = Some n) raw names
         ∧ index (raw_metadata self) = (λ n, LStr (replace_dot_dash n)) <$> names
         ∧ map_result (sub_delim_label "_") (index (raw_metadata self))
           = Ok (index (raw_metadata self))).
Proof.
  split_and!.
  - intros names. induction names as [|n names IH]; [done|].
    cbn [fmap list_fmap map_result sub_delim_label] in *.
    by rewrite IH, sub_delim_underscore.
  - apply sub_delim_idem.
  - intros name header raw urls prefix index_by self Hdelim Hinit.
    apply init_Ok in Hinit
      as (field & title & fields0 & ix & Hf & _ & _ & _ & _ & _ & _ & -> & Hix).
    rewrite bool_decide_eq_true_2 in Hix by done.
    apply rewritten_index_inv in Hix as (names & Hnames & Hix).
    exists field, names. split_and!; [done | done | |].
    + rewrite Hix. apply list_fmap_ext. intros _ n _. by rewrite sub_delim_underscore.
    + rewrite Hix.
      rewrite <- (list_fmap_id ((λ n, LStr (Str.sub_delim "_" n)) <$> names)) at 2.
      apply map_result_all_Ok. apply Forall_fmap, Forall_forall. intros n _. simpl.
      by rewrite sub_delim_idem.
Qed.

End construction.

Lemma index_rewritten_with_underscore_witness :
  ∃ field names,
    _field_indexed_by Examples.assay = Some field
    ∧ Forall2 (λ (r : gmap string string) n, r !! field = Some n)
        [Examples.record1; Examples.record2] names
    ∧ index (raw_metadata Examples.assay) = (λ n, LStr (replace_dot_dash n)) <$> names
    ∧ map_result (sub_delim_label "_") (index (raw_metadata Examples.assay))
      = Ok (index (raw_metadata Examples.assay)).
Proof.
  destruct (@index_rewritten_with_underscore MiniRe.engine Examples.delim_as_is)
    as (_ & _ & Hinit).
  apply (Hinit "a1" Examples.header [Examples.record1; Examples.record2] Examples.file_urls
           "/store" "Sample Name" Examples.assay).
  - discriminate.
  - vm_compute. reflexivity.
Defined.

Example index_rewritten_example :
  index (raw_metadata Examples.assay) = [LStr "GSM_1_a"; LStr "GSM_2_b"].
Proof. reflexivity. Qed.

(** ** Title resolution *)

Section resolution.
Context {re : ReEngine}.

(** The pool of titles a pattern is matched against: the non-index titles,
    and the index title when [self._indexed_by] is true in a condition. *)
Lemma elem_of_match_field_titles (self : Assay) (pattern : string) (method : re_method) (t : string) :
  t ∈ _match_field_titles self pattern method
  ↔ (t ∈ dom (_fields self) ∨ (truthy (_indexed_by self) = true ∧ _indexed_by self = Some t))
    ∧ method pattern t = true.
Proof.
  unfold _match_field_titles. rewrite elem_of_filter, Is_true_true.
  destruct (_indexed_by self) as [t'|] eqn:Ht'.
  - destruct (truthy (Some t')) eqn:Htruthy.
    + rewrite elem_of_union, elem_of_singleton. split.
      * intros [Hm [Hpool| ->]]; auto.
      * intros [[Hpool|[_ [= ->]]] Hm]; auto.
    + split; [intros [Hm Hpool]; auto|].
      intros [[Hpool|[? _]] Hm]; [auto | done].
  - simpl. split; [intros [Hm Hpool]; auto|].
    intros [[Hpool|[? _]] Hm]; [auto | done].
Qed.

(** After construction the index title is no longer a key of [_fields],
    and a non-empty index title is still in the pool of every match. *)
Lemma index_title_after_init (DELIM_AS_IS : string) name header raw urls prefix index_by name_delim self :
  Assay__init__ DELIM_AS_IS name header raw urls prefix index_by name_delim = Ok self →
  ∃ title, _indexed_by self = Some title
           ∧ _fields self !! title = None
           ∧ (title ≠ "" → ∀ pattern method,
                method pattern title = true → title ∈ _match_field_titles self pattern method).
Proof.
  intros Hinit.
  apply init_Ok in Hinit as (field & title & fields0 & ix & _ & Ht & Hfields & _).
  exists title. split_and!; [done | |].
  - rewrite Hfields. apply lookup_delete_eq.
  - intros Hne pattern method Hm. apply elem_of_match_field_titles.
    split; [|done]. right. split; [|done]. rewrite Ht. simpl.
    apply negb_true_iff. by apply String.eqb_neq.
Qed.

End resolution.

Lemma index_title_after_init_witness :
  ∃ title, _indexed_by Examples.assay = Some title
           ∧ _fields Examples.assay !! title = None
           ∧ (title ≠ "" → ∀ pattern method,
                method pattern title = true
                → title ∈ _match_field_titles Examples.assay pattern method).
Proof.
  apply (index_title_after_init (re := MiniRe.engine) Examples.delim_as_is "a1" Examples.header
           [Examples.record1; Examples.record2] Examples.file_urls "/store" "Sample Name" "_").
  vm_compute. reflexivity.
Defined.

(** C9. An assay whose index column has the empty title is constructed
    without error; its index title is no longer a key of [_fields], but it is
    not in the pool of titles either: a pattern that matches the empty title
    in full finds nothing. *)
Theorem empty_index_title_not_in_pool :
  Examples.init Examples.untitled_header [Examples.record1; Examples.record2] "^$" "_"
    = Ok Examples.untitled
  ∧ _indexed_by Examples.untitled = Some ""
  ∧ _fields Examples.untitled !! "" = None
  ∧ MiniRe.fullmatch true ".*" "" = true
  ∧ ("" ∉ _match_field_titles Examples.untitled ".*" (fullmatch (re := MiniRe.engine)))
  ∧ _match_field_titles Examples.untitled ".*" (fullmatch (re := MiniRe.engine))
    = {[ "Protocol REF" ]}.
Proof.
  split_and!; try (vm_compute; reflexivity).
  apply (bool_decide_eq_false_1 _). vm_compute. reflexivity.
Qed.

Lemma size_one_singleton `{Countable A} (X : gset A) (x : A) :
  X = {[ x ]} → size X = 1 ∧ set_first X = Some x.
Proof.
  intros ->. split; [apply size_singleton|].
  unfold set_first. by rewrite elements_singleton.
Qed.

Lemma size_set_map_Some (F : gset string) :
  size (set_map (D := gset (option string)) Some F) = size F.
Proof.
  unfold set_map. rewrite size_list_to_set.
  - by rewrite length_fmap.
  - apply (NoDup_fmap_2 _), NoDup_elements.
Qed.

(** C4, as the code has it. The titles a pattern resolves to are those of
    the pool that the pattern matches somewhere inside ([search], ignoring
    case), not those it matches in full. No such title is an [IndexError]
    saying nonexistent, more than one an [IndexError] saying ambiguous. A
    single title resolves to the index field when it is the index title, and
    otherwise to its field id when it has exactly one (none: nonexistent,
    several: ambiguous). *)
Theorem unique_field_resolves_by_search {re : ReEngine} (self : Assay) (pattern : string) :
  let M := _match_field_titles self pattern search in
  let nonexistent := Raise (IndexError ("Nonexistent '" ++ pattern ++ "'")) in
  let ambiguous := Raise (IndexError ("Ambiguous '" ++ pattern ++ "'")) in
  (∀ t, t ∈ M
        ↔ (t ∈ dom (_fields self)
           ∨ (truthy (_indexed_by self) = true ∧ _indexed_by self = Some t))
          ∧ re_search true pattern t = true)
  ∧ (M = ∅ → _get_unique_field_from_title self pattern = nonexistent)
  ∧ (1 < size M → _get_unique_field_from_title self pattern = ambiguous)
  ∧ (∀ t, M = {[ t ]} → _indexed_by self = Some t →
          _get_unique_field_from_title self pattern = Ok (_field_indexed_by self))
  ∧ (∀ t F, M = {[ t ]} → _indexed_by self ≠ Some t → _fields self !! t = Some F →
            (F = ∅ → _get_unique_field_from_title self pattern = nonexistent)
            ∧ (1 < size F → _get_unique_field_from_title self pattern = ambiguous)
            ∧ (∀ f, F = {[ f ]} → _get_unique_field_from_title self pattern = Ok (Some f))).
Proof.
  intros M nonexistent ambiguous. split_and!.
  - intros t. apply elem_of_match_field_titles.
  - intros HM. unfold _get_unique_field_from_title. fold M. rewrite HM.
    by rewrite size_empty.
  - intros HM. unfold _get_unique_field_from_title. fold M.
    rewrite bool_decide_eq_false_2 by lia. by rewrite bool_decide_eq_true_2.
  - intros t HM Ht. unfold _get_unique_field_from_title. fold M.
    destruct (size_one_singleton M t HM) as [Hsize ->].
    rewrite bool_decide_eq_false_2, bool_decide_eq_false_2 by lia.
    rewrite bool_decide_eq_true_2 by done. cbn [Py.bind].
    destruct (size_one_singleton {[ _field_indexed_by self ]} _ eq_refl) as [Hs ->].
    rewrite Hs. rewrite bool_decide_eq_false_2, bool_decide_eq_false_2 by lia. done.
  - intros t F HM Ht HF. unfold _get_unique_field_from_title. fold M.
    destruct (size_one_singleton M t HM) as [Hsize ->].
    rewrite bool_decide_eq_false_2, bool_decide_eq_false_2 by lia.
    rewrite bool_decide_eq_false_2 by done. rewrite HF. cbn [Py.bind].
    split_and!.
    + intros ->. by rewrite set_map_empty, size_empty.
    + intros HsF. rewrite size_set_map_Some.
      rewrite bool_decide_eq_false_2 by lia. by rewrite bool_decide_eq_true_2.
    + intros f ->. rewrite set_map_singleton_L.
      destruct (size_one_singleton {[ Some f ]} _ eq_refl) as [Hs ->].
      rewrite Hs. rewrite bool_decide_eq_false_2, bool_decide_eq_false_2 by lia. done.
Qed.

Lemma unique_field_resolves_by_search_witness :
  _get_unique_field_from_title (re := MiniRe.engine) Examples.arrays "Derived" = Ok (Some "a105")
  ∧ _get_unique_field_from_title (re := MiniRe.engine) Examples.arrays "sample name"
    = Ok (Some "a100")
  ∧ _get_unique_field_from_title (re := MiniRe.engine) Examples.arrays "Array Data File"
    = Raise (IndexError "Ambiguous 'Array Data File'")
  ∧ _get_unique_field_from_title (re := MiniRe.engine) Examples.arrays "Protocol"
    = Raise (IndexError "Nonexistent 'Protocol'").
Proof.
  split_and!.
  - destruct (unique_field_resolves_by_search (re := MiniRe.engine) Examples.arrays "Derived")
      as (_ & _ & _ & _ & Hfield).
    apply (Hfield "Derived Array Data File" {[ "a105" ]}).
    + vm_compute. reflexivity.
    + discriminate.
    + vm_compute. reflexivity.
    + reflexivity.
  - destruct (unique_field_resolves_by_search (re := MiniRe.engine) Examples.arrays "sample name")
      as (_ & _ & _ & Hindex & _).
    apply (Hindex "Sample Name").
    + vm_compute. reflexivity.
    + reflexivity.
  - destruct (unique_field_resolves_by_search (re := MiniRe.engine) Examples.arrays "Array Data File")
      as (_ & _ & Hmany & _).
    apply Hmany. vm_compute. lia.
  - destruct (unique_field_resolves_by_search (re := MiniRe.engine) Examples.arrays "Protocol")
      as (_ & Hnone & _).
    apply Hnone. vm_compute. reflexivity.
Defined.

(** C4 as stated fails. One title matches the pattern in full and has one
    field id, yet resolution is ambiguous, because the pattern also occurs
    inside another title; and a pattern that matches no title in full
    resolves to a field id. *)
Lemma exact_match_resolution_fails :
  _match_field_titles Examples.arrays "Array Data File" (fullmatch (re := MiniRe.engine))
    = {[ "Array Data File" ]}
  ∧ _fields Examples.arrays !! "Array Data File" = Some {[ "a104" ]}
  ∧ _get_unique_field_from_title (re := MiniRe.engine) Examples.arrays "Array Data File"
    = Raise (IndexError "Ambiguous 'Array Data File'")
  ∧ _match_field_titles Examples.arrays "Derived" (fullmatch (re := MiniRe.engine)) = ∅
  ∧ _get_unique_field_from_title (re := MiniRe.engine) Examples.arrays "Derived"
    = Ok (Some "a105").
Proof. split_and!; vm_compute; reflexivity. Qed.

(** ** Counting the elements of a set *)

Lemma two_elements_size `{Countable A} (X : gset A) (x y : A) :
  x ∈ X → y ∈ X → x ≠ y → 1 < size X.
Proof.
  intros Hx Hy Hne.
  destruct (decide (size X = 0)) as [H0|H0].
  - apply size_empty_inv in H0. set_solver.
  - destruct (decide (size X = 1)) as [H1|H1]; [|lia].
    by destruct Hne; apply (size_singleton_inv X).
Qed.

Lemma only_element_singleton `{Countable A} (X : gset A) (x : A) :
  x ∈ X → (∀ y, y ∈ X → y = x) → X = {[ x ]}.
Proof. intros Hx Hall. apply set_eq. intros y. rewrite elem_of_singleton. naive_solver. Qed.

(** ** File URLs *)

(** C7, as the code has it. The file mask, cut at its first slash and with
    every asterisk turned into a dot and an asterisk, is searched as a
    regular expression in every known file name. With no known file name
    nothing is searched and the result is [None]. With a known file name, a
    mask whose conversion does not compile raises [re.error]. For a mask
    whose conversion compiles: when it is found in no name, the result is
    [None]; when it is found in two different names, a
    [GeneLabJSONException] is raised; when it is found in exactly one, the
    result is the URL recorded for that name. *)
Theorem file_url_by_mask {re : ReEngine} (self : Assay) (filemask : string) :
  let regex_filemask := Str.star_to_dotstar (Str.before_slash filemask) in
  let found filename :=
    filename ∈ dom (glds_file_urls self) ∧ re_search false regex_filemask filename = true in
  (glds_file_urls self = ∅ → _get_file_url self filemask = Ok None)
  ∧ (glds_file_urls self ≠ ∅ → re_compiles regex_filemask = false →
       _get_file_url self filemask = Raise ReError)
  ∧ (re_compiles regex_filemask = true →
       ((∀ filename, ¬ found filename) → _get_file_url self filemask = Ok None)
       ∧ (∀ f1 f2, found f1 → found f2 → f1 ≠ f2 →
            _get_file_url self filemask
            = Raise (GeneLabJSONException "Multiple file URLs match name"))
       ∧ (∀ f url, found f → (∀ f', found f' → f' = f) → glds_file_urls self !! f = Some url →
            _get_file_url self filemask = Ok (Some url))).
Proof.
  intros regex_filemask found. unfold _get_file_url. fold regex_filemask.
  set (N := filter _ _).
  assert (HN : ∀ f, f ∈ N ↔ found f).
  { intros f. unfold N, found. rewrite elem_of_filter, Is_true_true. tauto. }
  split_and!.
  - intros Hempty.
    rewrite bool_decide_eq_false_2 by (intros Hne; apply Hne; by rewrite Hempty, dom_empty_L).
    cbn [andb]. assert (N = ∅) as ->.
    { apply elem_of_equiv_empty_L. intros f. rewrite HN. intros [Hf _].
      by rewrite Hempty, dom_empty_L in Hf. }
    by rewrite size_empty.
  - intros Hne Hbad.
    rewrite bool_decide_eq_true_2 by (by intros ?%dom_empty_inv_L). by rewrite Hbad.
  - intros Hgood. rewrite Hgood, andb_false_r. split_and!.
    + intros Hnone. assert (N = ∅) as ->.
      { apply elem_of_equiv_empty_L. intros f. rewrite HN. apply Hnone. }
      by rewrite size_empty.
    + intros f1 f2 H1 H2 Hne.
      assert (1 < size N) by (apply (two_elements_size N f1 f2); [by apply HN..|done]).
      rewrite bool_decide_eq_false_2 by lia. by rewrite bool_decide_eq_true_2.
    + intros f url Hf Honly Hurl.
      assert (N = {[ f ]}) as ->.
      { apply only_element_singleton; [by apply HN|]. intros y Hy. by apply Honly, HN. }
      destruct (size_one_singleton {[ f ]} f eq_refl) as [Hs ->]. rewrite Hs.
      rewrite bool_decide_eq_false_2, bool_decide_eq_false_2 by lia. by rewrite Hurl.
Qed.

Lemma file_url_by_mask_witness :
  _get_file_url (re := MiniRe.engine) Examples.assay "*SRR123_*"
    = Raise (GeneLabJSONException "Multiple file URLs match name")
  ∧ _get_file_url (re := MiniRe.engine) Examples.assay "*SRR999_*" = Ok None
  ∧ _get_file_url (re := MiniRe.engine) Examples.assay "GLDS-1_out.txt"
    = Ok (Some "https://host/GLDS-1_out.txt").
Proof.
  assert (Hdom : ∀ f, f ∈ dom (glds_file_urls Examples.assay) →
                      f = "GLDS-1_out.txt" ∨ f = "SRR123_1.fastq" ∨ f = "SRR123_2.fastq").
  { intros f Hf.
    assert (dom (glds_file_urls Examples.assay)
            = {[ "GLDS-1_out.txt"; "SRR123_1.fastq"; "SRR123_2.fastq" ]}) as Heq
      by (vm_compute; reflexivity).
    rewrite Heq, !elem_of_union, !elem_of_singleton in Hf. tauto. }
  split_and!.
  - destruct (file_url_by_mask (re := MiniRe.engine) Examples.assay "*SRR123_*")
      as (_ & _ & Hgood).
    destruct (Hgood eq_refl) as (_ & Hmany & _).
    apply (Hmany "SRR123_1.fastq" "SRR123_2.fastq").
    + split; [apply (bool_decide_eq_true_1 _)|]; vm_compute; reflexivity.
    + split; [apply (bool_decide_eq_true_1 _)|]; vm_compute; reflexivity.
    + discriminate.
  - destruct (file_url_by_mask (re := MiniRe.engine) Examples.assay "*SRR999_*")
      as (_ & _ & Hgood).
    destruct (Hgood eq_refl) as (Hnone & _ & _).
    apply Hnone. intros f [Hf Hm].
    destruct (Hdom f Hf) as [->|[->| ->]]; vm_compute in Hm; discriminate.
  - destruct (file_url_by_mask (re := MiniRe.engine) Examples.assay "GLDS-1_out.txt")
      as (_ & _ & Hgood).
    destruct (Hgood eq_refl) as (_ & _ & Hone).
    apply (Hone "GLDS-1_out.txt").
    + split; [apply (bool_decide_eq_true_1 _)|]; vm_compute; reflexivity.
    + intros f [Hf Hm].
      destruct (Hdom f Hf) as [->|[->| ->]]; [done|vm_compute in Hm; discriminate..].
    + vm_compute. reflexivity.
Defined.

(** C7 as stated fails. The mask [SRR123_1.fastq(] is turned into a string
    that is no regular expression, an open group that is never closed: with
    the three known file names the call raises [re.error]; it returns
    neither [None] nor a URL, and the exception is not the one for several
    matching names. *)
Lemma mask_that_does_not_compile :
  re_compiles (ReEngine := MiniRe.engine)
    (Str.star_to_dotstar (Str.before_slash "SRR123_1.fastq(")) = false
  ∧ _get_file_url (re := MiniRe.engine) Examples.assay "SRR123_1.fastq(" = Raise ReError
  ∧ _get_file_url (re := MiniRe.engine) Examples.assay "SRR123_1.fastq(" ≠ Ok None
  ∧ (∀ url, _get_file_url (re := MiniRe.engine) Examples.assay "SRR123_1.fastq("
            ≠ Ok (Some url))
  ∧ _get_file_url (re := MiniRe.engine) Examples.assay "SRR123_1.fastq("
    ≠ Raise (GeneLabJSONException "Multiple file URLs match name").
Proof.
  assert (Hraise : _get_file_url (re := MiniRe.engine) Examples.assay "SRR123_1.fastq("
                   = Raise ReError) by (vm_compute; reflexivity).
  rewrite Hraise. split_and!; [vm_compute; reflexivity | done..].
Qed.

Example glob_to_regex : Str.star_to_dotstar (Str.before_slash "*SRR123_*/extra") = ".*SRR123_.*".
Proof. reflexivity. Qed.

(** ** Row selection through the locator *)

Section locator.
Context {re : ReEngine}.

Lemma concat_all_nil {A B} (xs : list A) :
  List.concat ((λ _, @nil B) <$> xs) = [].
Proof. induction xs; simpl; auto. Qed.

Lemma union_list_all_empty {A} (xs : list A) :
  ⋃ ((λ _, ∅ : gset label) <$> xs) = ∅.
Proof.
  apply elem_of_equiv_empty_L. intros x. rewrite elem_of_union_list.
  intros (X & HX & Hx). apply list_elem_of_fmap in HX as (y & -> & _).
  by apply not_elem_of_empty in Hx.
Qed.

Lemma index_matches_none (self : Assay) (pattern : string) :
  (∀ l, l ∈ index (raw_metadata self) → ∃ s, l = LStr s ∧ fullmatch pattern s = false) →
  index_matches self pattern = Ok ∅.
Proof.
  intros Hnone. unfold index_matches.
  rewrite (map_result_all_Ok _ (λ _, [])).
  - cbn [Py.bind]. by rewrite concat_all_nil.
  - apply Forall_forall. intros l Hl. destruct (Hnone l Hl) as (s & -> & ->). done.
Qed.

(** With at least one pattern, an index of strings, and no pattern matching
    any label in full, row selection returns the frame without rows. *)
Lemma locator_no_match (self : Assay) (patterns : list string) :
  patterns ≠ [] →
  (∀ p l, p ∈ patterns → l ∈ index (raw_metadata self) →
          ∃ s, l = LStr s ∧ fullmatch p s = false) →
  locator_getitem self (KPatterns patterns)
  = Ok {| index := []; columns := columns (raw_metadata self); rows := [] |}.
Proof.
  intros Hne Hnone. simpl. unfold locator_patterns.
  rewrite (map_result_all_Ok _ (λ _, ∅)).
  - destruct patterns as [|p ps]; [done|]. cbn [Py.bind fmap list_fmap set_union_star].
    change (list_fmap _ _ ?f ps) with (f <$> ps).
    rewrite union_list_all_empty, union_empty_l_L, elements_empty. reflexivity.
  - apply Forall_forall. intros p Hp. apply index_matches_none. eauto.
Qed.

(** C3. For every assay, whatever its metadata table, row selection
through the locator with an empty collection of index patterns raises a
[TypeError], alone or paired with title patterns: the union of no sets at
all is not defined. Column selection by an empty collection of title
patterns, whose union starts from the empty set, returns the empty frame. *)
Theorem locator_empty_patterns_raises (self : Assay) :
  locator_getitem self (KPatterns []) = Raise TypeError
  ∧ (∀ title_patterns, locator_getitem self (KPair [] title_patterns) = Raise TypeError)
  ∧ metadata_getitem self [] = Ok empty_frame.
Proof.
  split_and!.
  - reflexivity.
  - intros title_patterns. reflexivity.
  - unfold metadata_getitem. cbn [fmap list_fmap union_list foldr].
    rewrite bool_decide_eq_false_2; [done|].
    intros Hne. apply Hne. by rewrite union_empty_l_L.
Qed.

End locator.

Lemma locator_no_match_witness :
  locator_getitem (re := MiniRe.engine) Examples.assay (KPatterns ["GSM-9.*"; "nothing"])
  = Ok {| index := []; columns := columns (raw_metadata Examples.assay); rows := [] |}.
Proof.
  apply (locator_no_match (re := MiniRe.engine) Examples.assay ["GSM-9.*"; "nothing"]).
  - discriminate.
  - intros p l Hp Hl.
    assert (Hindex : index (raw_metadata Examples.assay) = [LStr "GSM_1_a"; LStr "GSM_2_b"])
      by reflexivity.
    rewrite Hindex in Hl.
    rewrite !elem_of_cons in Hp. rewrite !elem_of_cons in Hl.
    destruct Hp as [->|[->|Hp]]; [| |by apply elem_of_nil in Hp];
      (destruct Hl as [->|[->|Hl]]; [| |by apply elem_of_nil in Hl]);
      eexists; (split; [reflexivity | vm_compute; reflexivity]).
Defined.

Example locator_no_match_example :
  (locator_getitem (re := MiniRe.engine) Examples.assay (KPatterns ["GSM-9.*"; "nothing"])
   = Ok {| index := []; columns := ["a101"; "a102"]; rows := [] |})
  ∧ locator_getitem (re := MiniRe.engine) Examples.assay (KPatterns []) = Raise TypeError.
Proof. split; vm_compute; reflexivity. Qed.

(** ** Downloads *)

Section downloads.

Lemma get_fs (url : option string) (w : World) :
  fs (get url w).2 = fs w ∧ http (get url w).2 = http w.
Proof. by destruct url. Qed.

Lemma get_result (url : option string) (w1 w2 : World) :
  http w1 = http w2 → (get url w1).1 = (get url w2).1.
Proof. intros Hhttp. destruct url; simpl; [by rewrite Hhttp | done]. Qed.

(** A request reads the server and records the call; it leaves the file
    system alone, and its answer depends on the server only. *)
Lemma get_with_fallback_fs (url : option string) (fb : bool) (w : World) :
  fs (get_with_fallback url fb w).2 = fs w.
Proof.
  unfold get_with_fallback.
  destruct (get url w) as [r w'] eqn:Hget.
  assert (fs w' = fs w) as Hfs by (by rewrite <- (proj1 (get_fs url w)), Hget).
  destruct r as [|[]]; try done.
  destruct fb; [|done]. by rewrite (proj1 (get_fs _ _)).
Qed.

Lemma get_with_fallback_result (url : option string) (fb : bool) (w1 w2 : World) :
  http w1 = http w2 → (get_with_fallback url fb w1).1 = (get_with_fallback url fb w2).1.
Proof.
  intros Hhttp. unfold get_with_fallback.
  pose proof (get_result url w1 w2 Hhttp) as Hres.
  pose proof (get_fs url w1) as [_ H1]. pose proof (get_fs url w2) as [_ H2].
  destruct (get url w1) as [r1 w1'], (get url w2) as [r2 w2']. simpl in *. subst r2.
  destruct r1 as [|[]]; try done.
  destruct fb; [|done]. apply get_result. congruence.
Qed.

(** C10. A call of [fetch_file] that gets as far as writing: the storage
    directory is there, the file name names an entry of it, the target path
    is not a directory, and the target file is absent or [update] is set.
    When the request is answered with status 200, no [content-length] header
    and a body that is not empty, the call raises the [URLError] for a wrong
    number of bytes, although every block of the body was received and
    written: zero declared bytes differ from the bytes written. After the
    call the target path holds no file, not even the one it held before, and
    the storage directory is still there. *)
Theorem missing_content_length_rejects_download
    (file_name : string) (url : option string) (target_directory : string)
    (update http_fallback : bool) (w : World) (stream : response) :
  let target_file := Str.join target_directory file_name in
  fs w !! target_directory = Some Dir →
  plain_name file_name = true →
  isdir w target_file = false →
  update = true ∨ isfile w target_file = false →
  (get_with_fallback url http_fallback w).1 = Ok stream →
  status_code stream = 200 →
  content_length stream = None →
  0 < sum_list (String.length <$> iter_content stream) →
  ∃ w',
    fetch_file file_name url target_directory update http_fallback w
    = (Raise (URLError "Failed to download the correct number of bytes"), w')
    ∧ fs w' !! target_file = None
    ∧ fs w' !! target_directory = Some Dir.
Proof.
  intros target_file Hstorage _ Hnotdir Hfresh Hget Hstatus Hlen Hbody.
  assert (Hne : target_file ≠ target_directory).
  { intros Heq. unfold isdir in Hnotdir. by rewrite Heq, Hstorage in Hnotdir. }
  unfold fetch_file. fold target_file.
  set (w0 := record_call _ w).
  assert (isdir w0 target_directory = true) as ->.
  { unfold isdir. cbn [fs w0 record_call]. by rewrite Hstorage. }
  cbn [negb andb].
  assert (isdir w0 target_file = false) as -> by done.
  rewrite andb_false_r.
  assert (negb update && isfile w0 target_file = false) as ->.
  { destruct Hfresh as [->|Hf]; [done|].
    change (isfile w0 target_file) with (isfile w target_file). rewrite Hf.
    apply andb_false_r. }
  assert (Hhttp : http w0 = http w) by done.
  pose proof (get_with_fallback_result url http_fallback w0 w Hhttp) as Hres.
  pose proof (get_with_fallback_fs url http_fallback w0) as Hfs2.
  destruct (get_with_fallback url http_fallback w0) as [r w2]. cbn [fst snd] in Hres, Hfs2.
  rewrite Hres, Hget. rewrite Hstatus, Hlen. cbn [Nat.eqb negb default].
  assert (isdir w2 target_file = false) as ->.
  { unfold isdir in *. by rewrite Hfs2. }
  destruct (sum_list (String.length <$> iter_content stream)) as [|n] eqn:Hsum; [lia|].
  cbn [Nat.eqb negb]. eexists. split; [reflexivity|]. cbn [remove set_fs fs].
  split; [apply lookup_delete_eq|].
  rewrite lookup_delete_ne, lookup_insert_ne by done. by rewrite Hfs2.
Qed.

End downloads.

Lemma missing_content_length_rejects_download_witness :
  let w := {| fs := {[ "/store/a1" := Dir; "/store/a1/GLDS-1_out.txt" := File "stale" ]};
              http := Examples.server None; calls := [] |} in
  ∃ w',
    fetch_file "GLDS-1_out.txt" (Some "https://host/GLDS-1_out.txt") "/store/a1" true true w
    = (Raise (URLError "Failed to download the correct number of bytes"), w')
    ∧ fs w' !! Str.join "/store/a1" "GLDS-1_out.txt" = None
    ∧ fs w' !! "/store/a1" = Some Dir.
Proof.
  apply (missing_content_length_rejects_download
           "GLDS-1_out.txt" (Some "https://host/GLDS-1_out.txt") "/store/a1" true true
           {| fs := {[ "/store/a1" := Dir; "/store/a1/GLDS-1_out.txt" := File "stale" ]};
              http := Examples.server None; calls := [] |}
           {| status_code := 200; content_length := None;
              iter_content := ["GSM-1.a,"; "GSM-2.b"] |}).
  - vm_compute. reflexivity.
  - vm_compute. reflexivity.
  - vm_compute. reflexivity.
  - by left.
  - reflexivity.
  - reflexivity.
  - reflexivity.
  - simpl. lia.
Defined.

(** A first download into a storage that is not there yet, from a server
    that declares no length: the same error, and no file. *)
Example missing_content_length_first_run :
  let run := fetch_file "GLDS-1_out.txt" (Some "https://host/GLDS-1_out.txt") "/store/a1"
               false true (Examples.world None) in
  run.1 = Raise (URLError "Failed to download the correct number of bytes")
  ∧ fs run.2 !! "/store/a1/GLDS-1_out.txt" = None.
Proof. split; vm_compute; reflexivity. Qed.

Example declared_length_accepts_download :
  (fetch_file "GLDS-1_out.txt" (Some "https://host/GLDS-1_out.txt") "/store/a1" false true
     (Examples.world (Some 15))).1
  = Ok "/store/a1/GLDS-1_out.txt".
Proof. reflexivity. Qed.

(** ** Derived data *)

Section derived_data.
Context {re : ReEngine}.
Variable DELIM_AS_IS : string.
Variable parse_csv : string → string → result Table.

Lemma target_filenames_strings (blacklist_regex : string) (names : list string) :
  names ≠ [] →
  target_filenames blacklist_regex (Some <$> names)
  = Ok (filter (λ fn, re_search false blacklist_regex fn = false)
               (list_to_set (names ≫= Str.split_commas))).
Proof.
  intros Hne. unfold target_filenames.
  rewrite (map_result_all_Ok _ (λ e, list_to_set (Str.split_commas (default "" e)))).
  2:{ apply Forall_fmap, Forall_forall. by intros n _. }
  destruct names as [|n names]; [done|]. cbn [Py.bind fmap list_fmap set_union_star].
  f_equal. apply set_eq. intros fn.
  rewrite !elem_of_filter, elem_of_union, elem_of_union_list, !elem_of_list_to_set.
  rewrite list_elem_of_bind.
  assert (Is_true (re_search false blacklist_regex fn) ↔ re_search false blacklist_regex fn = true)
    as -> by apply Is_true_true.
  rewrite not_true_iff_false.
  split; intros [Hb Hin]; (split; [done|]).
  - destruct Hin as [Hin|(X & HX & Hin)].
    + exists n. split; [done | left].
    + apply list_elem_of_fmap in HX as (e & -> & He).
      apply list_elem_of_fmap in He as (n' & -> & Hn').
      apply elem_of_list_to_set in Hin. exists n'. split; [done | by right].
  - destruct Hin as (n' & Hin & Hn'). apply elem_of_cons in Hn' as [->|Hn']; [by left|].
    right. exists (list_to_set (Str.split_commas n')). split.
    + apply list_elem_of_fmap. exists (Some n'). split; [done|].
      apply list_elem_of_fmap. eauto.
    + by apply elem_of_list_to_set.
Qed.

Lemma get_calls (url : option string) (w : World) :
  ∃ gets, calls (get url w).2 = (calls w ++ gets)%list ∧ Forall is_get gets.
Proof.
  destruct url as [u|]; simpl.
  - exists [CallGet u]. split; [done|]. by repeat constructor.
  - exists []. split; [by rewrite app_nil_r | constructor].
Qed.

Lemma get_with_fallback_calls (url : option string) (fb : bool) (w : World) :
  ∃ gets, calls (get_with_fallback url fb w).2 = (calls w ++ gets)%list ∧ Forall is_get gets.
Proof.
  unfold get_with_fallback.
  destruct (get_calls url w) as (g1 & Hc1 & Hg1).
  destruct (get url w) as [r w'] eqn:Hget. simpl in Hc1.
  destruct r as [|[]]; try (exists g1; done).
  destruct fb; [|exists g1; done].
  destruct (get_calls (ftp_to_http <$> url) w') as (g2 & Hc2 & Hg2).
  exists (g1 ++ g2)%list. split; [|by apply Forall_app].
  by rewrite Hc2, Hc1, app_assoc.
Qed.

(** A call of [fetch_file] is recorded, followed by the requests it makes. *)
Lemma fetch_file_calls (file_name : string) (url : option string) (target_directory : string)
    (update fb : bool) (w : World) :
  ∃ gets,
    calls (fetch_file file_name url target_directory update fb w).2
    = (calls w ++ CallFetchFile file_name url target_directory update :: gets)%list
    ∧ Forall is_get gets.
Proof.
  unfold fetch_file.
  set (w0 := record_call _ w).
  assert (Hc0 : calls w0 = (calls w ++ [CallFetchFile file_name url target_directory update])%list)
    by done.
  assert (Hnil : ∃ gets, calls w0
                 = (calls w ++ CallFetchFile file_name url target_directory update :: gets)%list
                 ∧ Forall is_get gets) by (exists []; done).
  destruct (negb (isdir w0 target_directory) && isfile w0 target_directory); [done|].
  set (w1 := if isdir w0 target_directory then w0 else makedirs target_directory w0).
  assert (Hc1 : calls w1 = calls w0) by (unfold w1; by destruct (isdir w0 target_directory)).
  rewrite <- Hc1 in Hnil.
  destruct (negb update && isdir w1 _); [done|].
  destruct (negb update && isfile w1 _); [done|].
  destruct (get_with_fallback_calls url fb w1) as (gets & Hc2 & Hgets).
  destruct (get_with_fallback url fb w1) as [r w2]. simpl in Hc2.
  assert (Hfinal : calls w2
                   = (calls w ++ CallFetchFile file_name url target_directory update :: gets)%list).
  { rewrite Hc2, Hc1, Hc0. by rewrite <- app_assoc. }
  destruct r as [stream|e]; [|by exists gets].
  destruct (negb (status_code stream =? 200)%nat); [by exists gets|].
  destruct (isdir w2 _); [by exists gets|].
  destruct (negb _); by exists gets.
Qed.

Lemma read_csv_calls (path sep : string) (w : World) :
  calls (read_csv parse_csv path sep w).2 = (calls w ++ [CallReadCsv path])%list.
Proof. unfold read_csv. simpl. by destruct (fs w !! path) as [[]|]. Qed.

(** The last stage fetches the one file it is given, and parses it when
    the fetch returns. *)
Lemma fetch_and_parse_calls (self : Assay) (filename : string) (url : option string)
    (force translate : bool) (data_columns sep : string) (w : World) :
  _get_file_url self filename = Ok url →
  let fetched := fetch_file filename url (storage self) force true w in
  let run := fetch_and_parse DELIM_AS_IS parse_csv self filename force translate
               data_columns sep w in
  ∃ gets, Forall is_get gets ∧
    match fetched.1 with
    | Raise e =>
        run.1 = Raise e
        ∧ calls run.2 = (calls w ++ CallFetchFile filename url (storage self) force :: gets)%list
    | Ok _ =>
        calls run.2 = (calls w ++ CallFetchFile filename url (storage self) force :: gets
                         ++ [CallReadCsv (Str.join (storage self) filename)])%list
    end.
Proof.
  intros Hurl fetched run. unfold run, fetch_and_parse. rewrite Hurl. fold fetched.
  destruct (fetch_file_calls filename url (storage self) force true w) as (gets & Hc & Hgets).
  fold fetched in Hc. exists gets. split; [done|].
  destruct fetched as [[path|e] w1]; simpl in *; [|done].
  pose proof (read_csv_calls (Str.join (storage self) filename) sep w1) as Hcsv.
  destruct (read_csv _ _ _ w1) as [[data|e] w2]; simpl in *.
  - rewrite Hcsv, Hc. by rewrite <- app_assoc.
  - rewrite Hcsv, Hc. by rewrite <- app_assoc.
Qed.

Lemma values_flatten_no_rows (df : DataFrame string) :
  len df = 0 → values_flatten df = [].
Proof. unfold len, values_flatten. by destruct (rows df). Qed.

(** C5. In [_read_data_from], a metadata selection without rows gives
    [None]. Otherwise the cells of the selection are split at commas and
    the names the blacklist finds are dropped: when no name remains, a
    [GeneLabFileException] for no suitable file is raised; when more than
    one remains, a [GeneLabFileException] for multiple files; when exactly
    one remains, the call goes on with that file name: once its URL is
    resolved, [fetch_file] is called for that file and no other, and when
    it returns the file stored under that name is parsed. *)
Theorem read_data_from_unique_candidate (self : Assay) (field_title blacklist_regex : string)
    (force translate : bool) (data_columns sep : string) (w : World) :
  let run := _read_data_from DELIM_AS_IS parse_csv self field_title blacklist_regex
               force translate data_columns sep w in
  (∀ meta_files,
     metadata_getitem self [field_title] = Ok meta_files → len meta_files = 0 →
     run = (Ok None, w))
  ∧ (∀ meta_files names,
       metadata_getitem self [field_title] = Ok meta_files →
       values_flatten meta_files = Some <$> names → names ≠ [] →
       let candidates : gset string :=
         filter (λ fn, re_search false blacklist_regex fn = false)
                (list_to_set (names ≫= Str.split_commas)) in
       (candidates = ∅ →
          run = (Raise (GeneLabFileException
                          "No suitable normalized annotated data files found"), w))
       ∧ (1 < size candidates →
          run = (Raise (GeneLabFileException
                          "Multiple normalized annotated data files found"), w))
       ∧ (∀ filename, candidates = {[ filename ]} →
            run = fetch_and_parse DELIM_AS_IS parse_csv self filename force translate
                    data_columns sep w
            ∧ ∀ url, _get_file_url self filename = Ok url →
                ∃ gets, Forall is_get gets ∧
                  match (fetch_file filename url (storage self) force true w).1 with
                  | Raise e =>
                      run.1 = Raise e
                      ∧ calls run.2
                        = (calls w ++ CallFetchFile filename url (storage self) force
                             :: gets)%list
                  | Ok _ =>
                      calls run.2
                      = (calls w ++ CallFetchFile filename url (storage self) force
                           :: gets ++ [CallReadCsv (Str.join (storage self) filename)])%list
                  end)).
Proof.
  intros run. split.
  - intros meta_files Hmeta Hlen. unfold run, _read_data_from. rewrite Hmeta.
    by rewrite bool_decide_eq_false_2 by (by intros ?).
  - intros meta_files names Hmeta Hcells Hne candidates.
    assert (Hrun : run = match
                       (if bool_decide (size candidates = 0)
                        then inl (GeneLabFileException
                                    "No suitable normalized annotated data files found")
                        else if bool_decide (1 < size candidates)
                        then inl (GeneLabFileException
                                    "Multiple normalized annotated data files found")
                        else inr (set_first candidates)) with
                     | inl e => (Raise e, w)
                     | inr (Some filename) =>
                         fetch_and_parse DELIM_AS_IS parse_csv self filename force translate
                           data_columns sep w
                     | inr None => (Raise (KeyError "pop from an empty set"), w)
                     end).
    { unfold run, _read_data_from. rewrite Hmeta.
      rewrite bool_decide_eq_true_2.
      2:{ intros Hlen. apply values_flatten_no_rows in Hlen. rewrite Hlen in Hcells.
          by destruct names. }
      rewrite Hcells, target_filenames_strings by done. fold candidates.
      by repeat case_bool_decide. }
    split_and!.
    + intros Hnone. rewrite Hrun, Hnone, size_empty. done.
    + intros Hmany. rewrite Hrun.
      rewrite bool_decide_eq_false_2 by lia. by rewrite bool_decide_eq_true_2.
    + intros filename Hone.
      assert (Hrun' : run = fetch_and_parse DELIM_AS_IS parse_csv self filename force
                              translate data_columns sep w).
      { rewrite Hrun. destruct (size_one_singleton candidates filename Hone) as [Hs ->].
        rewrite Hs. by rewrite bool_decide_eq_false_2, bool_decide_eq_false_2 by lia. }
      split; [done|]. intros url Hurl. rewrite Hrun'.
      apply (fetch_and_parse_calls self filename url force translate data_columns sep w Hurl).
Qed.

Lemma fetch_and_parse_not_None (self : Assay) (filename : string) (force translate : bool)
    (data_columns sep : string) (w w' : World) :
  fetch_and_parse DELIM_AS_IS parse_csv self filename force translate data_columns sep w
  ≠ (Ok None, w').
Proof.
  unfold fetch_and_parse.
  destruct (_get_file_url self filename); [|done].
  destruct (fetch_file _ _ _ _ _ _) as [[]]; [|done].
  destruct (read_csv _ _ _ _) as [[data|]]; [|done].
  destruct (if translate then _ else _); [|done]. cbn [Py.bind].
  destruct (if bool_decide _ then _ else _); done.
Qed.

(** A call of [_read_data_from] that returns [None] found no rows in the
    metadata selection. *)
Lemma read_data_from_None_inv (self : Assay) (field_title blacklist_regex : string)
    (force translate : bool) (data_columns sep : string) (w w' : World) :
  _read_data_from DELIM_AS_IS parse_csv self field_title blacklist_regex force translate
    data_columns sep w = (Ok None, w') →
  ∃ meta_files, metadata_getitem self [field_title] = Ok meta_files ∧ len meta_files = 0.
Proof.
  unfold _read_data_from.
  destruct (metadata_getitem self [field_title]) as [meta_files|]; [|done].
  case_bool_decide as Hlen.
  - destruct (target_filenames _ _) as [names|]; [|done].
    repeat case_bool_decide; try done.
    destruct (set_first names); [|done].
    intros Hrun. by apply fetch_and_parse_not_None in Hrun.
  - intros _. exists meta_files. split; [done|].
    by destruct (decide (len meta_files = 0)).
Qed.

Lemma read_data_from_no_rows (self : Assay) (field_title blacklist_regex : string)
    (force translate : bool) (data_columns sep : string) (w : World) (meta_files : DataFrame string) :
  metadata_getitem self [field_title] = Ok meta_files → len meta_files = 0 →
  _read_data_from DELIM_AS_IS parse_csv self field_title blacklist_regex force translate
    data_columns sep w = (Ok None, w).
Proof.
  intros Hmeta Hlen. unfold _read_data_from. rewrite Hmeta.
  by rewrite bool_decide_eq_false_2 by (by intros ?).
Qed.

(** C8. When [get_normalized_data] returns, its result is stored on the
    assay, and from then on the property [normalized_data] returns that
    result in any state of the file system and the network, leaving both,
    the record of calls and the assay as they are: no file is fetched or
    parsed again. The same holds of [get_processed_data] and
    [processed_data]. Reading one property never changes what is stored
    for the other. *)
Theorem fetched_data_is_cached (force translate : bool) (data_columns : string)
    (self : Assay) (w : World) (r : option Table) (self' : Assay) (w' : World) :
  (get_normalized_data DELIM_AS_IS parse_csv force translate data_columns self w
     = (Ok r, self', w') →
   _normalized_data self' = r
   ∧ ∀ w'', normalized_data DELIM_AS_IS parse_csv self' w'' = (Ok r, self', w''))
  ∧ (get_processed_data DELIM_AS_IS parse_csv force translate data_columns self w
       = (Ok r, self', w') →
     _processed_data self' = r
     ∧ ∀ w'', processed_data DELIM_AS_IS parse_csv self' w'' = (Ok r, self', w''))
  ∧ _processed_data (normalized_data DELIM_AS_IS parse_csv self w).1.2 = _processed_data self
  ∧ _normalized_data (processed_data DELIM_AS_IS parse_csv self w).1.2 = _normalized_data self.
Proof.
  split_and!.
  - unfold get_normalized_data, assign.
    destruct (_read_data_from _ _ self _ _ _ _ _ _ w) as [[v|e] w1] eqn:Hread; [|done].
    intros [= <- <- <-]. split; [done|]. intros w''.
    unfold normalized_data. cbn [_normalized_data set_normalized_data].
    destruct v as [data|]; [done|].
    apply read_data_from_None_inv in Hread as (meta_files & Hmeta & Hlen).
    unfold get_normalized_data, assign.
    by rewrite (read_data_from_no_rows _ _ _ _ _ _ _ _ meta_files).
  - unfold get_processed_data, assign.
    destruct (_read_data_from _ _ self _ _ _ _ _ _ w) as [[v|e] w1] eqn:Hread; [|done].
    intros [= <- <- <-]. split; [done|]. intros w''.
    unfold processed_data. cbn [_processed_data set_processed_data].
    destruct v as [data|]; [done|].
    apply read_data_from_None_inv in Hread as (meta_files & Hmeta & Hlen).
    unfold get_processed_data, assign.
    by rewrite (read_data_from_no_rows _ _ _ _ _ _ _ _ meta_files).
  - unfold normalized_data, get_normalized_data, assign.
    destruct (_normalized_data self); [done|].
    by destruct (_read_data_from _ _ _ _ _ _ _ _ _ _) as [[]].
  - unfold processed_data, get_processed_data, assign.
    destruct (_processed_data self); [done|].
    by destruct (_read_data_from _ _ _ _ _ _ _ _ _ _) as [[]].
Qed.

End derived_data.

Lemma read_data_from_unique_candidate_witness :
  (_read_data_from (re := MiniRe.engine) Examples.delim_as_is Examples.parse_csv Examples.assay
     ".*normalized data files.*" "\.rda(ta)?(\.gz)?$" false false "sample name" ","
     (Examples.world (Some 15))).1
  = Ok (Some Examples.table).
Proof.
  destruct (read_data_from_unique_candidate (re := MiniRe.engine)
              Examples.delim_as_is Examples.parse_csv Examples.assay
              ".*normalized data files.*" "\.rda(ta)?(\.gz)?$" false false "sample name" ","
              (Examples.world (Some 15))) as [_ Hcells].
  destruct (metadata_getitem (re := MiniRe.engine) Examples.assay [".*normalized data files.*"])
    as [meta_files|] eqn:Hmeta; [|vm_compute in Hmeta; discriminate].
  destruct (Hcells meta_files ["GLDS-1_out.txt, GLDS-1_out.rda.gz"; "GLDS-1_out.txt"])
    as (_ & _ & Hone).
  - reflexivity.
  - vm_compute in Hmeta. injection Hmeta as <-. vm_compute. reflexivity.
  - discriminate.
  - destruct (Hone "GLDS-1_out.txt") as [Hrun _].
    + vm_compute. reflexivity.
    + rewrite Hrun. vm_compute. reflexivity.
Defined.

(** The scenario of the specification: of a text file and an archive the
    text file is fetched and parsed; with archives only, no file is
    suitable. *)
Example read_data_from_scenario :
  calls (_read_data_from (re := MiniRe.engine) Examples.delim_as_is Examples.parse_csv
           Examples.assay ".*normalized data files.*" "\.rda(ta)?(\.gz)?$" false false
           "sample name" "," (Examples.world (Some 15))).2
  = [CallFetchFile "GLDS-1_out.txt" (Some "https://host/GLDS-1_out.txt") "/store/a1" false;
     CallGet "https://host/GLDS-1_out.txt";
     CallReadCsv "/store/a1/GLDS-1_out.txt"]
  ∧ (_read_data_from (re := MiniRe.engine) Examples.delim_as_is Examples.parse_csv
       Examples.archives ".*normalized data files.*" "\.rda(ta)?(\.gz)?$" false false
       "sample name" "," (Examples.world (Some 15))).1
    = Raise (GeneLabFileException "No suitable normalized annotated data files found")
  ∧ (_read_data_from (re := MiniRe.engine) Examples.delim_as_is Examples.parse_csv
       Examples.assay ".*processed data files.*" "\.rda(ta)?(\.gz)?$" false false
       "sample name" "," (Examples.world (Some 15))).1
    = Ok None.
Proof. split_and!; vm_compute; reflexivity. Qed.

Lemma fetched_data_is_cached_witness :
  Examples.fetched.1.1 = Ok (Some Examples.table)
  ∧ normalized_data (re := MiniRe.engine) Examples.delim_as_is Examples.parse_csv
      Examples.fetched.1.2 (Examples.world None)
    = (Ok (Some Examples.table), Examples.fetched.1.2, Examples.world None).
Proof.
  split; [vm_compute; reflexivity|].
  destruct (fetched_data_is_cached (re := MiniRe.engine)
              Examples.delim_as_is Examples.parse_csv false false "sample name"
              Examples.assay (Examples.world (Some 15))
              (Some Examples.table) Examples.fetched.1.2 Examples.fetched.2)
    as (Hcached & _).
  apply Hcached.
  change (Examples.fetched = (Ok (Some Examples.table), Examples.fetched.1.2, Examples.fetched.2)).
  assert (Examples.fetched.1.1 = Ok (Some Examples.table)) as <- by (vm_compute; reflexivity).
  by destruct Examples.fetched as [[]].
Defined.

(** An assay without a column of normalized data files: the fetch returns
    [None], and so does the property, without any call. *)
Example no_data_is_stable :
  let first := get_normalized_data (re := MiniRe.engine) Examples.delim_as_is Examples.parse_csv
                 true false "sample name" Examples.arrays (Examples.world (Some 15)) in
  first.1.1 = Ok None
  ∧ calls first.2 = []
  ∧ normalized_data (re := MiniRe.engine) Examples.delim_as_is Examples.parse_csv
      first.1.2 (Examples.world None)
    = (Ok None, first.1.2, Examples.world None).
Proof. split_and!; reflexivity. Qed.

(** ** Collections of assays *)

Section collections.
Context {re : ReEngine}.
Variable annotation_columns : Assay → result (list string).

Lemma summary_dataframe_columns (self : AssayDispatcher) (h : Store) (rd : DataFrame value) :
  _summary_dataframe annotation_columns self h = Ok rd → columns rd = summary_columns.
Proof.
  unfold _summary_dataframe. intros Hrd. inv_bind Hrd. by injection Hrd as <-.
Qed.

Lemma has_arrays_not_a_column : "has_arrays" ∉ summary_columns.
Proof.
  unfold summary_columns, ASSAY_CHARACTERISTICS, ASSAY_PROTOCOL_LIST. simpl.
  rewrite !not_elem_of_cons. split_and!; try discriminate. apply not_elem_of_nil.
Qed.

Lemma chosen_names_raises (factors : option string) (ha hn hp : option bool)
    (rd : DataFrame value) :
  columns rd = summary_columns →
  chosen_names factors ha hn hp rd = Raise (KeyError "has_arrays").
Proof.
  intros Hcols. unfold chosen_names, getcol. rewrite Hcols.
  by rewrite decide_False by apply has_arrays_not_a_column.
Qed.

(** C1. For every collection, every store and every choice of arguments,
    [choose] raises and leaves the store as it is: when the summary frame
    cannot be built its exception gets through, and when it is built it has
    no column named [has_arrays], so that the first lookup is a
    [KeyError]. *)
Theorem choose_always_raises (factors : option string) (ha hn hp : option bool)
    (self : AssayDispatcher) (h : Store) :
  choose annotation_columns factors ha hn hp self h
  = (Raise match _summary_dataframe annotation_columns self h with
           | Ok _ => KeyError "has_arrays"
           | Raise e => e
           end, h).
Proof.
  unfold choose.
  destruct (_summary_dataframe annotation_columns self h) as [rd|e] eqn:Hrd; [|done].
  cbn [Py.bind]. by rewrite chosen_names_raises by by eapply summary_dataframe_columns.
Qed.

(** C2. [choose] hands no collection to its caller, neither one that shares
    the objects of the original nor one that holds copies: for every
    collection, every store and every choice of arguments the call ends in an
    exception. The store, and with it the original collection and every
    object it holds, is as it was. *)
Theorem choose_returns_no_collection (factors : option string) (ha hn hp : option bool)
    (self : AssayDispatcher) (h : Store) :
  (∀ subset h', choose annotation_columns factors ha hn hp self h ≠ (Ok subset, h'))
  ∧ (choose annotation_columns factors ha hn hp self h).2 = h.
Proof.
  unfold choose.
  destruct (_summary_dataframe annotation_columns self h) as [rd|e] eqn:Hrd; [|done].
  cbn [Py.bind]. by rewrite chosen_names_raises by by eapply summary_dataframe_columns.
Qed.

End collections.

Example summary_of_collection :
  ∃ rd, _summary_dataframe (re := MiniRe.engine) Examples.annotation_columns
          Examples.collection Examples.store = Ok rd
        ∧ index rd = [LInt 0]
        ∧ getcol rd "name" = Ok [Some (VStr "a1")]
        ∧ getcol rd "factors" = Ok [Some (VStr "Spaceflight")]
        ∧ getcol rd "genelab rnaseq data processing protocol" = Ok [Some (VBool true)]
        ∧ getcol rd "has_arrays" = Raise (KeyError "has_arrays").
Proof.
  eexists. split; [vm_compute; reflexivity|]. split_and!; vm_compute; reflexivity.
Qed.

Example choose_by_factor_raises :
  choose (re := MiniRe.engine) Examples.annotation_columns (Some "Spaceflight") None None None
    Examples.collection Examples.store
  = (Raise (KeyError "has_arrays"), Examples.store).
Proof. vm_compute. reflexivity. Qed.

(** The labels [choose] collects are row numbers of the summary frame; a
    collection is keyed by names, so that row numbers choose nothing. *)
Example row_numbers_choose_nothing :
  (choose_subset {[ LInt 0 ]} Examples.collection Examples.store).1 = ∅.
Proof. vm_compute. reflexivity. Qed.

(** * Further properties *)

(** ** The registry of fields *)

Lemma size_list_to_set_le `{Countable A} (l : list A) :
  (size (list_to_set l : gset A) ≤ List.length l)%nat.
Proof.
  induction l as [|x l IH]; [by rewrite list_to_set_nil, size_empty|].
  rewrite list_to_set_cons. cbn [List.length].
  destruct (decide (x ∈ (list_to_set l : gset A))) as [Hin|Hout].
  - rewrite subseteq_union_1_L by (by apply singleton_subseteq_l). lia.
  - rewrite size_union by (by apply disjoint_singleton_l). rewrite size_singleton. lia.
Qed.

Lemma size_list_to_set_NoDup `{Countable A} (l : list A) :
  size (list_to_set l : gset A) = List.length l → NoDup l.
Proof.
  induction l as [|x l IH]; [constructor|].
  rewrite list_to_set_cons. cbn [List.length].
  pose proof (size_list_to_set_le l) as Hle.
  destruct (decide (x ∈ (list_to_set l : gset A))) as [Hin|Hout].
  - rewrite subseteq_union_1_L by (by apply singleton_subseteq_l). lia.
  - rewrite size_union by (by apply disjoint_singleton_l). rewrite size_singleton.
    intros Hsize.
    constructor; [by rewrite <- (elem_of_list_to_set (C := gset A))|]. apply IH. lia.
Qed.

Lemma foldl_insert_reverse `{Countable K} {V} (header : list (K * V)) (acc : gmap K V) :
  foldl (λ m e, <[e.1 := e.2]> m) acc header
  = foldr (λ e m, <[e.1 := e.2]> m) acc (reverse header).
Proof.
  revert acc. induction header as [|e header IH]; intros acc; [done|].
  cbn [foldl]. rewrite IH, reverse_cons, foldr_app. done.
Qed.

Lemma field2title_list_to_map (header : list (string * string)) :
  field2title header = list_to_map (reverse header).
Proof. unfold field2title. by rewrite foldl_insert_reverse. Qed.

Lemma field2title_NoDup (header : list (string * string)) :
  size (field2title header) = List.length header → NoDup header.*1.
Proof.
  rewrite field2title_list_to_map, <- size_dom, dom_list_to_map_L.
  rewrite fmap_reverse. intros Hsize.
  rewrite <- reverse_Permutation. apply size_list_to_set_NoDup.
  by rewrite Hsize, length_reverse, length_fmap.
Qed.

Lemma NoDup_field2title_size (header : list (string * string)) :
  NoDup header.*1 → size (field2title header) = List.length header.
Proof.
  intros Hnd. rewrite field2title_list_to_map, <- size_dom, dom_list_to_map_L.
  rewrite size_list_to_set by (by rewrite fmap_reverse, reverse_Permutation).
  by rewrite length_fmap, length_reverse.
Qed.

Lemma field2title_lookup (header : list (string * string)) (f t : string) :
  NoDup header.*1 → field2title header !! f = Some t ↔ (f, t) ∈ header.
Proof.
  intros Hnd. rewrite field2title_list_to_map.
  rewrite <- elem_of_list_to_map by (by rewrite fmap_reverse, reverse_Permutation).
  by rewrite elem_of_reverse.
Qed.

(** Every title of the registry holds the field ids the dictionary gives
    that title, and holds at least one. *)
Lemma registry_of_map (m : gmap string string) :
  let fields :=
    map_fold (λ field title acc, <[title := default ∅ (acc !! title) ∪ {[field]}]> acc)
             (∅ : gmap string (gset string)) m in
  (∀ t F, fields !! t = Some F → ∀ f, f ∈ F ↔ m !! f = Some t)
  ∧ (∀ t F, fields !! t = Some F → ∃ f, f ∈ F)
  ∧ (∀ f t, m !! f = Some t → is_Some (fields !! t)).
Proof.
  apply (map_fold_weak_ind
           (λ (fields : gmap string (gset string)) (m : gmap string string),
              (∀ t F, fields !! t = Some F → ∀ f, f ∈ F ↔ m !! f = Some t)
              ∧ (∀ t F, fields !! t = Some F → ∃ f, f ∈ F)
              ∧ (∀ f t, m !! f = Some t → is_Some (fields !! t)))).
  - split_and!; intros ??; by rewrite lookup_empty.
  - intros i x m' r Hi (Hin & Hne & Hall). split_and!.
    + intros t F. destruct (decide (t = x)) as [->|Htx].
      * rewrite lookup_insert_eq. intros [= <-] f.
        rewrite elem_of_union, elem_of_singleton.
        destruct (decide (f = i)) as [->|Hfi].
        -- rewrite lookup_insert_eq. split; [done | by right].
        -- rewrite lookup_insert_ne by done.
           destruct (r !! x) as [F0|] eqn:Hr; simpl.
           ++ rewrite (Hin x F0 Hr f). split; [by intros [|] | by left].
           ++ split; [intros [Hf|Hf]; [by apply not_elem_of_empty in Hf | done]|].
              intros Hm. destruct (Hall f x Hm) as [? Hsome]. congruence.
      * rewrite lookup_insert_ne by done. intros Hr f. rewrite (Hin t F Hr f).
        destruct (decide (f = i)) as [->|Hfi].
        -- rewrite lookup_insert_eq, Hi. split; [done | intros [=]; done].
        -- by rewrite lookup_insert_ne.
    + intros t F. destruct (decide (t = x)) as [->|Htx].
      * rewrite lookup_insert_eq. intros [= <-]. exists i.
        apply elem_of_union. right. by apply elem_of_singleton.
      * rewrite lookup_insert_ne by done. apply Hne.
    + intros f t. destruct (decide (f = i)) as [->|Hfi].
      * rewrite lookup_insert_eq. intros [= <-]. by rewrite lookup_insert_eq.
      * rewrite lookup_insert_ne by done. intros Hm.
        destruct (decide (t = x)) as [->|Htx]; [by rewrite lookup_insert_eq|].
        rewrite lookup_insert_ne by done. by apply (Hall f).
Qed.

(** The registry of a header with distinct field ids: a field id is under a
    title exactly when the header pairs them. *)
Lemma registry_lookup (header : list (string * string)) :
  NoDup header.*1 →
  (∀ t f, (∃ F, registry header !! t = Some F ∧ f ∈ F) ↔ (f, t) ∈ header)
  ∧ (∀ t F, registry header !! t = Some F → ∃ f, f ∈ F).
Proof.
  intros Hnd. destruct (registry_of_map (field2title header)) as (Hin & Hne & Hall).
  fold (registry header) in Hin, Hne, Hall. split; [|done].
  intros t f. rewrite <- field2title_lookup by done. split.
  - intros (F & HF & Hf). by apply (Hin t F HF).
  - intros Hm. destruct (Hall f t Hm) as [F HF]. exists F. split; [done|].
    by apply (Hin t F HF).
Qed.

Lemma elem_of_dom_registry (header : list (string * string)) (t : string) :
  NoDup header.*1 → t ∈ dom (registry header) ↔ ∃ f, (f, t) ∈ header.
Proof.
  intros Hnd. destruct (registry_lookup header Hnd) as (Hin & Hne).
  rewrite elem_of_dom. split.
  - intros [F HF]. destruct (Hne t F HF) as [f Hf]. exists f. apply Hin. eauto.
  - intros [f Hf]. apply Hin in Hf as (F & HF & _). by exists F.
Qed.

(** A loop that stops at the first exception raises, when some item raises
    and every item that raises raises the same exception. *)
Lemma map_result_Raise {A B} (f : A → result B) (xs : list A) (e : exn) :
  (∃ x, x ∈ xs ∧ f x = Raise e) →
  (∀ x e', x ∈ xs → f x = Raise e' → e' = e) →
  map_result f xs = Raise e.
Proof.
  induction xs as [|x xs IH]; intros (x0 & Hx0 & Hf0) Hsame.
  - by apply elem_of_nil in Hx0.
  - cbn [map_result]. destruct (f x) as [y|e'] eqn:Hfx.
    + rewrite IH; [done | |].
      * apply elem_of_cons in Hx0 as [->|Hx0]; [congruence|]. eauto.
      * intros x1 e1 Hx1. apply Hsame. by right.
    + f_equal. apply (Hsame x); [left | done].
Qed.

Lemma map_result_Raise_inv {A B} (f : A → result B) (xs : list A) (e : exn) :
  map_result f xs = Raise e → ∃ x, x ∈ xs ∧ f x = Raise e.
Proof.
  induction xs as [|x xs IH]; [discriminate|]. cbn [map_result].
  destruct (f x) as [y|e'] eqn:Hfx.
  - destruct (map_result f xs) as [ys|e'] eqn:Hrest; [discriminate|].
    intros [= ->]. destruct (IH eq_refl) as (x0 & Hx0 & Hf0). exists x0. split; [by right | done].
  - intros [= ->]. exists x. split; [left | done].
Qed.

(** ** Construction of an assay *)

Ltac assay_cbn :=
  try unfold set_fields, set_raw_metadata, set_indexed_by, set_field_indexed_by,
    set_normalized_data, set_processed_data in *;
  cbn [name _fields raw_metadata glds_file_urls storage _normalized_data
       _processed_data _indexed_by _name_delim _field_indexed_by
       Pandas.index Pandas.columns Pandas.rows Py.bind] in *.

Section construction_more.
Context {re : ReEngine}.
Variable DELIM_AS_IS : string.

(** A pattern found in one title, not the index title, which has one field
    id, resolves to that field id. *)
Lemma unique_field_of_single_title (self : Assay) (pattern t f : string) :
  _match_field_titles self pattern search = {[ t ]} →
  _indexed_by self ≠ Some t →
  _fields self !! t = Some {[ f ]} →
  _get_unique_field_from_title self pattern = Ok (Some f).
Proof.
  intros HM Ht HF. unfold _get_unique_field_from_title. rewrite HM.
  destruct (size_one_singleton {[ t ]} t eq_refl) as [Hs ->]. rewrite Hs.
  rewrite bool_decide_eq_false_2, bool_decide_eq_false_2 by lia.
  rewrite bool_decide_eq_false_2 by done. rewrite HF. cbn [Py.bind].
  rewrite set_map_singleton_L.
  destruct (size_one_singleton {[ Some f ]} (Some f) eq_refl) as [Hs' ->]. rewrite Hs'.
  by rewrite bool_decide_eq_false_2, bool_decide_eq_false_2 by lia.
Qed.

Lemma registry_single_field (header : list (string * string)) (title field : string) :
  NoDup header.*1 →
  (∀ f, (f, title) ∈ header ↔ f = field) →
  registry header !! title = Some {[ field ]}.
Proof.
  intros Hnd Hfield. destruct (registry_lookup header Hnd) as (Hin & _).
  destruct (proj2 (Hin title field)) as (F & HF & Hf); [by apply Hfield|].
  rewrite HF. f_equal. apply set_eq. intros f. rewrite elem_of_singleton, <- Hfield.
  rewrite <- Hin. split; [by exists F|]. intros (F' & HF' & Hf'). congruence.
Qed.

(** The frame of the records, indexed by a field that some record carries. *)
Lemma set_index_from_records (raw : list (gmap string string)) (field : string) :
  raw ≠ [] →
  (∃ r, r ∈ raw ∧ is_Some (r !! field)) →
  (frame <- from_records raw;; set_index frame (Some field))
  = Ok {| index := (λ r : gmap string string, from_option LStr LNaN (r !! field)) <$> raw;
          columns := filter (λ c, c ≠ field) (elements (⋃ (dom <$> raw) : gset string));
          rows := delete field <$> raw |}.
Proof.
  intros Hraw (r & Hr & Hsome). destruct raw as [|r0 raw]; [done|].
  cbn [from_records Py.bind set_index Pandas.columns Pandas.rows].
  rewrite decide_True; [done|].
  apply elem_of_elements, elem_of_union_list. exists (dom r).
  split; [by apply list_elem_of_fmap_2 | by apply elem_of_dom].
Qed.

Lemma match_titles_before_indexing (self : Assay) (header : list (string * string))
    (pattern title : string) (method : re_method) :
  NoDup header.*1 →
  _indexed_by self = None → _fields self = registry header →
  (∀ t, (∃ f, (f, t) ∈ header) → method pattern t = true → t = title) →
  (∃ f, (f, title) ∈ header) → method pattern title = true →
  _match_field_titles self pattern method = {[ title ]}.
Proof.
  intros Hnd Hix Hfields Honly Hheader Hm. apply set_eq. intros t.
  rewrite elem_of_match_field_titles, elem_of_singleton, Hix, Hfields.
  rewrite elem_of_dom_registry by done. cbn [truthy]. split.
  - intros [[Ht|[[=] _]] Hmt]. by apply Honly.
  - intros ->. split; [by left | done].
Qed.

(** Construction, once the header and the index pattern are known to
    resolve: what is left to decide is the rewrite of the index. *)
Lemma init_resolved (name : string) (header : list (string * string))
    (raw : list (gmap string string)) (urls : gmap string string)
    (prefix index_by name_delim title field : string) :
  NoDup header.*1 → raw ≠ [] →
  (∀ t, (∃ f, (f, t) ∈ header) → re_search true index_by t = true → t = title) →
  (∀ t, (∃ f, (f, t) ∈ header) → re_fullmatch true index_by t = true → t = title) →
  re_search true index_by title = true → re_fullmatch true index_by title = true →
  (∀ f, (f, title) ∈ header ↔ f = field) →
  (∃ r, r ∈ raw ∧ is_Some (r !! field)) →
  Assay__init__ DELIM_AS_IS name header raw urls prefix index_by name_delim
  = (ix <- (let ix := (λ r : gmap string string, from_option LStr LNaN (r !! field)) <$> raw in
            if bool_decide (name_delim ≠ DELIM_AS_IS)
            then map_result (sub_delim_label name_delim) ix else Ok ix);;
     Ok {| name := name; _fields := delete title (registry header);
           raw_metadata :=
             {| index := ix;
                columns := filter (λ c, c ≠ field) (elements (⋃ (dom <$> raw) : gset string));
                rows := delete field <$> raw |};
           glds_file_urls := urls; storage := Str.join prefix name;
           _normalized_data := None; _processed_data := None;
           _indexed_by := Some title; _name_delim := name_delim;
           _field_indexed_by := Some field |}).
Proof.
  intros Hnd Hraw Hsearch Hfull Hs Hf Hfield Hcol.
  assert (Hheader : ∃ f, (f, title) ∈ header) by (exists field; by apply Hfield).
  unfold Assay__init__. fold (field2title header). fold (registry header).
  rewrite bool_decide_eq_false_2
    by (intros Hne; apply Hne; by apply NoDup_field2title_size).
  pose proof (set_index_from_records raw field Hraw Hcol) as Hframe.
  destruct (from_records raw) as [frame|] eqn:Hrec; [|done]. cbn [Py.bind] in *.
  rewrite (unique_field_of_single_title _ index_by title field).
  2:{ by apply (match_titles_before_indexing _ header). }
  2:{ done. }
  2:{ by apply registry_single_field. }
  cbn [Py.bind].
  rewrite (match_titles_before_indexing _ header index_by title fullmatch) by done.
  destruct (size_one_singleton {[ title ]} title eq_refl) as [Hsize Hfirst].
  rewrite Hsize, Hfirst. rewrite bool_decide_eq_false_2 by lia.
  assay_cbn. rewrite Hframe. assay_cbn.
  assert (Hdom : title ∈ dom (registry header)) by (by apply elem_of_dom_registry).
  case_bool_decide.
  - destruct (map_result _ _) as [ix|e]; [|done]. assay_cbn.
    by rewrite bool_decide_eq_true_2.
  - assay_cbn. by rewrite bool_decide_eq_true_2.
Qed.

Lemma set_index_inv (df : DataFrame string) (field : option string) (df' : DataFrame string) :
  set_index df field = Ok df' →
  ∃ f, field = Some f ∧ f ∈ columns df
       ∧ df' = {| index := (λ r : gmap string string, from_option LStr LNaN (r !! f)) <$> rows df;
                  columns := filter (λ c, c ≠ f) (columns df);
                  rows := delete f <$> rows df |}.
Proof.
  unfold set_index. destruct field as [f|]; [|discriminate].
  case_decide; [|discriminate]. intros [= <-]. eauto.
Qed.

Lemma from_records_inv (raw : list (gmap string string)) (df : DataFrame string) :
  from_records raw = Ok df →
  raw ≠ [] ∧ rows df = raw ∧ columns df = elements (⋃ (dom <$> raw) : gset string).
Proof. destruct raw; [discriminate|]. by intros [= <-]. Qed.

(** What a constructed assay records of its inputs. *)
Lemma init_inv (n : string) header raw urls prefix index_by name_delim self :
  Assay__init__ DELIM_AS_IS n header raw urls prefix index_by name_delim = Ok self →
  NoDup header.*1 ∧ raw ≠ []
  ∧ ∃ title field,
      _indexed_by self = Some title ∧ _field_indexed_by self = Some field
      ∧ title ∈ dom (registry header) ∧ re_fullmatch true index_by title = true
      ∧ _fields self = delete title (registry header)
      ∧ field ∈ elements (⋃ (dom <$> raw) : gset string)
      ∧ rows (raw_metadata self) = delete field <$> raw
      ∧ columns (raw_metadata self)
        = filter (λ c, c ≠ field) (elements (⋃ (dom <$> raw) : gset string))
      ∧ List.length (index (raw_metadata self)) = List.length raw
      ∧ name self = n ∧ storage self = Str.join prefix n
      ∧ glds_file_urls self = urls ∧ _name_delim self = name_delim.
Proof.
  unfold Assay__init__. fold (field2title header). fold (registry header).
  case_bool_decide as Hsize; [discriminate|].
  intros Hinit. inv_bind Hinit. rename a into frame0.
  inv_bind Hinit. rename a into field0.
  case_bool_decide as Hone; [discriminate|].
  match type of Hone with size ?X = 1 => set (M := X) in * end.
  apply size_1_elem_of in Hone as [t Ht]. apply leibniz_equiv in Ht.
  assert (Hmatch : re_fullmatch true index_by t = true).
  { assert (t ∈ M) as Hin by (rewrite Ht; by apply elem_of_singleton).
    unfold M in Hin. by apply elem_of_match_field_titles in Hin as [_ Hm]. }
  clearbody M. subst M.
  unfold set_first in Hinit. rewrite elements_singleton in Hinit. cbn [head] in Hinit.
  inv_bind Hinit. rename a into frame1.
  inv_bind Hinit. rename a into self1.
  assay_cbn.
  apply set_index_inv in Ha1 as (f & -> & Hcol & ->).
  apply from_records_inv in Ha as (Hraw & Hrows & Hcols).
  rewrite Hrows, Hcols in *.
  assert (Hnd : NoDup header.*1).
  { by apply field2title_NoDup. }
  assert (Hself1 : ∃ ix, List.length ix = List.length raw
            ∧ self1 = {| name := n; _fields := registry header;
                         raw_metadata :=
                           {| index := ix;
                              columns := filter (λ c, c ≠ f)
                                           (elements (⋃ (dom <$> raw) : gset string));
                              rows := delete f <$> raw |};
                         glds_file_urls := urls; storage := Str.join prefix n;
                         _normalized_data := None; _processed_data := None;
                         _indexed_by := Some t; _name_delim := name_delim;
                         _field_indexed_by := Some f |}).
  { case_bool_decide.
    - inv_bind Ha2. injection Ha2 as <-. exists a. split; [|done].
      apply map_result_Ok in Ha. apply Forall2_length in Ha.
      cbn [Pandas.index] in Ha. rewrite length_fmap in Ha. done.
    - injection Ha2 as <-. eexists. split; [|done]. by rewrite length_fmap. }
  clear Ha2. destruct Hself1 as (ix & Hlen & ->). assay_cbn.
  case_bool_decide as Hdom; [|discriminate]. injection Hinit as <-.
  split_and!; [done..|]. exists t, f. assay_cbn. split_and!; done.
Qed.

(** X3. Construction succeeds on a header with distinct field ids whose titles
    the index pattern singles out, and on records that all carry a sample
    name: the pattern is found in one title only, matches it in full, the
    title has one field id, and every record has a value under that id. The
    index then holds the sample names, rewritten when a delimiter is
    given. *)
Theorem init_succeeds (n : string) (header : list (string * string))
    (raw : list (gmap string string)) (urls : gmap string string)
    (prefix index_by name_delim title field : string) :
  NoDup header.*1 → raw ≠ [] →
  (∀ t, (∃ f, (f, t) ∈ header) → re_search true index_by t = true → t = title) →
  (∀ t, (∃ f, (f, t) ∈ header) → re_fullmatch true index_by t = true → t = title) →
  re_search true index_by title = true → re_fullmatch true index_by title = true →
  (∀ f, (f, title) ∈ header ↔ f = field) →
  (∀ r, r ∈ raw → is_Some (r !! field)) →
  ∃ self,
    Assay__init__ DELIM_AS_IS n header raw urls prefix index_by name_delim = Ok self
    ∧ name self = n ∧ _indexed_by self = Some title ∧ _field_indexed_by self = Some field
    ∧ index (raw_metadata self)
      = (λ r : gmap string string,
           LStr (if bool_decide (name_delim ≠ DELIM_AS_IS)
                 then Str.sub_delim name_delim (default "" (r !! field))
                 else default "" (r !! field))) <$> raw
    ∧ rows (raw_metadata self) = delete field <$> raw
    ∧ _normalized_data self = None ∧ _processed_data self = None.
Proof.
  intros Hnd Hraw Hsearch Hfull Hs Hf Hfield Hall.
  assert (Hcol : ∃ r, r ∈ raw ∧ is_Some (r !! field)).
  { destruct raw as [|r raw']; [done|]. exists r. split; [left | apply Hall; left]. }
  rewrite (init_resolved n header raw urls prefix index_by name_delim title field) by done.
  cbn zeta. case_bool_decide as Hdelim.
  - rewrite (map_result_all_Ok _
               (λ l, match l with LStr s => LStr (Str.sub_delim name_delim s) | _ => l end)).
    + cbn [Py.bind]. eexists. split; [reflexivity|]. assay_cbn. split_and!; try done.
      rewrite <- list_fmap_compose. apply list_fmap_ext. intros i r Hr. cbn.
      apply list_elem_of_lookup_2 in Hr. by destruct (Hall r Hr) as [v ->].
    + apply Forall_fmap, Forall_forall. intros r Hr. cbn.
      by destruct (Hall r Hr) as [v ->].
  - cbn [Py.bind]. eexists. split; [reflexivity|]. assay_cbn. split_and!; try done.
    apply list_fmap_ext. intros i r Hr.
    apply list_elem_of_lookup_2 in Hr. by destruct (Hall r Hr) as [v ->].
Qed.

(** X4. A record without a sample name: with a delimiter the rewrite of the
    index raises a [TypeError] and no assay is built; without one, the assay
    is built and the record is indexed by a missing value. *)
Theorem init_missing_sample_name (n : string) (header : list (string * string))
    (raw : list (gmap string string)) (urls : gmap string string)
    (prefix index_by name_delim title field : string) (r0 : gmap string string) :
  NoDup header.*1 →
  (∀ t, (∃ f, (f, t) ∈ header) → re_search true index_by t = true → t = title) →
  (∀ t, (∃ f, (f, t) ∈ header) → re_fullmatch true index_by t = true → t = title) →
  re_search true index_by title = true → re_fullmatch true index_by title = true →
  (∀ f, (f, title) ∈ header ↔ f = field) →
  (∃ r, r ∈ raw ∧ is_Some (r !! field)) →
  r0 ∈ raw → r0 !! field = None →
  (name_delim ≠ DELIM_AS_IS →
     Assay__init__ DELIM_AS_IS n header raw urls prefix index_by name_delim = Raise TypeError)
  ∧ (name_delim = DELIM_AS_IS →
       ∃ self,
         Assay__init__ DELIM_AS_IS n header raw urls prefix index_by name_delim = Ok self
         ∧ LNaN ∈ index (raw_metadata self)).
Proof.
  intros Hnd Hsearch Hfull Hs Hf Hfield Hcol Hr0 Hmissing.
  assert (Hraw : raw ≠ []) by (intros ->; by apply elem_of_nil in Hr0).
  rewrite (init_resolved n header raw urls prefix index_by name_delim title field) by done.
  cbn zeta. split; intros Hdelim.
  - rewrite bool_decide_eq_true_2 by done.
    rewrite (map_result_Raise _ _ TypeError); [done | |].
    + exists LNaN. split; [|done]. apply list_elem_of_fmap. exists r0. by rewrite Hmissing.
    + intros l e' _. destruct l; cbn; congruence.
  - rewrite bool_decide_eq_false_2 by (by intros ?). cbn [Py.bind].
    eexists. split; [reflexivity|]. assay_cbn.
    apply list_elem_of_fmap. exists r0. by rewrite Hmissing.
Qed.

Lemma unique_field_never_json (self : Assay) (pattern msg : string) :
  _get_unique_field_from_title self pattern ≠ Raise (GeneLabJSONException msg).
Proof.
  unfold _get_unique_field_from_title.
  repeat case_bool_decide; try done.
  destruct (set_first _) as [t|]; [|done].
  case_bool_decide; cbn [Py.bind].
  - repeat case_bool_decide; try done. by destruct (set_first _).
  - destruct (_fields self !! t); [|done]. cbn [Py.bind].
    repeat case_bool_decide; try done. by destruct (set_first _).
Qed.

Lemma init_repeated_ids (n : string) (header : list (string * string))
    (raw : list (gmap string string)) (urls : gmap string string)
    (prefix index_by name_delim : string) :
  ¬ NoDup header.*1 →
  Assay__init__ DELIM_AS_IS n header raw urls prefix index_by name_delim
  = Raise (GeneLabJSONException "Conflicting IDs of data fields").
Proof.
  intros Hdup. unfold Assay__init__. fold (field2title header).
  rewrite bool_decide_eq_true_2; [done|]. intros Hsize. by apply Hdup, field2title_NoDup.
Qed.

Lemma init_distinct_ids (n : string) (header : list (string * string))
    (raw : list (gmap string string)) (urls : gmap string string)
    (prefix index_by name_delim msg : string) :
  NoDup header.*1 →
  Assay__init__ DELIM_AS_IS n header raw urls prefix index_by name_delim
  ≠ Raise (GeneLabJSONException msg).
Proof.
  intros Hnd. unfold Assay__init__. fold (field2title header). fold (registry header).
  rewrite bool_decide_eq_false_2
    by (intros Hne; apply Hne; by apply NoDup_field2title_size).
  destruct (from_records raw) as [frame|e] eqn:Hframe.
  2:{ destruct raw; [|done]. cbn in Hframe. injection Hframe as <-. done. }
  cbn [Py.bind].
  destruct (_get_unique_field_from_title _ index_by) as [field|e] eqn:Hfield.
  2:{ cbn [Py.bind]. intros [= ->]. by apply unique_field_never_json in Hfield. }
  cbn [Py.bind]. case_bool_decide; [done|]. assay_cbn.
  unfold set_index. destruct field as [f|]; [|done].
  case_decide; [|done]. assay_cbn.
  case_bool_decide.
  + destruct (map_result _ _) as [ix|e] eqn:Hix; assay_cbn.
    * destruct (set_first _); [|done]. by case_bool_decide.
    * intros [= ->]. apply map_result_Raise_inv in Hix as (l & _ & Hl).
      by destruct l.
  + assay_cbn. destruct (set_first _); [|done]. by case_bool_decide.
Qed.

(** X5. Field ids that repeat in the header are the one cause of a
    [GeneLabJSONException] at construction: a header with a repeated field id
    raises it whatever the other arguments, and a header with distinct field
    ids never does. *)
Theorem init_conflicting_ids (n : string) (header : list (string * string))
    (raw : list (gmap string string)) (urls : gmap string string)
    (prefix index_by name_delim : string) :
  (¬ NoDup header.*1 →
     Assay__init__ DELIM_AS_IS n header raw urls prefix index_by name_delim
     = Raise (GeneLabJSONException "Conflicting IDs of data fields"))
  ∧ (NoDup header.*1 → ∀ msg,
       Assay__init__ DELIM_AS_IS n header raw urls prefix index_by name_delim
       ≠ Raise (GeneLabJSONException msg)).
Proof.
  split.
  - apply init_repeated_ids.
  - intros Hnd msg. by apply init_distinct_ids.
Qed.

(** X6. The registry of a constructed assay is the header grouped by title,
    without the index title: a title has a field id exactly when the header
    pairs them and the title is not the index title, and no title is
    registered without a field id. *)
Theorem init_registry (n : string) (header : list (string * string))
    (raw : list (gmap string string)) (urls : gmap string string)
    (prefix index_by name_delim : string) (self : Assay) :
  Assay__init__ DELIM_AS_IS n header raw urls prefix index_by name_delim = Ok self →
  (∀ t f, (∃ F, _fields self !! t = Some F ∧ f ∈ F)
          ↔ (f, t) ∈ header ∧ _indexed_by self ≠ Some t)
  ∧ (∀ t F, _fields self !! t = Some F → F ≠ ∅)
  ∧ (∃ t f, _indexed_by self = Some t ∧ (f, t) ∈ header).
Proof.
  intros Hinit. apply init_inv in Hinit as (Hnd & _ & title & field & Hby & _ & Hdom & _ & Hfields & _).
  destruct (registry_lookup header Hnd) as [Hreg Hne].
  rewrite Hfields, Hby. split_and!.
  - intros t f. split.
    + intros (F & HF & Hf). apply lookup_delete_Some in HF as [Hne' HF]. split.
      * apply Hreg. by exists F.
      * congruence.
    + intros [Hin Hne']. apply Hreg in Hin as (F & HF & Hf). exists F. split; [|done].
      apply lookup_delete_Some. split; [congruence | done].
  - intros t F HF. apply lookup_delete_Some in HF as [_ HF].
    destruct (Hne t F HF) as [f Hf]. intros ->. by apply not_elem_of_empty in Hf.
  - apply elem_of_dom in Hdom as [F HF]. destruct (Hne title F HF) as [f Hf].
    exists title, f. split; [done|]. apply Hreg. by exists F.
Qed.

(** X7. The metadata table of a constructed assay has one row and one index
    label per record, in the order of the records; the index field is the
    one column taken out of the rows, and the columns left are the other
    keys of the records, each once. There is at least one record, and no
    field id repeats in the header. *)
Theorem init_table_shape (n : string) (header : list (string * string))
    (raw : list (gmap string string)) (urls : gmap string string)
    (prefix index_by name_delim : string) (self : Assay) :
  Assay__init__ DELIM_AS_IS n header raw urls prefix index_by name_delim = Ok self →
  raw ≠ [] ∧ NoDup header.*1
  ∧ List.length (index (raw_metadata self)) = List.length raw
  ∧ ∃ field,
      _field_indexed_by self = Some field
      ∧ (∃ r, r ∈ raw ∧ is_Some (r !! field))
      ∧ rows (raw_metadata self) = delete field <$> raw
      ∧ NoDup (columns (raw_metadata self))
      ∧ ∀ c, c ∈ columns (raw_metadata self)
             ↔ c ≠ field ∧ ∃ r, r ∈ raw ∧ is_Some (r !! c).
Proof.
  intros Hinit.
  apply init_inv in Hinit
    as (Hnd & Hraw & title & field & _ & Hfield & _ & _ & _ & Hcol & Hrows & Hcols & Hlen & _).
  assert (Hkeys : ∀ c, c ∈ elements (⋃ (dom <$> raw) : gset string)
                       ↔ ∃ r, r ∈ raw ∧ is_Some (r !! c)).
  { intros c. rewrite elem_of_elements, elem_of_union_list. split.
    - intros (X & HX & Hc). apply list_elem_of_fmap in HX as (r & -> & Hr).
      exists r. split; [done|]. by apply elem_of_dom.
    - intros (r & Hr & Hc). exists (dom r). split; [|by apply elem_of_dom].
      apply list_elem_of_fmap. by exists r. }
  split_and!; try done. exists field. split_and!; try done.
  - by apply Hkeys.
  - rewrite Hcols. apply NoDup_filter, NoDup_elements.
  - intros c. rewrite Hcols, list_elem_of_filter, Hkeys. tauto.
Qed.

End construction_more.

(** Case analysis on the members of a literal list. *)
Ltac list_cases H tac :=
  first [ apply elem_of_nil in H; destruct H
        | apply elem_of_cons in H as [H|H]; [simplify_eq; tac | list_cases H tac] ].

Lemma init_succeeds_witness :
  ∃ self,
    Assay__init__ (re := MiniRe.engine) Examples.delim_as_is "a1" Examples.header
      [Examples.record1; Examples.record2] Examples.file_urls "/store" "Sample Name" "_" = Ok self
    ∧ name self = "a1" ∧ _indexed_by self = Some "Sample Name"
    ∧ _field_indexed_by self = Some "a100"
    ∧ index (raw_metadata self)
      = (λ r : gmap string string,
           LStr (if bool_decide ("_" ≠ Examples.delim_as_is)
                 then Str.sub_delim "_" (default "" (r !! "a100"))
                 else default "" (r !! "a100"))) <$> [Examples.record1; Examples.record2]
    ∧ rows (raw_metadata self) = delete "a100" <$> [Examples.record1; Examples.record2]
    ∧ _normalized_data self = None ∧ _processed_data self = None.
Proof.
  apply (init_succeeds (re := MiniRe.engine) Examples.delim_as_is "a1" Examples.header
           [Examples.record1; Examples.record2] Examples.file_urls "/store" "Sample Name" "_"
           "Sample Name" "a100").
  - by apply (bool_decide_unpack _).
  - discriminate.
  - intros t [f Hin]. unfold Examples.header in Hin.
    list_cases Hin ltac:(vm_compute; congruence).
  - intros t [f Hin]. unfold Examples.header in Hin.
    list_cases Hin ltac:(vm_compute; congruence).
  - reflexivity.
  - reflexivity.
  - intros f. split.
    + intros Hin. unfold Examples.header in Hin. list_cases Hin ltac:(done).
    + intros ->. by left.
  - intros r Hr. list_cases Hr ltac:(by eexists).
Defined.

Lemma init_missing_sample_name_witness :
  let raw : list (gmap string string) := [Examples.record1; {[ "a101" := "unnamed" ]}] in
  ("_" ≠ Examples.delim_as_is →
     Assay__init__ (re := MiniRe.engine) Examples.delim_as_is "a1" Examples.header raw
       Examples.file_urls "/store" "Sample Name" "_" = Raise TypeError)
  ∧ ("_" = Examples.delim_as_is →
       ∃ self,
         Assay__init__ (re := MiniRe.engine) Examples.delim_as_is "a1" Examples.header raw
           Examples.file_urls "/store" "Sample Name" "_" = Ok self
         ∧ LNaN ∈ index (raw_metadata self)).
Proof.
  apply (init_missing_sample_name (re := MiniRe.engine) Examples.delim_as_is "a1" Examples.header
           [Examples.record1; {[ "a101" := "unnamed" ]}] Examples.file_urls "/store"
           "Sample Name" "_" "Sample Name" "a100" {[ "a101" := "unnamed" ]}).
  - by apply (bool_decide_unpack _).
  - intros t [f Hin]. unfold Examples.header in Hin.
    list_cases Hin ltac:(vm_compute; congruence).
  - intros t [f Hin]. unfold Examples.header in Hin.
    list_cases Hin ltac:(vm_compute; congruence).
  - reflexivity.
  - reflexivity.
  - intros f. split.
    + intros Hin. unfold Examples.header in Hin. list_cases Hin ltac:(done).
    + intros ->. by left.
  - exists Examples.record1. split; [by left | by eexists].
  - right. by left.
  - reflexivity.
Defined.

(** Both outcomes on a record without a sample name. *)
Example missing_sample_name_example :
  Examples.init Examples.header [Examples.record1; {[ "a101" := "unnamed" ]}] "Sample Name" "_"
  = Raise TypeError
  ∧ index (raw_metadata (Examples.unwrap
             (Examples.init Examples.header [Examples.record1; {[ "a101" := "unnamed" ]}]
                "Sample Name" Examples.delim_as_is)))
    = [LStr "GSM-1.a"; LNaN].
Proof. split; vm_compute; reflexivity. Qed.

Example conflicting_ids_example :
  Examples.init [("a100", "Sample Name"); ("a100", "Protocol REF")] [Examples.record1]
    "Sample Name" "_"
  = Raise (GeneLabJSONException "Conflicting IDs of data fields").
Proof. vm_compute. reflexivity. Qed.

Lemma init_registry_witness :
  (∀ t f, (∃ F, _fields Examples.assay !! t = Some F ∧ f ∈ F)
          ↔ (f, t) ∈ Examples.header ∧ _indexed_by Examples.assay ≠ Some t)
  ∧ (∀ t F, _fields Examples.assay !! t = Some F → F ≠ ∅)
  ∧ (∃ t f, _indexed_by Examples.assay = Some t ∧ (f, t) ∈ Examples.header).
Proof.
  apply (init_registry (re := MiniRe.engine) Examples.delim_as_is "a1" Examples.header
           [Examples.record1; Examples.record2] Examples.file_urls "/store" "Sample Name" "_").
  vm_compute. reflexivity.
Defined.

Lemma init_table_shape_witness :
  let raw := [Examples.record1; Examples.record2] in
  raw ≠ [] ∧ NoDup Examples.header.*1
  ∧ List.length (index (raw_metadata Examples.assay)) = List.length raw
  ∧ ∃ field,
      _field_indexed_by Examples.assay = Some field
      ∧ (∃ r, r ∈ raw ∧ is_Some (r !! field))
      ∧ rows (raw_metadata Examples.assay) = delete field <$> raw
      ∧ NoDup (columns (raw_metadata Examples.assay))
      ∧ ∀ c, c ∈ columns (raw_metadata Examples.assay)
             ↔ c ≠ field ∧ ∃ r, r ∈ raw ∧ is_Some (r !! c).
Proof.
  apply (init_table_shape (re := MiniRe.engine) Examples.delim_as_is "a1" Examples.header
           [Examples.record1; Examples.record2] Examples.file_urls "/store" "Sample Name" "_").
  vm_compute. reflexivity.
Defined.

(** ** Column selection by title *)

Lemma set_union_star_Ok `{Countable A} (sets : list (gset A)) (U : gset A) :
  set_union_star sets = Ok U → sets ≠ [] ∧ U = ⋃ sets.
Proof. destruct sets as [|s rest]; [discriminate|]. by intros [= <-]. Qed.

Lemma getcols_Ok {V} (df df' : DataFrame V) (cols : list string) :
  getcols df cols = Ok df' →
  (∀ c, c ∈ cols → c ∈ columns df)
  ∧ df' = {| index := index df; columns := cols;
             rows := filter (λ kv, kv.1 ∈ cols) <$> rows df |}.
Proof.
  unfold getcols. destruct (list_find _ cols) as [[i c]|] eqn:Hfind; [discriminate|].
  intros [= <-]. split; [|done].
  apply list_find_None in Hfind. intros c Hc.
  apply (proj1 (Forall_forall _ _) Hfind) in Hc.
  by destruct (decide (c ∈ columns df)).
Qed.

Section selection.
Context {re : ReEngine}.

(** The titles a collection of patterns selects. *)
Lemma elem_of_selected_titles (self : Assay) (patterns : list string) (t : string) :
  t ∈ (∅ ∪ ⋃ ((λ p, _match_field_titles self p fullmatch) <$> patterns) : gset string)
  ↔ ∃ p, p ∈ patterns
         ∧ (t ∈ dom (_fields self)
            ∨ (truthy (_indexed_by self) = true ∧ _indexed_by self = Some t))
         ∧ re_fullmatch true p t = true.
Proof.
  rewrite union_empty_l_L, elem_of_union_list. split.
  - intros (X & HX & Ht). apply list_elem_of_fmap in HX as (p & -> & Hp).
    apply elem_of_match_field_titles in Ht as [Hpool Hm]. by exists p.
  - intros (p & Hp & Hpool & Hm). exists (_match_field_titles self p fullmatch). split.
    + apply list_elem_of_fmap. by exists p.
    + by apply elem_of_match_field_titles.
Qed.

(** X8. Column selection by patterns that match no title in full, the index
    title included, returns the empty frame: no column, no row, no index. *)
Theorem metadata_no_match (self : Assay) (patterns : list string) :
  (∀ p t, p ∈ patterns → t ∈ dom (_fields self) ∨ _indexed_by self = Some t →
          re_fullmatch true p t = false) →
  metadata_getitem self patterns = Ok empty_frame.
Proof.
  intros Hnone. unfold metadata_getitem.
  rewrite bool_decide_eq_false_2; [done|].
  intros Hne. apply Hne. apply elem_of_equiv_empty_L. intros t Ht.
  apply elem_of_selected_titles in Ht as (p & Hp & Hpool & Hm).
  rewrite Hnone in Hm; [done | done |]. destruct Hpool as [?|[_ ?]]; auto.
Qed.

(** X9. Column selection by a pattern that matches the index title in full
    raises a [KeyError] for that title, whatever the other patterns are: the
    index title is in the pool of titles but has no entry in the registry. *)
Theorem metadata_index_title_raises (self : Assay) (patterns : list string) (t p : string) :
  _indexed_by self = Some t → t ≠ "" → _fields self !! t = None →
  p ∈ patterns → re_fullmatch true p t = true →
  metadata_getitem self patterns = Raise (KeyError t).
Proof.
  intros Hby Hne Hnone Hp Hm. unfold metadata_getitem.
  assert (Htruthy : truthy (_indexed_by self) = true).
  { rewrite Hby. cbn. apply negb_true_iff. by apply String.eqb_neq. }
  assert (Ht : t ∈ (∅ ∪ ⋃ ((λ p, _match_field_titles self p fullmatch) <$> patterns)
                    : gset string)).
  { apply elem_of_selected_titles. exists p. auto. }
  rewrite bool_decide_eq_true_2 by (intros Hempty; rewrite Hempty in Ht; set_solver).
  rewrite (map_result_Raise _ _ (KeyError t)); [done | |].
  - exists t. split; [by apply elem_of_elements | by rewrite Hnone].
  - intros t' e Ht' Hraise. apply elem_of_elements in Ht'.
    destruct (_fields self !! t') as [F|] eqn:HF; [done|].
    apply elem_of_selected_titles in Ht' as (p' & _ & Hpool & _).
    destruct Hpool as [Hdom|[_ Heq]].
    + apply elem_of_dom in Hdom as [F HF']. congruence.
    + congruence.
Qed.

(** X10. A column selection that succeeds is the empty frame, or it keeps the
    index of the metadata table and one row per row of it, cut down to the
    selected columns; the selected columns are columns of the table, none is
    repeated, and they are the field ids registered under the titles that
    some pattern matches in full. *)
Theorem metadata_selected_columns (self : Assay) (patterns : list string)
    (df : DataFrame string) :
  metadata_getitem self patterns = Ok df →
  df = empty_frame
  ∨ (index df = index (raw_metadata self)
     ∧ rows df = filter (λ kv, kv.1 ∈ columns df) <$> rows (raw_metadata self)
     ∧ NoDup (columns df)
     ∧ (∀ c, c ∈ columns df → c ∈ columns (raw_metadata self))
     ∧ ∀ c, c ∈ columns df
            ↔ ∃ p t F, p ∈ patterns ∧ re_fullmatch true p t = true
                       ∧ _fields self !! t = Some F ∧ c ∈ F).
Proof.
  unfold metadata_getitem. case_bool_decide as Htitles; [|intros [= <-]; by left].
  intros Hsel. right. inv_bind Hsel. rename a into field_sets.
  inv_bind Hsel. rename a into fields.
  apply map_result_Ok in Ha. apply set_union_star_Ok in Ha0 as [_ ->].
  apply getcols_Ok in Hsel as [Hcols ->]. cbn [index columns rows].
  split_and!; try done.
  - apply NoDup_elements.
  - intros c. rewrite elem_of_elements, elem_of_union_list. split.
    + intros (F & HF & Hc).
      apply list_elem_of_lookup in HF as [i HF].
      destruct (Forall2_lookup_r _ _ _ _ _ Ha HF) as (t & Ht & Hlook).
      destruct (_fields self !! t) as [F'|] eqn:HF'; [|done]. injection Hlook as ->.
      apply list_elem_of_lookup_2, elem_of_elements, elem_of_selected_titles in Ht
        as (p & Hp & _ & Hm).
      by exists p, t, F.
    + intros (p & t & F & Hp & Hm & HF & Hc). exists F. split; [|done].
      assert (Ht : t ∈ elements (∅ ∪ ⋃ ((λ p, _match_field_titles self p fullmatch) <$> patterns)
                                 : gset string)).
      { apply elem_of_elements, elem_of_selected_titles. exists p. split_and!; [done | | done].
        left. apply elem_of_dom. by exists F. }
      apply list_elem_of_lookup in Ht as [i Ht].
      destruct (Forall2_lookup_l _ _ _ _ _ Ha Ht) as (F' & HF' & Hlook).
      rewrite HF in Hlook. injection Hlook as <-. by apply list_elem_of_lookup_2 in HF'.
Qed.

End selection.

Lemma metadata_no_match_witness :
  metadata_getitem (re := MiniRe.engine) Examples.assay ["Sample"; "protocol"] = Ok empty_frame.
Proof.
  apply (metadata_no_match (re := MiniRe.engine) Examples.assay ["Sample"; "protocol"]).
  intros p t Hp Ht.
  assert (Hpool : t ∈ ["Protocol REF"; "Parameter Value: Normalized Data Files"; "Sample Name"]).
  { destruct Ht as [Ht|Ht].
    - apply elem_of_elements in Ht. revert Ht. vm_compute (elements _).
      rewrite !elem_of_cons. tauto.
    - injection Ht as <-. by do 2 right; left. }
  list_cases Hp ltac:(list_cases Hpool ltac:(vm_compute; reflexivity)).
Defined.

Lemma metadata_index_title_raises_witness :
  metadata_getitem (re := MiniRe.engine) Examples.assay ["protocol ref"; "sample name"]
  = Raise (KeyError "Sample Name").
Proof.
  apply (metadata_index_title_raises (re := MiniRe.engine) Examples.assay
           ["protocol ref"; "sample name"] "Sample Name" "sample name").
  - reflexivity.
  - discriminate.
  - vm_compute. reflexivity.
  - right. by left.
  - vm_compute. reflexivity.
Defined.

Lemma metadata_selected_columns_witness :
  let df := {| index := [LStr "GSM_1_a"; LStr "GSM_2_b"]; columns := ["a101"];
               rows := [{[ "a101" := "GeneLab RNAseq data processing protocol" ]};
                        {[ "a101" := "GeneLab RNAseq data processing protocol" ]}] |} in
  df = empty_frame
  ∨ (index df = index (raw_metadata Examples.assay)
     ∧ rows df = filter (λ kv, kv.1 ∈ columns df) <$> rows (raw_metadata Examples.assay)
     ∧ NoDup (columns df)
     ∧ (∀ c, c ∈ columns df → c ∈ columns (raw_metadata Examples.assay))
     ∧ ∀ c, c ∈ columns df
            ↔ ∃ p t F, p ∈ ["protocol ref"] ∧ re_fullmatch (ReEngine := MiniRe.engine) true p t = true
                       ∧ _fields Examples.assay !! t = Some F ∧ c ∈ F).
Proof.
  apply (metadata_selected_columns (re := MiniRe.engine) Examples.assay ["protocol ref"]).
  vm_compute. reflexivity.
Defined.

(** ** Row selection by index patterns *)

Lemma bind_filter_labels {A} (Z : list (label * A)) (ls : list label) :
  NoDup ls →
  (l ← ls; filter (λ ir : label * A, ir.1 = l) Z) ≡ₚ filter (λ ir : label * A, ir.1 ∈ ls) Z.
Proof.
  induction 1 as [|l ls Hl Hnd IH]; cbn [mbind list_bind].
  - induction Z as [|z Z IHZ]; [done|].
    rewrite filter_cons_False by (by intros ?%elem_of_nil). done.
  - change (list_bind _ _ ?f ls) with (mbind f ls). rewrite IH. clear IH.
    induction Z as [|z Z IHZ]; [done|].
    destruct (decide (z.1 = l)) as [Heq|Hne].
    + rewrite (filter_cons_True (λ ir : label * A, ir.1 = l)) by done.
      rewrite (filter_cons_True (λ ir : label * A, ir.1 ∈ l :: ls)) by (rewrite Heq; left).
      rewrite (filter_cons_False (λ ir : label * A, ir.1 ∈ ls)) by (by rewrite Heq).
      cbn [app]. by rewrite IHZ.
    + rewrite (filter_cons_False (λ ir : label * A, ir.1 = l)) by done.
      destruct (decide (z.1 ∈ ls)) as [Hin|Hnin].
      * rewrite (filter_cons_True (λ ir : label * A, ir.1 ∈ ls)) by done.
        rewrite (filter_cons_True (λ ir : label * A, ir.1 ∈ l :: ls)) by (by right).
        rewrite <- Permutation_middle. by rewrite IHZ.
      * rewrite (filter_cons_False (λ ir : label * A, ir.1 ∈ ls)) by done.
        rewrite (filter_cons_False (λ ir : label * A, ir.1 ∈ l :: ls)); [done|].
        intros [?|?]%elem_of_cons; done.
Qed.

Lemma zip_fst_snd {A B} (l : list (A * B)) : zip l.*1 l.*2 = l.
Proof. induction l as [|[a b] l IH]; cbn; [done | by rewrite IH]. Qed.

Lemma loc_labels_Ok {V} (df df' : DataFrame V) (labels : list label) :
  NoDup labels →
  loc_labels df labels = Ok df' →
  columns df' = columns df
  ∧ zip (index df') (rows df')
    ≡ₚ filter (λ ir : label * gmap string V, ir.1 ∈ labels) (zip (index df) (rows df)).
Proof.
  intros Hnd. unfold loc_labels. destruct (list_find _ labels); [discriminate|].
  intros [= <-]. cbn [index columns rows]. split; [done|].
  rewrite zip_fst_snd. unfold rows_labelled. by apply bind_filter_labels.
Qed.

Section row_selection.
Context {re : ReEngine}.

Lemma index_matches_Ok (self : Assay) (pattern : string) (S : gset label) :
  index_matches self pattern = Ok S →
  ∀ l, l ∈ S ↔ l ∈ index (raw_metadata self)
               ∧ ∃ s, l = LStr s ∧ re_fullmatch true pattern s = true.
Proof.
  unfold index_matches. intros Hm. inv_bind Hm. injection Hm as <-.
  apply map_result_Ok in Ha. intros l.
  rewrite elem_of_list_to_set, list_elem_of_In, in_concat. split.
  - intros (hit & Hhit & Hl). apply list_elem_of_In, list_elem_of_lookup in Hhit as [i Hhit].
    destruct (Forall2_lookup_r _ _ _ _ _ Ha Hhit) as (l' & Hl' & Hf).
    destruct l' as [n|s|]; try done. injection Hf as <-.
    unfold fullmatch in Hl. destruct (re_fullmatch true pattern s) eqn:Hs; [|done].
    destruct Hl as [<-|[]]. split; [by apply list_elem_of_lookup_2 in Hl' | by exists s].
  - intros (Hl & s & -> & Hs). apply list_elem_of_lookup in Hl as [i Hl].
    destruct (Forall2_lookup_l _ _ _ _ _ Ha Hl) as (hit & Hhit & Hf).
    injection Hf as <-. unfold fullmatch in Hhit. rewrite Hs in Hhit.
    exists [LStr s]. split; [|by left].
    apply list_elem_of_In. by apply list_elem_of_lookup_2 in Hhit.
Qed.

(** X11. Row selection by a collection of index patterns, when it succeeds,
    keeps the columns of the metadata table and returns the rows whose label
    some pattern matches in full, each of them once. *)
Theorem locator_selects_matching_rows (self : Assay) (patterns : list string)
    (df : DataFrame string) :
  locator_getitem self (KPatterns patterns) = Ok df →
  columns df = columns (raw_metadata self)
  ∧ zip (index df) (rows df)
    ≡ₚ filter (λ ir : label * gmap string string, label_matches patterns ir.1 = true)
              (zip (index (raw_metadata self)) (rows (raw_metadata self))).
Proof.
  cbn [locator_getitem]. unfold locator_patterns. intros Hloc.
  inv_bind Hloc. rename a into sets. inv_bind Hloc. rename a into indices.
  apply map_result_Ok in Ha. apply set_union_star_Ok in Ha0 as [_ ->].
  apply loc_labels_Ok in Hloc as [Hcols Hperm]; [|apply NoDup_elements].
  split; [done|]. rewrite Hperm. clear Hperm Hcols.
  assert (Hfilter : ∀ Z : list (label * gmap string string),
            (∀ ir, ir ∈ Z → ir.1 ∈ index (raw_metadata self)) →
            filter (λ ir : label * gmap string string, ir.1 ∈ elements (⋃ sets)) Z
            = filter (λ ir : label * gmap string string, label_matches patterns ir.1 = true) Z).
  { intros Z HZ. induction Z as [|ir Z IH]; [done|].
    assert (Hiff : ir.1 ∈ elements (⋃ sets) ↔ label_matches patterns ir.1 = true).
    { rewrite elem_of_elements, elem_of_union_list. split.
      - intros (S & HS & Hl). apply list_elem_of_lookup in HS as [i HS].
        destruct (Forall2_lookup_r _ _ _ _ _ Ha HS) as (p & Hp & Hm).
        destruct (proj1 (index_matches_Ok _ _ _ Hm _) Hl) as (_ & s & Hs & Hfull).
        rewrite Hs. cbn. apply existsb_exists. exists p. split; [|done].
        apply list_elem_of_In. by apply list_elem_of_lookup_2 in Hp.
      - destruct (ir.1) as [n|s|] eqn:Hl; [done | | done]. cbn.
        intros Hex. apply existsb_exists in Hex as (p & Hp & Hfull).
        apply list_elem_of_In, list_elem_of_lookup in Hp as [i Hp].
        destruct (Forall2_lookup_l _ _ _ _ _ Ha Hp) as (S & HS & Hm).
        exists S. split; [by apply list_elem_of_lookup_2 in HS|].
        apply (index_matches_Ok _ _ _ Hm). split; [|by exists s].
        rewrite <- Hl. apply HZ. left. }
    rewrite !filter_cons. rewrite IH by (intros ir' Hir'; apply HZ; by right).
    apply decide_ext. done. }
  rewrite Hfilter; [done|].
  intros [l r] Hir. cbn. by apply elem_of_zip_l in Hir.
Qed.

Lemma index_matches_not_string (self : Assay) (pattern : string) :
  (∃ l, l ∈ index (raw_metadata self) ∧ ∀ s, l ≠ LStr s) →
  index_matches self pattern = Raise TypeError.
Proof.
  intros (l & Hl & Hnot). unfold index_matches.
  rewrite (map_result_Raise _ _ TypeError); [done | |].
  - exists l. split; [done|]. destruct l as [n|s|]; [done | by destruct (Hnot s) | done].
  - intros l' e _. destruct l'; congruence.
Qed.

(** X12. When a label of the index is not a string, a missing sample name for
    one, every row selection by a non-empty collection of index patterns
    raises a [TypeError], in the pattern form and in the pair form. *)
Theorem locator_missing_label_raises (self : Assay) (patterns : list string) :
  patterns ≠ [] →
  (∃ l, l ∈ index (raw_metadata self) ∧ ∀ s, l ≠ LStr s) →
  locator_getitem self (KPatterns patterns) = Raise TypeError
  ∧ ∀ title_patterns, locator_getitem self (KPair patterns title_patterns) = Raise TypeError.
Proof.
  intros Hne Hbad.
  assert (Hsets : map_result (index_matches self) patterns = Raise TypeError).
  { destruct patterns as [|p ps]; [done|]. cbn [map_result].
    by rewrite index_matches_not_string. }
  split; [|intros title_patterns]; cbn [locator_getitem]; unfold locator_patterns;
    by rewrite Hsets.
Qed.

(** X13. The pair form of row selection, with index patterns that match no label
    of an index of strings, raises a [TypeError]: the labels found are looked
    up again as a collection of patterns, and that collection is empty. *)
Theorem locator_pair_no_match_raises (self : Assay) (index_patterns title_patterns : list string) :
  (∀ p l, p ∈ index_patterns → l ∈ index (raw_metadata self) →
          ∃ s, l = LStr s ∧ re_fullmatch true p s = false) →
  locator_getitem self (KPair index_patterns title_patterns) = Raise TypeError.
Proof.
  intros Hnone. cbn [locator_getitem].
  destruct index_patterns as [|p ps]; [done|].
  rewrite (map_result_all_Ok _ (λ _, ∅)).
  - cbn [Py.bind fmap list_fmap set_union_star].
    change (list_fmap _ _ ?f ps) with (f <$> ps).
    rewrite union_list_all_empty, union_empty_l_L, elements_empty. reflexivity.
  - apply Forall_forall. intros p' Hp'. apply index_matches_none. eauto.
Qed.

End row_selection.

Lemma locator_selects_matching_rows_witness :
  let df := {| index := [LStr "GSM_1_a"]; columns := columns (raw_metadata Examples.assay);
               rows := take 1 (rows (raw_metadata Examples.assay)) |} in
  columns df = columns (raw_metadata Examples.assay)
  ∧ zip (index df) (rows df)
    ≡ₚ filter (λ ir : label * gmap string string,
                 label_matches (re := MiniRe.engine) ["gsm_1.*"; "none"] ir.1 = true)
              (zip (index (raw_metadata Examples.assay)) (rows (raw_metadata Examples.assay))).
Proof.
  apply (locator_selects_matching_rows (re := MiniRe.engine) Examples.assay ["gsm_1.*"; "none"]).
  vm_compute. reflexivity.
Defined.

Lemma locator_missing_label_raises_witness :
  locator_getitem (re := MiniRe.engine) Cases.unnamed (KPatterns [".*"]) = Raise TypeError
  ∧ ∀ title_patterns,
      locator_getitem (re := MiniRe.engine) Cases.unnamed (KPair [".*"] title_patterns)
      = Raise TypeError.
Proof.
  apply (locator_missing_label_raises (re := MiniRe.engine) Cases.unnamed [".*"]).
  - discriminate.
  - exists LNaN. split; [|done]. right. by left.
Defined.

Lemma locator_pair_no_match_raises_witness :
  locator_getitem (re := MiniRe.engine) Examples.assay (KPair ["GSM-9.*"] ["protocol ref"])
  = Raise TypeError.
Proof.
  apply (locator_pair_no_match_raises (re := MiniRe.engine) Examples.assay
           ["GSM-9.*"] ["protocol ref"]).
  intros p l Hp Hl.
  assert (Hindex : index (raw_metadata Examples.assay) = [LStr "GSM_1_a"; LStr "GSM_2_b"])
    by reflexivity.
  rewrite Hindex in Hl.
  list_cases Hp ltac:(list_cases Hl ltac:(eexists; split; [reflexivity | vm_compute; reflexivity])).
Defined.

(** The pair form finds the rows when the labels it finds, read as patterns,
    match themselves. *)
Example locator_pair_example :
  locator_getitem (re := MiniRe.engine) Examples.assay (KPair ["gsm_1.*"] ["protocol ref"])
  = Ok {| index := [LStr "GSM_1_a"]; columns := ["a101"];
          rows := [{[ "a101" := "GeneLab RNAseq data processing protocol" ]}] |}.
Proof. vm_compute. reflexivity. Qed.

(** ** More on downloads *)

Lemma get_with_fallback_http (url : option string) (fb : bool) (w : World) :
  http (get_with_fallback url fb w).2 = http w.
Proof.
  unfold get_with_fallback.
  destruct (get url w) as [r w'] eqn:Hget.
  assert (http w' = http w) as Hhttp by (by rewrite <- (proj2 (get_fs url w)), Hget).
  destruct r as [|[]]; try done.
  destruct fb; [|done]. by rewrite (proj2 (get_fs _ _)).
Qed.

Lemma string_length_app (s1 s2 : string) :
  String.length (s1 ++ s2) = String.length s1 + String.length s2.
Proof.
  induction s1 as [|c s1 IH]; [done|].
  change (S (String.length (s1 ++ s2)) = S (String.length s1 + String.length s2)).
  by rewrite IH.
Qed.

Lemma length_concat_blocks (blocks : list string) :
  String.length (String.concat "" blocks) = sum_list (String.length <$> blocks).
Proof.
  induction blocks as [|b [|b' bs] IH]; [done | cbn; lia |].
  change (String.concat "" (b :: b' :: bs)) with (b ++ "" ++ String.concat "" (b' :: bs)).
  rewrite !string_length_app, IH. done.
Qed.

Lemma storage_ready_fs (file_name : string) (url : option string) (dir : string)
    (update : bool) (w : World) :
  http (storage_ready file_name url dir update w) = http w
  ∧ fs (storage_ready file_name url dir update w)
    = (if isdir w dir then fs w else <[dir := Dir]> (fs w)).
Proof.
  unfold storage_ready.
  change (isdir (record_call _ w) dir) with (isdir w dir).
  by destruct (isdir w dir).
Qed.

Lemma storage_ready_calls (file_name : string) (url : option string) (dir : string)
    (update : bool) (w : World) :
  calls (storage_ready file_name url dir update w)
  = (calls w ++ [CallFetchFile file_name url dir update])%list.
Proof.
  unfold storage_ready.
  by destruct (isdir (record_call (CallFetchFile file_name url dir update) w) dir).
Qed.

(** X15. When [fetch_file] returns, it returns the path of the target file; that
    path then holds a file and the storage path a directory. Either the file
    was there and is reused as it is, with no request made, or the server
    answered with status 200 and the file holds the blocks of the answer, as
    many bytes as the answer declared. *)
Theorem fetch_file_returns (file_name : string) (url : option string) (target_directory : string)
    (update http_fallback : bool) (w w' : World) (path : string) :
  fetch_file file_name url target_directory update http_fallback w = (Ok path, w') →
  path = Str.join target_directory file_name
  ∧ fs w' !! target_directory = Some Dir
  ∧ ∃ content,
      fs w' !! path = Some (File content)
      ∧ ((update = false ∧ fs w !! path = Some (File content)
          ∧ calls w' = (calls w ++ [CallFetchFile file_name url target_directory update])%list)
         ∨ ∃ stream,
             (get_with_fallback url http_fallback w).1 = Ok stream
             ∧ status_code stream = 200
             ∧ content = String.concat "" (iter_content stream)
             ∧ default 0 (content_length stream) = String.length content).
Proof.
  unfold fetch_file.
  destruct (negb (isdir _ target_directory) && isfile _ target_directory) eqn:Hstorage;
    [discriminate|].
  fold (storage_ready file_name url target_directory update w).
  destruct (storage_ready_fs file_name url target_directory update w) as [Hhttp1 Hfs1].
  pose proof (storage_ready_calls file_name url target_directory update w) as Hcalls1.
  set (w1 := storage_ready file_name url target_directory update w) in *.
  set (target_file := Str.join target_directory file_name).
  assert (Hdir1 : fs w1 !! target_directory = Some Dir).
  { rewrite Hfs1. unfold isdir. destruct (fs w !! target_directory) as [[|c]|] eqn:Hd;
      [done | | by rewrite lookup_insert_eq].
    unfold isdir, isfile in Hstorage. cbn in Hstorage. by rewrite Hd in Hstorage. }
  destruct (negb update && isdir w1 target_file) eqn:Hisdir; [discriminate|].
  destruct (negb update && isfile w1 target_file) eqn:Hisfile.
  - intros [= <- <-]. apply andb_true_iff in Hisfile as [Hupd Hfile].
    apply negb_true_iff in Hupd. unfold isfile in Hfile.
    destruct (fs w1 !! target_file) as [[|content]|] eqn:Hnode; try done.
    assert (Hne : target_file ≠ target_directory).
    { intros Heq. rewrite Heq in Hnode. congruence. }
    split_and!; [done | exact Hdir1 |]. exists content. split; [done|]. left.
    split_and!; [done | | exact Hcalls1].
    rewrite Hfs1 in Hnode. destruct (isdir w target_directory); [done|].
    by rewrite lookup_insert_ne in Hnode.
  - pose proof (get_with_fallback_fs url http_fallback w1) as Hfs2.
    pose proof (get_with_fallback_result url http_fallback w1 w Hhttp1) as Hres.
    destruct (get_with_fallback url http_fallback w1) as [r w2]. cbn [fst snd] in Hfs2, Hres.
    destruct r as [stream|e]; [|discriminate].
    destruct (status_code stream =? 200)%nat eqn:Hstatus; [|discriminate]. cbn [negb].
    destruct (isdir w2 target_file) eqn:Hisdir2; [discriminate|].
    destruct (default 0 (content_length stream)
              =? sum_list (String.length <$> iter_content stream))%nat eqn:Hbytes;
      [|discriminate]. cbn [negb].
    intros [= <- <-]. cbn [set_fs fs].
    assert (Hne : target_file ≠ target_directory).
    { intros Heq. unfold isdir in Hisdir2. by rewrite Hfs2, Heq, Hdir1 in Hisdir2. }
    split_and!; [done | by rewrite lookup_insert_ne, Hfs2 |].
    eexists. split; [apply lookup_insert_eq|]. right. exists stream.
    split_and!; [done | by apply Nat.eqb_eq | done |].
    rewrite length_concat_blocks. by apply Nat.eqb_eq.
Qed.

(** X16. With the storage directory in place, [fetch_file] writes nothing
    unless the server answers with status 200: when the request raises, or
    is answered with another status, the file system after the call is the
    file system before it, whatever the call returns or raises; a file kept
    from an earlier download is still there. *)
Theorem fetch_file_writes_only_on_status_200 (file_name : string) (url : option string)
    (target_directory : string) (update http_fallback : bool) (w : World) :
  fs w !! target_directory = Some Dir →
  (∀ stream, (get_with_fallback url http_fallback w).1 = Ok stream →
             status_code stream ≠ 200) →
  fs (fetch_file file_name url target_directory update http_fallback w).2 = fs w.
Proof.
  intros Hstorage Hanswer. unfold fetch_file.
  set (w0 := record_call _ w).
  assert (isdir w0 target_directory = true) as ->.
  { unfold isdir. cbn [fs w0 record_call]. by rewrite Hstorage. }
  cbn [negb andb].
  destruct (negb update && isdir w0 _); [done|].
  destruct (negb update && isfile w0 _); [done|].
  assert (Hhttp : http w0 = http w) by done.
  pose proof (get_with_fallback_result url http_fallback w0 w Hhttp) as Hres.
  pose proof (get_with_fallback_fs url http_fallback w0) as Hfs2.
  destruct (get_with_fallback url http_fallback w0) as [[stream|e] w2];
    cbn [fst snd] in Hres, Hfs2; [|done].
  assert (Hstatus : status_code stream ≠ 200) by (by apply Hanswer).
  apply Nat.eqb_neq in Hstatus. by rewrite Hstatus.
Qed.



Lemma fetch_file_returns_witness :
  let w := Examples.world (Some 15) in
  let url := Some "https://host/GLDS-1_out.txt" in
  let w' := (fetch_file "GLDS-1_out.txt" url "/store/a1" false true w).2 in
  let path := "/store/a1/GLDS-1_out.txt" in
  path = Str.join "/store/a1" "GLDS-1_out.txt"
  ∧ fs w' !! "/store/a1" = Some Dir
  ∧ ∃ content,
      fs w' !! path = Some (File content)
      ∧ ((false = false ∧ fs w !! path = Some (File content)
          ∧ calls w' = (calls w ++ [CallFetchFile "GLDS-1_out.txt" url "/store/a1" false])%list)
         ∨ ∃ stream,
             (get_with_fallback url true w).1 = Ok stream
             ∧ status_code stream = 200
             ∧ content = String.concat "" (iter_content stream)
             ∧ default 0 (content_length stream) = String.length content).
Proof.
  apply (fetch_file_returns "GLDS-1_out.txt" (Some "https://host/GLDS-1_out.txt") "/store/a1"
           false true (Examples.world (Some 15))).
  reflexivity.
Defined.

Lemma fetch_file_writes_only_on_status_200_witness :
  let w := {| fs := {[ "/store/a1" := Dir; "/store/a1/GLDS-1_out.txt" := File "stale" ]};
              http := λ _, Ok {| status_code := 404; content_length := Some 9;
                                 iter_content := ["Not Found"] |};
              calls := [] |} in
  fs (fetch_file "GLDS-1_out.txt" (Some "https://host/GLDS-1_out.txt") "/store/a1" true true w).2
  = fs w.
Proof.
  apply (fetch_file_writes_only_on_status_200 "GLDS-1_out.txt"
           (Some "https://host/GLDS-1_out.txt") "/store/a1" true true
           {| fs := {[ "/store/a1" := Dir; "/store/a1/GLDS-1_out.txt" := File "stale" ]};
              http := λ _, Ok {| status_code := 404; content_length := Some 9;
                                 iter_content := ["Not Found"] |};
              calls := [] |}).
  - vm_compute. reflexivity.
  - intros stream [= <-]. discriminate.
Defined.


(** ** More on derived data *)

Lemma foldl_insert_lookup `{Countable K} {V} (l : list (K * V)) (k : K) (v : V) :
  foldl (λ m kv, <[kv.1 := kv.2]> m) (∅ : gmap K V) l !! k = Some v → (k, v) ∈ l.
Proof.
  rewrite foldl_insert_reverse. intros Hlook.
  apply elem_of_reverse. by apply (elem_of_list_to_map_2 (M := gmap K)).
Qed.

Section data_more.
Context {re : ReEngine}.
Variable DELIM_AS_IS : string.
Variable parse_csv : string → string → result Table.

(** Translation renames columns and does nothing else. *)
Lemma translate_keeps_shape (self : Assay) (data data' : Table) (data_columns : string) :
  _translate_data_sample_names self data data_columns = Ok data' →
  List.length (tbl_columns data') = List.length (tbl_columns data)
  ∧ tbl_columns_name data' = tbl_columns_name data
  ∧ tbl_index data' = tbl_index data
  ∧ tbl_cells data' = tbl_cells data.
Proof.
  unfold _translate_data_sample_names. intros Htr.
  inv_bind Htr. inv_bind Htr. inv_bind Htr.
  case_bool_decide; [|discriminate].
  inv_bind Htr. injection Htr as <-. split; [|done]. cbn [tbl_columns set_tbl_columns].
  apply map_result_Ok in Ha2. symmetry. by apply (Forall2_length _ _ _ Ha2).
Qed.

(** X18. When [_translate_data_sample_names] returns, every column label of the
    data was a string and has been replaced by a label of the metadata
    index; the number of columns, the name of the column axis, the row index
    and the cells are those of the data. *)
Theorem translated_columns_are_index_labels (self : Assay) (data data' : Table)
    (data_columns : string) :
  _translate_data_sample_names self data data_columns = Ok data' →
  Forall2 (λ c c', c' ∈ index (raw_metadata self) ∧ ∃ s, c = LStr s)
          (tbl_columns data) (tbl_columns data')
  ∧ tbl_columns_name data' = tbl_columns_name data
  ∧ tbl_index data' = tbl_index data
  ∧ tbl_cells data' = tbl_cells data.
Proof.
  unfold _translate_data_sample_names. intros Htr.
  inv_bind Htr. rename a into field_from. inv_bind Htr. rename a into column_from.
  inv_bind Htr. rename a into column_to.
  assert (Hto : column_to = index (raw_metadata self)).
  { destruct (_field_indexed_by self); [by injection Ha1 as <- | done]. }
  subst column_to. clear Ha1.
  case_bool_decide as Hsizes; [|discriminate].
  inv_bind Htr. rename a into translated_columns. injection Htr as <-.
  split; [|done]. cbn [tbl_columns set_tbl_columns].
  apply map_result_Ok in Ha1. eapply Forall2_impl; [exact Ha1|].
  intros c c' Hc. cbn beta in Hc. destruct c as [n|s|]; try done. cbn [label_pattern Py.bind] in Hc.
  split; [|by exists s].
  destruct (map_result _ _) as [hits|]; [|done]. cbn [Py.bind] in Hc.
  case_bool_decide; [|done].
  destruct (set_first _ ≫= _) as [v|] eqn:Hv; [|done]. injection Hc as <-.
  destruct (set_first _) as [k|]; [|done]. cbn in Hv.
  apply foldl_insert_lookup in Hv. by apply elem_of_zip_r in Hv.
Qed.

(** X19. An index with a repeated label cannot be translated to: when the
    metadata table has one label per row and two rows carry the same label,
    [_translate_data_sample_names] raises an [IndexError], whatever the data,
    once the title of the data columns has resolved to a column of the table
    or to the index. *)
Theorem translation_to_ambiguous_index_raises (self : Assay) (data : Table)
    (data_columns : string) (f g : string) :
  _get_unique_field_from_title self data_columns = Ok (Some f) →
  _field_indexed_by self = Some g →
  f = g ∨ f ∈ columns (raw_metadata self) →
  List.length (index (raw_metadata self)) = List.length (rows (raw_metadata self)) →
  ¬ NoDup (index (raw_metadata self)) →
  _translate_data_sample_names self data data_columns
  = Raise (IndexError ("Cannot reindex '" ++ fmt (_indexed_by self)
                         ++ "' to ambiguous '" ++ data_columns ++ "'")).
Proof.
  intros Hfrom Hto Hf Hlen Hdup. unfold _translate_data_sample_names.
  rewrite Hfrom, Hto. cbn [Py.bind].
  assert (Hcol : ∃ column_from,
            (if bool_decide (Some f = Some g) then Ok (index (raw_metadata self))
             else cells <- getcol (raw_metadata self) f;; Ok (cell_label <$> cells))
            = Ok column_from
            ∧ List.length column_from = List.length (index (raw_metadata self))).
  { case_bool_decide as Hfg; [by eexists|].
    destruct Hf as [->|Hf]; [done|]. unfold getcol. rewrite decide_True by done.
    cbn [Py.bind]. eexists. split; [done|]. by rewrite !length_fmap. }
  destruct Hcol as (column_from & -> & Hlen'). cbn [Py.bind].
  rewrite bool_decide_eq_false_2; [done|].
  intros [H1 H2]. apply Hdup. apply size_list_to_set_NoDup. congruence.
Qed.

Lemma read_csv_Ok (path sep : string) (w w' : World) (data : Table) :
  read_csv parse_csv path sep w = (Ok data, w') →
  ∃ content, fs w !! path = Some (File content) ∧ parse_csv content sep = Ok data
             ∧ w' = record_call (CallReadCsv path) w.
Proof.
  unfold read_csv. cbn [fs record_call].
  destruct (fs w !! path) as [[|content]|]; try discriminate.
  intros [= Hparse <-]. by exists content.
Qed.

(** X20. The table the last stage of [_read_data_from] returns is the parse of
    the file that sits under the file name in the storage of the assay after
    the call: same row index, same cells, as many columns. The column axis is
    named after the index title. With a name delimiter every column label is
    a string rewritten with it; without one, and without translation, the
    column labels are those of the file. *)
Theorem fetched_table_is_parsed_file (self : Assay) (filename : string)
    (force translate : bool) (data_columns sep : string) (w w' : World) (r : option Table) :
  fetch_and_parse DELIM_AS_IS parse_csv self filename force translate data_columns sep w
  = (Ok r, w') →
  ∃ t content data,
    r = Some t
    ∧ fs w' !! Str.join (storage self) filename = Some (File content)
    ∧ parse_csv content sep = Ok data
    ∧ tbl_index t = tbl_index data ∧ tbl_cells t = tbl_cells data
    ∧ tbl_columns_name t = _indexed_by self
    ∧ List.length (tbl_columns t) = List.length (tbl_columns data)
    ∧ (_name_delim self ≠ DELIM_AS_IS →
       ∀ c, c ∈ tbl_columns t → ∃ s, c = LStr (Str.sub_delim (_name_delim self) s))
    ∧ (translate = false → _name_delim self = DELIM_AS_IS →
       tbl_columns t = tbl_columns data).
Proof.
  unfold fetch_and_parse.
  destruct (_get_file_url self filename) as [url|]; [|discriminate].
  destruct (fetch_file _ _ _ _ _ _) as [[path|] w1]; [|discriminate].
  destruct (read_csv _ _ _ _) as [[data|] w2] eqn:Hread; [|discriminate].
  apply read_csv_Ok in Hread as (content & Hfile & Hparse & ->).
  intros [= Hr <-]. inv_bind Hr. rename a into data1. inv_bind Hr. rename a into data2.
  injection Hr as <-. exists data2, content, data. split; [done|]. split; [done|]. split; [done|].
  assert (H1 : tbl_index data1 = tbl_index data ∧ tbl_cells data1 = tbl_cells data
               ∧ tbl_columns_name data1 = _indexed_by self
               ∧ List.length (tbl_columns data1) = List.length (tbl_columns data)
               ∧ (translate = false → tbl_columns data1 = tbl_columns data)).
  { destruct translate.
    - apply translate_keeps_shape in Ha as (Hcols & Hname & Hidx & Hcells).
      cbn in Hcols, Hname, Hidx, Hcells. by rewrite Hname, Hidx, Hcells.
    - injection Ha as <-. done. }
  destruct H1 as (Hidx & Hcells & Hname & Hlen & Hsame).
  case_bool_decide as Hdelim.
  - inv_bind Ha0. rename a into cols. injection Ha0 as <-. cbn.
    apply map_result_Ok in Ha1.
    split_and!; try done.
    + by rewrite <- (Forall2_length _ _ _ Ha1).
    + intros _ c Hc. apply list_elem_of_lookup in Hc as [i Hc].
      destruct (Forall2_lookup_r _ _ _ _ _ Ha1 Hc) as (c0 & _ & Hsub).
      destruct c0 as [n|s|]; try done. injection Hsub as <-. by exists s.
  - injection Ha0 as <-. split_and!; try done.
    intros Htr _. auto.
Qed.

(** X21. A data file already in the storage of the assay is parsed without any
    request to the server, whether its URL resolves or not: the call only
    records the fetch and the read, the file system is left as it is, a
    failure of the parser is the failure of the call, and without
    translation and name delimiter the parsed table is returned with its
    column axis named after the index title. *)
Theorem cached_file_parsed_without_request (self : Assay) (filename : string)
    (translate : bool) (data_columns sep : string) (w : World) (url : option string)
    (content : string) :
  _get_file_url self filename = Ok url →
  fs w !! storage self = Some Dir →
  fs w !! Str.join (storage self) filename = Some (File content) →
  let run := fetch_and_parse DELIM_AS_IS parse_csv self filename false translate
               data_columns sep w in
  fs run.2 = fs w
  ∧ calls run.2 = (calls w ++ [CallFetchFile filename url (storage self) false;
                               CallReadCsv (Str.join (storage self) filename)])%list
  ∧ (∀ e, parse_csv content sep = Raise e → run.1 = Raise e)
  ∧ (∀ data, parse_csv content sep = Ok data → translate = false →
             _name_delim self = DELIM_AS_IS →
             run.1 = Ok (Some (set_tbl_columns_name data (_indexed_by self)))).
Proof.
  intros Hurl Hdir Hfile. cbn zeta. unfold fetch_and_parse. rewrite Hurl.
  assert (Hfetch : fetch_file filename url (storage self) false true w
                   = (Ok (Str.join (storage self) filename),
                      record_call (CallFetchFile filename url (storage self) false) w)).
  { unfold fetch_file.
    assert (isdir (record_call (CallFetchFile filename url (storage self) false) w)
                  (storage self) = true) as ->.
    { unfold isdir. cbn [fs record_call]. by rewrite Hdir. }
    cbn [negb andb]. unfold isdir, isfile. cbn [fs record_call]. by rewrite Hfile. }
  rewrite Hfetch. unfold read_csv. cbn [fs record_call]. rewrite Hfile.
  destruct (parse_csv content sep) as [data|e] eqn:Hparse.
  - cbn [fst snd fs calls record_call]. rewrite <- app_assoc. split_and!; try done.
    intros data' [= <-] -> Hdelim. cbn [Py.bind].
    rewrite bool_decide_eq_false_2 by (by intros ?). done.
  - cbn [fst snd fs calls record_call]. rewrite <- app_assoc. split_and!; try done.
    by intros e' [= <-].
Qed.


End data_more.

Lemma translated_columns_are_index_labels_witness :
  let data' := {| tbl_columns := [LStr "GSM_2_b"; LStr "GSM_1_a"]; tbl_columns_name := None;
                  tbl_index := ["gene1"]; tbl_cells := [["1"; "2"]] |} in
  Forall2 (λ c c', c' ∈ index (raw_metadata Examples.assay) ∧ ∃ s, c = LStr s)
          (tbl_columns Cases.raw_table) (tbl_columns data')
  ∧ tbl_columns_name data' = tbl_columns_name Cases.raw_table
  ∧ tbl_index data' = tbl_index Cases.raw_table
  ∧ tbl_cells data' = tbl_cells Cases.raw_table.
Proof.
  apply (translated_columns_are_index_labels (re := MiniRe.engine) Examples.assay
           Cases.raw_table _ "sample name").
  vm_compute. reflexivity.
Defined.

Lemma translation_to_ambiguous_index_raises_witness :
  _translate_data_sample_names (re := MiniRe.engine) Cases.twins Cases.raw_table "sample name"
  = Raise (IndexError "Cannot reindex 'Sample Name' to ambiguous 'sample name'").
Proof.
  apply (translation_to_ambiguous_index_raises (re := MiniRe.engine) Cases.twins Cases.raw_table
           "sample name" "a100" "a100").
  - vm_compute. reflexivity.
  - reflexivity.
  - by left.
  - reflexivity.
  - intros Hnd. apply NoDup_cons in Hnd as [Hnin _]. apply Hnin. by left.
Defined.

Lemma fetched_table_is_parsed_file_witness :
  let run := fetch_and_parse (re := MiniRe.engine) Examples.delim_as_is Examples.parse_csv
               Examples.assay "GLDS-1_out.txt" false false "sample name" ","
               (Examples.world (Some 15)) in
  ∃ t content data,
    Some Examples.table = Some t
    ∧ fs run.2 !! Str.join (storage Examples.assay) "GLDS-1_out.txt" = Some (File content)
    ∧ Examples.parse_csv content "," = Ok data
    ∧ tbl_index t = tbl_index data ∧ tbl_cells t = tbl_cells data
    ∧ tbl_columns_name t = _indexed_by Examples.assay
    ∧ List.length (tbl_columns t) = List.length (tbl_columns data)
    ∧ (_name_delim Examples.assay ≠ Examples.delim_as_is →
       ∀ c, c ∈ tbl_columns t → ∃ s, c = LStr (Str.sub_delim (_name_delim Examples.assay) s))
    ∧ (false = false → _name_delim Examples.assay = Examples.delim_as_is →
       tbl_columns t = tbl_columns data).
Proof.
  cbn zeta.
  apply (fetched_table_is_parsed_file (re := MiniRe.engine) Examples.delim_as_is
           Examples.parse_csv Examples.assay "GLDS-1_out.txt" false false "sample name" ","
           (Examples.world (Some 15))).
  match goal with
  | |- ?run = _ =>
      assert (run.1 = Ok (Some Examples.table)) as <- by (vm_compute; reflexivity);
      by destruct run
  end.
Defined.

Lemma cached_file_parsed_without_request_witness :
  let run := fetch_and_parse (re := MiniRe.engine) Examples.delim_as_is Examples.parse_csv
               Cases.unnamed "GLDS-1_out.txt" false false "sample name" "," Cases.cached_world in
  fs run.2 = fs Cases.cached_world
  ∧ calls run.2
    = (calls Cases.cached_world
       ++ [CallFetchFile "GLDS-1_out.txt" (Some "https://host/GLDS-1_out.txt")
             (storage Cases.unnamed) false;
           CallReadCsv (Str.join (storage Cases.unnamed) "GLDS-1_out.txt")])%list
  ∧ (∀ e, Examples.parse_csv "GSM-1.a,GSM-2.b" "," = Raise e → run.1 = Raise e)
  ∧ (∀ data, Examples.parse_csv "GSM-1.a,GSM-2.b" "," = Ok data → false = false →
             _name_delim Cases.unnamed = Examples.delim_as_is →
             run.1 = Ok (Some (set_tbl_columns_name data (_indexed_by Cases.unnamed)))).
Proof.
  apply (cached_file_parsed_without_request (re := MiniRe.engine) Examples.delim_as_is
           Examples.parse_csv Cases.unnamed "GLDS-1_out.txt" false "sample name" ","
           Cases.cached_world (Some "https://host/GLDS-1_out.txt") "GSM-1.a,GSM-2.b").
  - vm_compute. reflexivity.
  - vm_compute. reflexivity.
  - vm_compute. reflexivity.
Defined.


(** ** The summary of a collection *)

Lemma elem_of_concat {A} (ls : list (list A)) (x : A) :
  x ∈ List.concat ls ↔ ∃ l, l ∈ ls ∧ x ∈ l.
Proof.
  rewrite list_elem_of_In, in_concat. split; intros (l & Hl & Hx); exists l.
  - by rewrite !list_elem_of_In.
  - by rewrite <- !list_elem_of_In.
Qed.

Lemma summary_row_cells (n f : value) (rest : list value) (cols : list string) :
  let r : gmap string value :=
    list_to_map (zip ("name" :: "factors" :: cols) (n :: f :: rest)) in
  r !! "name" = Some n ∧ r !! "factors" = Some f.
Proof.
  cbn [zip zip_with list_to_map foldr uncurry fst snd]. split.
  - apply lookup_insert_eq.
  - rewrite lookup_insert_ne by done. apply lookup_insert_eq.
Qed.

Section summary.
Context {re : ReEngine}.
Variable annotation_columns : Assay → result (list string).

(** The rows one assay contributes: a row per factor, headed by the name of
    the assay and the factor, the other cells the same in all of them. *)
Lemma summary_rows_Ok (assay_name : string) (assay : Assay) (rws : list (list value)) :
  summary_rows annotation_columns assay_name assay = Ok rws →
  ∃ cols rest, annotation_columns assay = Ok cols
    ∧ ∀ row, row ∈ rws
        ↔ ∃ col, col ∈ cols ∧ re_search true "^factor value" col = true
                 ∧ row = VStr assay_name :: VStr (Str.sub_factor_value col) :: rest.
Proof.
  unfold summary_rows, factors_columns. intros Hrows.
  inv_bind Hrows. inv_bind Hrows. inv_bind Hrows. inv_bind Ha1. injection Ha1 as <-.
  injection Hrows as <-. rename a2 into cols. exists cols. eexists. split; [done|].
  intros row. rewrite list_elem_of_fmap. split.
  - intros (factor & -> & Hfactor).
    apply elem_of_elements, elem_of_list_to_set, list_elem_of_fmap in Hfactor
      as (col & -> & Hcol).
    apply list_elem_of_filter in Hcol as [Hm Hcol]. apply Is_true_true in Hm.
    exists col. split_and!; [done | done | reflexivity].
  - intros (col & Hcol & Hm & ->).
    exists (Str.sub_factor_value col). split; [reflexivity|].
    apply elem_of_elements, elem_of_list_to_set, list_elem_of_fmap. exists col.
    split; [done|]. apply list_elem_of_filter. split; [by apply Is_true_true | done].
Qed.

(** X23. The summary frame of a collection is indexed by row numbers, and its
    rows pair the names of the collection with the factors of their assays:
    a name and a factor head a row exactly when the name holds an assay and
    the factor is the title of a factor column of that assay's annotation,
    with its prefix taken off. *)
Theorem summary_pairs_names_and_factors (self : AssayDispatcher) (h : Store)
    (rd : DataFrame value) :
  _summary_dataframe annotation_columns self h = Ok rd →
  index rd = LInt <$> seq 0 (len rd)
  ∧ ∀ n f,
      (∃ r, r ∈ rows rd ∧ r !! "name" = Some (VStr n) ∧ r !! "factors" = Some (VStr f))
      ↔ ∃ ref assay cols col,
          self !! n = Some ref ∧ h !! ref = Some assay
          ∧ annotation_columns assay = Ok cols ∧ col ∈ cols
          ∧ re_search true "^factor value" col = true
          ∧ f = Str.sub_factor_value col.
Proof.
  unfold _summary_dataframe. intros Hrd. inv_bind Hrd. rename a into repr_rows.
  injection Hrd as <-. unfold from_rows, len. cbn [index rows].
  split; [by rewrite length_fmap|].
  apply map_result_Ok in Ha. intros n f. split.
  - intros (r & Hr & Hname & Hfactor).
    apply list_elem_of_fmap in Hr as (row & -> & Hrow).
    apply elem_of_concat in Hrow as (rws & Hrws & Hrow).
    apply list_elem_of_lookup in Hrws as [i Hrws].
    destruct (Forall2_lookup_r _ _ _ _ _ Ha Hrws) as ([n' ref] & Hitem & Hsum).
    apply list_elem_of_lookup_2, elem_of_map_to_list in Hitem.
    cbn [fst snd] in Hsum. unfold deref in Hsum.
    destruct (h !! ref) as [assay|] eqn:Href; [|done]. cbn [Py.bind] in Hsum.
    apply summary_rows_Ok in Hsum as (cols & rest & Hcols & Hiff).
    apply Hiff in Hrow as (col & Hcol & Hm & ->).
    destruct (summary_row_cells (VStr n') (VStr (Str.sub_factor_value col)) rest
                (ASSAY_CHARACTERISTICS ++ ASSAY_PROTOCOL_LIST)%list) as [Hn Hf].
    unfold summary_columns in Hname, Hfactor. cbn [app] in Hname, Hfactor.
    rewrite Hn in Hname. rewrite Hf in Hfactor.
    injection Hname as <-. injection Hfactor as <-.
    by exists ref, assay, cols, col.
  - intros (ref & assay & cols & col & Hself & Href & Hcols & Hcol & Hm & ->).
    apply elem_of_map_to_list, list_elem_of_lookup in Hself as [i Hitem].
    destruct (Forall2_lookup_l _ _ _ _ _ Ha Hitem) as (rws & Hrws & Hsum).
    cbn [fst snd] in Hsum. unfold deref in Hsum. rewrite Href in Hsum. cbn [Py.bind] in Hsum.
    apply summary_rows_Ok in Hsum as (cols' & rest & Hcols' & Hiff).
    assert (cols' = cols) as -> by congruence.
    eexists. split.
    + apply list_elem_of_fmap. eexists. split; [reflexivity|].
      apply elem_of_concat. exists rws. split; [by apply list_elem_of_lookup_2 in Hrws|].
      apply Hiff. by exists col.
    + apply (summary_row_cells (VStr n) (VStr (Str.sub_factor_value col)) rest
               (ASSAY_CHARACTERISTICS ++ ASSAY_PROTOCOL_LIST)%list).
Qed.

End summary.

Lemma summary_pairs_names_and_factors_witness :
  let rd := Cases.summary in
  index rd = LInt <$> seq 0 (len rd)
  ∧ ∀ n f,
      (∃ r, r ∈ rows rd ∧ r !! "name" = Some (VStr n) ∧ r !! "factors" = Some (VStr f))
      ↔ ∃ ref assay cols col,
          Examples.collection !! n = Some ref ∧ Examples.store !! ref = Some assay
          ∧ Examples.annotation_columns assay = Ok cols ∧ col ∈ cols
          ∧ re_search (ReEngine := MiniRe.engine) true "^factor value" col = true
          ∧ f = Str.sub_factor_value col.
Proof.
  apply (summary_pairs_names_and_factors (re := MiniRe.engine) Examples.annotation_columns
           Examples.collection Examples.store).
  vm_compute. reflexivity.
Defined.

(** ** Construction of a collection *)

Section collection_init.
Context {re : ReEngine}.
Variable DELIM_AS_IS : string.

Lemma dispatcher_loop_Built (items : list (string * assay_json)) (urls : gmap string string)
    (prefix index_by name_delim : string) (self d : gmap string positive)
    (h h' : gmap positive Assay) :
  dispatcher_loop DELIM_AS_IS items urls prefix index_by name_delim self h = (Built d, h') →
  (∀ n r, self !! n = Some r → is_Some (h !! r)) →
  h ⊆ h'
  ∧ (∀ n, n ∈ dom d ↔ n ∈ dom self ∨ n ∈ items.*1)
  ∧ (∀ n r, d !! n = Some r →
       ((n ∉ items.*1) ∧ self !! n = Some r)
       ∨ (h !! r = None
          ∧ ∃ j a, (n, j) ∈ items
                   ∧ Assay_of_json DELIM_AS_IS n j urls prefix index_by name_delim = Ok a
                   ∧ h' !! r = Some a)).
Proof.
  revert self h. induction items as [|[n0 j0] items IH]; intros self h Hloop Hself.
  - injection Hloop as <- <-. split_and!; [done | |].
    + intros n. rewrite fmap_nil, elem_of_nil. tauto.
    + intros n r Hd. left. split; [apply not_elem_of_nil | done].
  - cbn [dispatcher_loop] in Hloop.
    destruct (Assay_of_json DELIM_AS_IS n0 j0 urls prefix index_by name_delim)
      as [a0|e] eqn:Hnew; [|by destruct e].
    set (r0 := fresh (dom h)) in *.
    assert (Hfresh : h !! r0 = None) by apply not_elem_of_dom, is_fresh.
    apply IH in Hloop as (Hsub & Hdom & Hobj).
    2:{ intros n r Hn. destruct (decide (n = n0)) as [->|Hne].
        - rewrite lookup_insert_eq in Hn. injection Hn as <-. by rewrite lookup_insert_eq.
        - rewrite lookup_insert_ne in Hn by done. destruct (Hself n r Hn) as [a Ha].
          exists a. rewrite lookup_insert_ne; [done|]. intros <-. congruence. }
    split_and!.
    + etrans; [|exact Hsub]. by apply insert_subseteq.
    + intros n. rewrite Hdom, dom_insert, fmap_cons, elem_of_cons, elem_of_union,
        elem_of_singleton. cbn [fst]. tauto.
    + intros n r Hd. destruct (Hobj n r Hd) as [[Hnin Hn]|(Hr & j & a & Hin & Hnew' & Hlook)].
      * destruct (decide (n = n0)) as [->|Hne].
        -- rewrite lookup_insert_eq in Hn. injection Hn as <-. right. split; [done|].
           exists j0, a0. split_and!; [by left | done |].
           apply (lookup_weaken _ _ _ _ (lookup_insert_eq h r0 a0) Hsub).
        -- rewrite lookup_insert_ne in Hn by done. left. split; [|done].
           rewrite fmap_cons, not_elem_of_cons. done.
      * right. split.
        -- destruct (decide (r = r0)) as [->|Hne]; [done|].
           by rewrite lookup_insert_ne in Hr.
        -- exists j, a. split_and!; [by right | done | done].
Qed.

(** X24. A collection that has been constructed holds the names of the [json]
    and nothing else; each name holds an object that was not in the store
    before, and that object is the assay built from the item of that name.
    The objects that were in the store are as they were. *)
Theorem dispatcher_holds_the_assays (json : list (string * assay_json))
    (urls : gmap string string) (prefix index_by name_delim : string)
    (d : gmap string positive) (h h' : gmap positive Assay) :
  AssayDispatcher__init__ DELIM_AS_IS json urls prefix index_by name_delim h = (Built d, h') →
  h ⊆ h'
  ∧ (∀ n, n ∈ dom d ↔ n ∈ json.*1)
  ∧ (∀ n r, d !! n = Some r →
       h !! r = None
       ∧ ∃ j a, (n, j) ∈ json
                ∧ Assay_of_json DELIM_AS_IS n j urls prefix index_by name_delim = Ok a
                ∧ h' !! r = Some a).
Proof.
  unfold AssayDispatcher__init__. intros Hinit.
  apply dispatcher_loop_Built in Hinit as (Hsub & Hdom & Hobj); [|by intros n r ?].
  split_and!; [done | |].
  - intros n. rewrite Hdom, dom_empty, elem_of_empty. tauto.
  - intros n r Hd. by destruct (Hobj n r Hd) as [[_ ?]|?].
Qed.

Lemma dispatcher_loop_Failed (items : list (string * assay_json)) (urls : gmap string string)
    (prefix index_by name_delim : string) (self : gmap string positive)
    (h h' : gmap positive Assay) (e : dispatcher_exn) :
  dispatcher_loop DELIM_AS_IS items urls prefix index_by name_delim self h = (Failed e, h') →
  ∃ n j e0, (n, j) ∈ items
    ∧ Assay_of_json DELIM_AS_IS n j urls prefix index_by name_delim = Raise e0
    ∧ e = (match e0 with KeyError _ => AttributeError "accession" | _ => Escaped e0 end).
Proof.
  revert self h. induction items as [|[n0 j0] items IH]; intros self h Hloop; [done|].
  cbn [dispatcher_loop] in Hloop.
  destruct (Assay_of_json DELIM_AS_IS n0 j0 urls prefix index_by name_delim)
    as [a0|e0] eqn:Hnew.
  - apply IH in Hloop as (n & j & e1 & Hin & Hraise & He). exists n, j, e1.
    split_and!; [by right | done | done].
  - exists n0, j0, e0. split_and!; [by left | done |].
    destruct e0; by injection Hloop as <- _.
Qed.

(** X25. The construction of a collection never lets a [KeyError] through, and
    never raises the [GeneLabJSONException] of its handler: the only
    [GeneLabJSONException] is the one for conflicting field ids, and an item
    without [raw], at the head of the [json], fails the construction with
    an [AttributeError]. *)
Theorem dispatcher_handler_raises_attribute_error (json : list (string * assay_json))
    (urls : gmap string string) (prefix index_by name_delim : string)
    (h : gmap positive Assay) :
  let run := AssayDispatcher__init__ DELIM_AS_IS json urls prefix index_by name_delim h in
  (∀ key, run.1 ≠ Failed (Escaped (KeyError key)))
  ∧ (∀ msg, run.1 = Failed (Escaped (GeneLabJSONException msg)) →
            msg = "Conflicting IDs of data fields")
  ∧ (∀ n j rest, json = (n, j) :: rest → json_raw j = None →
                 run = (Failed (AttributeError "accession"), h)).
Proof.
  cbn zeta. unfold AssayDispatcher__init__. split_and!.
  - intros key Hrun.
    destruct (dispatcher_loop _ _ _ _ _ _ _ _) as [res h'] eqn:Hloop. cbn [fst] in Hrun.
    subst res. apply dispatcher_loop_Failed in Hloop as (n & j & e0 & _ & _ & He).
    by destruct e0.
  - intros msg Hrun.
    destruct (dispatcher_loop _ _ _ _ _ _ _ _) as [res h'] eqn:Hloop. cbn [fst] in Hrun.
    subst res. apply dispatcher_loop_Failed in Hloop as (n & j & e0 & _ & Hraise & He).
    destruct e0; try done. injection He as ->.
    unfold Assay_of_json in Hraise.
    destruct (json_raw j) as [raw|]; [|done]. destruct (json_header j) as [header|]; [|done].
    destruct (decide (NoDup header.*1)) as [Hnd|Hdup].
    + by apply init_distinct_ids in Hraise.
    + rewrite init_repeated_ids in Hraise by done. by injection Hraise as <-.
  - intros n j rest -> Hraw. cbn [dispatcher_loop]. unfold Assay_of_json. by rewrite Hraw.
Qed.

End collection_init.

(** ** CLS output *)

Lemma elem_of_unique {A} `{EqDecision A} (l : list A) (x : A) : x ∈ unique l ↔ x ∈ l.
Proof.
  induction l as [|y l IH]; [done|]. cbn [unique].
  rewrite !elem_of_cons, list_elem_of_filter, IH.
  destruct (decide (x = y)); tauto.
Qed.

Lemma NoDup_unique {A} `{EqDecision A} (l : list A) : NoDup (unique l).
Proof.
  induction l as [|y l IH]; [constructor|]. cbn [unique]. constructor.
  - rewrite list_elem_of_filter. by intros [Hne _].
  - by apply NoDup_filter.
Qed.

Lemma unique_fmap_Some {A} `{EqDecision A} (l : list A) :
  unique (Some <$> l) = Some <$> unique l.
Proof.
  induction l as [|y l IH]; [done|]. cbn [unique fmap list_fmap]. f_equal.
  change (list_fmap _ _ Some l) with (Some <$> l). rewrite IH. clear IH.
  induction (unique l) as [|z u IHu]; [done|].
  rewrite fmap_cons, !filter_cons, IHu.
  destruct (decide (z ≠ y)) as [Hzy|Hzy], (decide (Some z ≠ Some y)) as [Hs|Hs]; try done.
  - destruct Hs. intros [= ->]. done.
  - destruct Hzy. intros ->. done.
Qed.

Lemma list_find_eq_elem {A} `{EqDecision A} (l : list A) (v : A) :
  v ∈ l → ∃ i, list_find (λ c, c = v) l = Some (i, v) ∧ l !! i = Some v.
Proof.
  intros Hv. destruct (list_find (λ c, c = v) l) as [[i c]|] eqn:Hfind.
  - apply list_find_Some in Hfind as (Hi & -> & _). by exists i.
  - apply list_find_None in Hfind.
    by apply (proj1 (Forall_forall _ _) Hfind) in Hv.
Qed.

Lemma filter_keeps_order {A} (P : A → Prop) `{!∀ x, Decision (P x)} (l : list A)
    (i j : nat) (c d : A) :
  filter P l !! i = Some c → filter P l !! j = Some d → (i < j)%nat →
  ∃ i' j', l !! i' = Some c ∧ l !! j' = Some d ∧ (i' < j')%nat.
Proof.
  revert i j. induction l as [|x l IH]; intros i j Hi Hj Hlt; [done|].
  rewrite filter_cons in Hi, Hj. destruct (decide (P x)) as [HP|HP].
  - destruct i as [|i]; destruct j as [|j]; try lia.
    + cbn in Hi. injection Hi as ->.
      cbn in Hj. apply list_elem_of_lookup_2, list_elem_of_filter in Hj as [_ Hj].
      apply list_elem_of_lookup in Hj as [j' Hj]. exists 0, (S j'). split_and!; [done | done | lia].
    + cbn in Hi, Hj. destruct (IH i j Hi Hj) as (i' & j' & Hi' & Hj' & Hlt'); [lia|].
      exists (S i'), (S j'). split_and!; [done | done | lia].
  - destruct (IH i j Hi Hj Hlt) as (i' & j' & Hi' & Hj' & Hlt').
    exists (S i'), (S j'). split_and!; [done | done | lia].
Qed.

(** [unique] lists the values in the order of their first appearance: of two
    values it lists, the earlier one appears in the list before any
    appearance of the later one. *)
Lemma unique_order {A} `{EqDecision A} (l : list A) (i j : nat) (c d : A) :
  unique l !! i = Some c → unique l !! j = Some d → (i < j)%nat →
  ∃ k, l !! k = Some c ∧ ∀ k', (k' ≤ k)%nat → l !! k' ≠ Some d.
Proof.
  revert i j. induction l as [|x l IH]; intros i j Hi Hj Hlt; [done|].
  cbn [unique] in Hi, Hj. destruct j as [|j]; [lia|]. cbn in Hj.
  assert (Hd : d ≠ x).
  { by apply list_elem_of_lookup_2, list_elem_of_filter in Hj as [Hd _]. }
  destruct i as [|i].
  - cbn in Hi. injection Hi as ->. exists 0. split; [done|].
    intros k' Hk'. assert (k' = 0) as -> by lia. cbn. by intros [= ->].
  - cbn in Hi. destruct (filter_keeps_order _ _ _ _ _ _ Hi Hj) as (i' & j' & Hi' & Hj' & Hlt');
      [lia|].
    destruct (IH i' j' Hi' Hj' Hlt') as (k & Hk & Hbefore).
    exists (S k). split; [done|].
    intros [|k'] Hk'; cbn; [by intros [= ->] | apply Hbefore; lia].
Qed.

Section cls_output.
Variable float : Type.
Variable float_of_cell : option string → option float.
Variable str_float : float → string.

(** X26. In discrete mode, on a column of strings that is not empty, [to_cls]
    returns three lines: the number of samples, of classes, and [1]; the
    classes without their whitespace, each once, the first after a hash
    sign; and one class number per sample. The classes are the values of the
    column in the order they first appear: the first class is the value of
    the first sample, and of two classes the one listed first appears in the
    column before any appearance of the other. The class numbers decode: the
    class at the number of a sample is the value of that sample. *)
Theorem to_cls_discrete_decodes (dataframe : DataFrame string) (target : string)
    (continuous : py_continuous) (values : list string) :
  getcol dataframe target = Ok (Some <$> values) →
  values ≠ [] →
  continuous = CBool false ∨ continuous = CStr "0" →
  ∃ c0 classes ids,
    to_cls float float_of_cell str_float dataframe target continuous
    = Ok (String.concat newline
            [String.concat tab [pretty (len dataframe);
                                pretty (List.length (c0 :: classes)); "1"];
             String.concat tab (("# " ++ space_sub c0) :: (space_sub <$> classes));
             String.concat tab (pretty <$> ids)])
    ∧ NoDup (c0 :: classes)
    ∧ (∀ v, v ∈ c0 :: classes ↔ v ∈ values)
    ∧ head values = Some c0
    ∧ (∀ i j c d, (c0 :: classes) !! i = Some c → (c0 :: classes) !! j = Some d → (i < j)%nat →
         ∃ k, values !! k = Some c ∧ ∀ k', (k' ≤ k)%nat → values !! k' ≠ Some d)
    ∧ Forall2 (λ v id, (c0 :: classes) !! id = Some v) values ids.
Proof.
  intros Hcol Hne Hcont.
  assert (Hrun : to_cls float float_of_cell str_float dataframe target continuous
                 = to_cls float float_of_cell str_float dataframe target (CBool false)).
  { by destruct Hcont as [->| ->]. }
  rewrite Hrun. clear Hrun Hcont continuous.
  unfold to_cls. cbn [Py.bind]. rewrite Hcol. cbn [Py.bind].
  rewrite unique_fmap_Some.
  destruct values as [|v0 values']; [done|]. clear Hne.
  set (values := v0 :: values') in *.
  assert (Hhead : ∃ classes, unique values = v0 :: classes) by (by eexists).
  destruct Hhead as [classes Hclasses]. rewrite Hclasses.
  pose proof (NoDup_unique values) as Hnd. rewrite Hclasses in Hnd.
  assert (Hmem : ∀ v, v ∈ v0 :: classes ↔ v ∈ values).
  { intros v. rewrite <- Hclasses. apply elem_of_unique. }
  cbn [fmap list_fmap cell_str Py.bind tail].
  change (list_fmap _ _ Some classes) with (Some <$> classes).
  rewrite (map_result_all_Ok _ (λ c, space_sub (default "" c))).
  2:{ apply Forall_fmap, Forall_forall. by intros c _. }
  cbn [Py.bind]. rewrite <- list_fmap_compose.
  assert (Hids : ∃ ids,
            map_result (λ v, match list_find (λ c, c = v) (Some v0 :: (Some <$> classes)) with
                             | Some (i, _) => Ok i
                             | None => Raise (KeyError (fmt v))
                             end) (Some <$> values) = Ok ids
            ∧ Forall2 (λ v id, (v0 :: classes) !! id = Some v) values ids).
  { assert (Hall : ∀ v, v ∈ values → v ∈ v0 :: classes) by (intros v; apply Hmem).
    clear Hcol Hclasses Hmem. induction values as [|v vs IH].
    - exists []. split; [done | constructor].
    - destruct IH as (ids & Hids & Hdec); [intros v' Hv'; apply Hall; by right|].
      destruct (list_find_eq_elem (Some v0 :: (Some <$> classes)) (Some v)) as (i & Hfind & Hi).
      { change (Some v ∈ Some <$> v0 :: classes). apply list_elem_of_fmap_2, Hall. by left. }
      exists (i :: ids). cbn [fmap list_fmap map_result].
      change (list_fmap _ _ Some vs) with (Some <$> vs). rewrite Hfind, Hids.
      split; [done|]. constructor; [|done].
      change (Some v0 :: (Some <$> classes)) with (Some <$> v0 :: classes) in Hi.
      rewrite list_lookup_fmap in Hi. destruct ((v0 :: classes) !! i); by simplify_eq/=. }
  destruct Hids as (ids & Hids & Hdec).
  rewrite Hids. cbn [Py.bind List.length]. rewrite length_fmap.
  exists v0, classes, ids. split_and!; try done.
  intros i j c d Hi Hj Hlt. rewrite <- Hclasses in Hi, Hj.
  by apply (unique_order values i j c d).
Qed.

(** X27. In the mode ["infer"] the output is continuous exactly when every cell
    of the target column converts to a number. *)
Theorem to_cls_infer (dataframe : DataFrame string) (target : string)
    (column : list (option string)) :
  getcol dataframe target = Ok column →
  to_cls float float_of_cell str_float dataframe target (CStr "infer")
  = to_cls float float_of_cell str_float dataframe target
      (CBool (bool_decide (Forall (λ c, is_Some (float_of_cell c)) column))).
Proof.
  intros Hcol. unfold to_cls. cbn [String.eqb Ascii.eqb Bool.eqb Py.bind].
  rewrite Hcol. cbn [Py.bind].
  assert (Hconv : match astype_float float float_of_cell column with
                  | Ok _ => Ok true
                  | Raise ValueError => Ok false
                  | Raise e => Raise e
                  end
                  = Ok (bool_decide (Forall (λ c, is_Some (float_of_cell c)) column))).
  { clear Hcol. unfold astype_float. induction column as [|c column IH].
    - cbn [map_result]. rewrite bool_decide_eq_true_2; [done | constructor].
    - cbn [map_result]. destruct (float_of_cell c) as [x|] eqn:Hc.
      + destruct (map_result _ column) as [xs|e] eqn:Hrest.
        * injection IH as IH. symmetry in IH. apply bool_decide_eq_true_1 in IH.
          rewrite bool_decide_eq_true_2; [done|]. constructor; [by rewrite Hc | done].
        * destruct e; try done. rewrite bool_decide_eq_false_2; [done|].
          intros Hall. apply Forall_cons in Hall as [_ Hall].
          injection IH as IH. symmetry in IH. by apply bool_decide_eq_false_1 in IH.
      + rewrite bool_decide_eq_false_2; [done|].
        intros Hall. apply Forall_cons in Hall as [Hsome _]. rewrite Hc in Hsome.
        by destruct Hsome. }
  by rewrite Hconv.
Qed.

(** X28. At the edges. A string for [continuous] other than ["infer"], ["0"] and
    ["1"] is a [TypeError], whether the target is a column or not; otherwise
    a target that is not a column is a [KeyError]. A frame without rows is
    taken for continuous in the mode ["infer"], with an empty line of
    values, and raises an [IndexError] in discrete mode. *)
Theorem to_cls_edges (dataframe : DataFrame string) (target : string) :
  (∀ s, s ≠ "infer" → s ≠ "0" → s ≠ "1" →
        to_cls float float_of_cell str_float dataframe target (CStr s) = Raise TypeError)
  ∧ (target ∉ columns dataframe →
     ∀ continuous, (∀ s, continuous = CStr s → s = "infer" ∨ s = "0" ∨ s = "1") →
       to_cls float float_of_cell str_float dataframe target continuous
       = Raise (KeyError target))
  ∧ (target ∈ columns dataframe → rows dataframe = [] →
     to_cls float float_of_cell str_float dataframe target (CStr "infer")
     = Ok (String.concat newline ["#numeric"; "#" ++ target; ""])
     ∧ to_cls float float_of_cell str_float dataframe target (CBool false)
       = Raise (IndexError "index 0 is out of bounds for axis 0 with size 0")).
Proof.
  split_and!.
  - intros s H1 H2 H3. unfold to_cls.
    apply String.eqb_neq in H1, H2, H3. by rewrite H1, H2, H3.
  - intros Hcol continuous Hcont.
    assert (Hget : getcol dataframe target = Raise (KeyError target)).
    { unfold getcol. by rewrite decide_False. }
    unfold to_cls. destruct continuous as [s|[]].
    + destruct (Hcont s eq_refl) as [->|[->| ->]]; cbn [String.eqb Ascii.eqb Bool.eqb Py.bind];
        by rewrite Hget.
    + cbn [Py.bind]. by rewrite Hget.
    + cbn [Py.bind]. by rewrite Hget.
  - intros Hcol Hrows.
    assert (Hget : getcol dataframe target = Ok []).
    { unfold getcol. rewrite decide_True by done. by rewrite Hrows. }
    unfold to_cls. cbn [String.eqb Ascii.eqb Bool.eqb Py.bind]. rewrite Hget. done.
Qed.

End cls_output.

(** ** File listings *)

Lemma dict_set_elem (k v : string) (d : list (string * string)) (k' v' : string) :
  (k', v') ∈ dict_set k v d → (k' = k ∧ v' = v) ∨ (k', v') ∈ d.
Proof.
  induction d as [|[k0 v0] d IH]; cbn [dict_set].
  - intros [[= -> ->]|[]%elem_of_nil]%elem_of_cons. by left.
  - destruct (String.eqb k k0) eqn:Hk.
    + intros [[= -> ->]|Hin]%elem_of_cons; [by left|]. right. by right.
    + intros [[= -> ->]|Hin]%elem_of_cons; [right; by left|].
      destruct (IH Hin) as [?|?]; [by left|]. right. by right.
Qed.

Lemma dict_set_keys (k v : string) (d : list (string * string)) :
  (∀ k', k' ∈ (dict_set k v d).*1 ↔ k' = k ∨ k' ∈ d.*1)
  ∧ (NoDup d.*1 → NoDup (dict_set k v d).*1).
Proof.
  induction d as [|[k0 v0] d [IHk IHn]]; cbn [dict_set].
  - split.
    + intros k'. cbn. rewrite elem_of_cons, elem_of_nil. tauto.
    + intros _. cbn. apply NoDup_singleton.
  - destruct (String.eqb k k0) eqn:Hk.
    + apply String.eqb_eq in Hk as <-. split; [|done].
      intros k'. cbn. rewrite !elem_of_cons. tauto.
    + apply String.eqb_neq in Hk. split.
      * intros k'. rewrite !fmap_cons, !elem_of_cons, IHk. cbn. tauto.
      * rewrite !fmap_cons. cbn. intros [Hnin Hnd]%NoDup_cons. apply NoDup_cons. split; [|auto].
        rewrite IHk. intros [->|?]; done.
Qed.

Lemma file_dict (g : string → string) (names : list string) (d : list (string * string)) :
  NoDup d.*1 → (∀ k v, (k, v) ∈ d → v = g k) →
  let d' := foldl (λ d n, dict_set n (g n) d) d names in
  NoDup d'.*1
  ∧ (∀ k v, (k, v) ∈ d' → v = g k)
  ∧ (∀ k, k ∈ d'.*1 ↔ k ∈ d.*1 ∨ k ∈ names).
Proof.
  revert d. induction names as [|n names IH]; intros d Hnd Hval; cbn [foldl].
  - split_and!; [done | done |]. intros k. rewrite elem_of_nil. tauto.
  - destruct (dict_set_keys n (g n) d) as [Hkeys Hnd'].
    destruct (IH (dict_set n (g n) d)) as (H1 & H2 & H3); [auto | |].
    + intros k v Hin. apply dict_set_elem in Hin as [[-> ->]|Hin]; [done | auto].
    + split_and!; [done | done |]. intros k. rewrite H3, Hkeys, elem_of_cons. tauto.
Qed.

(** A call of [fetch_file] that returns leaves a file at the target path,
    and a file wherever there was one. *)
Lemma fetch_file_keeps_files (file_name : string) (url : option string) (dir : string)
    (update fb : bool) (w w' : World) (path : string) :
  fetch_file file_name url dir update fb w = (Ok path, w') →
  isfile w' (Str.join dir file_name) = true
  ∧ ∀ q, isfile w q = true → isfile w' q = true.
Proof.
  unfold fetch_file.
  destruct (negb (isdir _ dir) && isfile _ dir) eqn:Hstorage; [discriminate|].
  fold (storage_ready file_name url dir update w).
  destruct (storage_ready_fs file_name url dir update w) as [_ Hfs1].
  set (w1 := storage_ready file_name url dir update w) in *.
  set (target_file := Str.join dir file_name).
  assert (Hkeep1 : ∀ q, isfile w q = true → isfile w1 q = true).
  { intros q Hq. unfold isfile in *. rewrite Hfs1.
    destruct (isdir w dir) eqn:Hd; [done|].
    destruct (decide (q = dir)) as [->|Hne]; [|by rewrite lookup_insert_ne].
    unfold isdir, isfile in Hstorage. cbn [fs record_call] in Hstorage.
    destruct (fs w !! dir) as [[|c]|]; done. }
  destruct (negb update && isdir w1 target_file); [discriminate|].
  destruct (negb update && isfile w1 target_file) eqn:Hisfile.
  - intros [= <- <-]. apply andb_true_iff in Hisfile as [_ Hfile]. done.
  - pose proof (get_with_fallback_fs url fb w1) as Hfs2.
    destruct (get_with_fallback url fb w1) as [[stream|e] w2]; [|discriminate].
    cbn [snd] in Hfs2.
    destruct (negb (status_code stream =? 200)%nat); [discriminate|].
    destruct (isdir w2 target_file); [discriminate|].
    destruct (negb (default 0 (content_length stream) =? _)%nat); [discriminate|].
    intros [= <- <-]. unfold isfile. cbn [set_fs fs]. split.
    + by rewrite lookup_insert_eq.
    + intros q Hq. apply Hkeep1 in Hq. unfold isfile in Hq.
      destruct (decide (q = target_file)) as [->|Hne]; [by rewrite lookup_insert_eq|].
      by rewrite lookup_insert_ne, Hfs2.
Qed.

Section listings.
Variable URL_ROOT LOCAL_STORAGE : string.
Variable get_json : string → result (list (gmap string string)).

Lemma fetch_listed_Ok (items : list (string * string)) (update : bool) (w w' : World) :
  fetch_listed LOCAL_STORAGE items update w = (Ok (), w') →
  (∀ q, isfile w q = true → isfile w' q = true)
  ∧ ∀ f u, (f, u) ∈ items → isfile w' (Str.join LOCAL_STORAGE f) = true.
Proof.
  revert w. induction items as [|[f0 u0] items IH]; intros w; cbn [fetch_listed].
  - intros [= <-]. split; [done|]. by intros f u ?%elem_of_nil.
  - destruct (fetch_file f0 (Some u0) LOCAL_STORAGE update true w) as [[p|e] w1] eqn:Hfetch;
      [|discriminate].
    apply fetch_file_keeps_files in Hfetch as [Htarget Hkeep].
    intros Hrest. apply IH in Hrest as [Hkeep' Hall]. split; [by auto|].
    intros f u [[= -> ->]|Hin]%elem_of_cons; [by auto | by eauto].
Qed.

(** X29. When [file_list] is asked to fetch and returns, it returns the file
    names of the listing, each once and each with its URL under the media
    root, and every one of them is then a file in the local storage. *)
Theorem listed_files_are_stored (_internal_id : string) (update : bool) (w w' : World)
    (files : list (string * string)) :
  file_list URL_ROOT LOCAL_STORAGE get_json _internal_id true update w = (Ok files, w') →
  NoDup files.*1
  ∧ (∃ records,
       get_json (URL_ROOT ++ "/data/study/filelistings/" ++ _internal_id) = Ok records
       ∧ (∀ record, record ∈ records → is_Some (record !! "file_name"))
       ∧ ∀ f, f ∈ files.*1 ↔ ∃ record, record ∈ records ∧ record !! "file_name" = Some f)
  ∧ ∀ f u, (f, u) ∈ files →
      u = URL_ROOT ++ "/static/media/dataset/" ++ f
      ∧ ∃ content, fs w' !! Str.join LOCAL_STORAGE f = Some (File content).
Proof.
  unfold file_list.
  destruct (get_json _) as [records|]; [|discriminate]. cbn [Py.bind].
  destruct (map_result _ records) as [names|] eqn:Hnames; [|discriminate]. cbn [Py.bind].
  apply map_result_Ok in Hnames.
  destruct (file_dict (λ n, URL_ROOT ++ "/static/media/dataset/" ++ n) names [])
    as (Hnd & Hval & Hkeys); [constructor | by intros k v ?%elem_of_nil |].
  cbn zeta in Hnd, Hval, Hkeys.
  set (dict := foldl _ [] names) in *.
  destruct (fetch_listed LOCAL_STORAGE dict update w) as [[[]|e] w1] eqn:Hfetch; [|discriminate].
  intros [= <- <-]. apply fetch_listed_Ok in Hfetch as [_ Hstored].
  split_and!; [done | |].
  - exists records. split_and!; [done | |].
    + intros record Hrecord. apply list_elem_of_lookup in Hrecord as [i Hrecord].
      destruct (Forall2_lookup_l _ _ _ _ _ Hnames Hrecord) as (n & _ & Hn).
      destruct (record !! "file_name"); [by eexists | done].
    + intros f. rewrite Hkeys, fmap_nil, elem_of_nil. split.
      * intros [[]|Hf]. apply list_elem_of_lookup in Hf as [i Hf].
        destruct (Forall2_lookup_r _ _ _ _ _ Hnames Hf) as (record & Hrecord & Hn).
        exists record. split; [by apply list_elem_of_lookup_2 in Hrecord|].
        destruct (record !! "file_name"); [by injection Hn as -> | done].
      * intros (record & Hrecord & Hf). right.
        apply list_elem_of_lookup in Hrecord as [i Hrecord].
        destruct (Forall2_lookup_l _ _ _ _ _ Hnames Hrecord) as (n & Hn & Hname).
        rewrite Hf in Hname. injection Hname as ->. by apply list_elem_of_lookup_2 in Hn.
  - intros f u Hin. split; [by apply Hval|].
    specialize (Hstored f u Hin). unfold isfile in Hstored.
    destruct (fs w1 !! Str.join LOCAL_STORAGE f) as [[|content]|]; try done. by exists content.
Qed.

End listings.

Lemma dispatcher_holds_the_assays_witness :
  let d : gmap string positive := {[ "a1" := 1%positive ]} in
  let h' : gmap positive Assay := {[ 1%positive := Examples.assay ]} in
  (∅ : gmap positive Assay) ⊆ h'
  ∧ (∀ n, n ∈ dom d ↔ n ∈ Cases.study_json.*1)
  ∧ (∀ n r, d !! n = Some r →
       (∅ : gmap positive Assay) !! r = None
       ∧ ∃ j a, (n, j) ∈ Cases.study_json
                ∧ Assay_of_json (re := MiniRe.engine) Examples.delim_as_is n j Examples.file_urls
                    "/store" "Sample Name" "_" = Ok a
                ∧ h' !! r = Some a).
Proof.
  apply (dispatcher_holds_the_assays (re := MiniRe.engine) Examples.delim_as_is Cases.study_json
           Examples.file_urls "/store" "Sample Name" "_").
  vm_compute. reflexivity.
Defined.

(** An item without records, and an item whose index field no record
    carries: the handler fails with an [AttributeError] on both. *)
Example dispatcher_malformed_json :
  (AssayDispatcher__init__ (re := MiniRe.engine) Examples.delim_as_is
     [("a1", {| json_raw := None; json_header := Some Examples.header |})]
     Examples.file_urls "/store" "Sample Name" "_" ∅).1
  = Failed (AttributeError "accession")
  ∧ (AssayDispatcher__init__ (re := MiniRe.engine) Examples.delim_as_is
       [("a1", {| json_raw := Some [{[ "a101" := "unnamed" ]}];
                  json_header := Some Examples.header |})]
       Examples.file_urls "/store" "Sample Name" "_" ∅).1
    = Failed (AttributeError "accession").
Proof. split; vm_compute; reflexivity. Qed.

Lemma to_cls_discrete_decodes_witness :
  ∃ c0 classes ids,
    to_cls string Cases.float_of_cell id Cases.factors_frame "Spaceflight" (CStr "0")
    = Ok (String.concat newline
            [String.concat tab [pretty (len Cases.factors_frame);
                                pretty (List.length (c0 :: classes)); "1"];
             String.concat tab (("# " ++ space_sub c0) :: (space_sub <$> classes));
             String.concat tab (pretty <$> ids)])
    ∧ NoDup (c0 :: classes)
    ∧ (∀ v, v ∈ c0 :: classes ↔ v ∈ ["Space Flight"; "Ground Control"; "Space Flight"])
    ∧ head ["Space Flight"; "Ground Control"; "Space Flight"] = Some c0
    ∧ (∀ i j c d, (c0 :: classes) !! i = Some c → (c0 :: classes) !! j = Some d → (i < j)%nat →
         ∃ k, ["Space Flight"; "Ground Control"; "Space Flight"] !! k = Some c
              ∧ ∀ k', (k' ≤ k)%nat →
                  ["Space Flight"; "Ground Control"; "Space Flight"] !! k' ≠ Some d)
    ∧ Forall2 (λ v id, (c0 :: classes) !! id = Some v)
              ["Space Flight"; "Ground Control"; "Space Flight"] ids.
Proof.
  apply (to_cls_discrete_decodes string Cases.float_of_cell id Cases.factors_frame "Spaceflight"
           (CStr "0") ["Space Flight"; "Ground Control"; "Space Flight"]).
  - vm_compute. reflexivity.
  - discriminate.
  - by right.
Defined.

(** The three lines of the example. *)
Example to_cls_example :
  to_cls string Cases.float_of_cell id Cases.factors_frame "Spaceflight" (CStr "infer")
  = Ok ("3" ++ tab ++ "2" ++ tab ++ "1" ++ newline
        ++ "# SpaceFlight" ++ tab ++ "GroundControl" ++ newline
        ++ "0" ++ tab ++ "1" ++ tab ++ "0").
Proof. vm_compute. reflexivity. Qed.

Lemma to_cls_infer_witness :
  to_cls string Cases.float_of_cell id Cases.factors_frame "Spaceflight" (CStr "infer")
  = to_cls string Cases.float_of_cell id Cases.factors_frame "Spaceflight"
      (CBool (bool_decide (Forall (λ c, is_Some (Cases.float_of_cell c))
                             [Some "Space Flight"; Some "Ground Control"; Some "Space Flight"]))).
Proof.
  apply (to_cls_infer string Cases.float_of_cell id Cases.factors_frame "Spaceflight").
  vm_compute. reflexivity.
Defined.

Lemma listed_files_are_stored_witness :
  let files := [("GLDS-1_out.txt", "https://host/static/media/dataset/GLDS-1_out.txt")] in
  let w' := (file_list "https://host" "/store" Cases.get_json "42" true false
               Cases.media_world).2 in
  NoDup files.*1
  ∧ (∃ records,
       Cases.get_json ("https://host" ++ "/data/study/filelistings/" ++ "42") = Ok records
       ∧ (∀ record, record ∈ records → is_Some (record !! "file_name"))
       ∧ ∀ f, f ∈ files.*1 ↔ ∃ record, record ∈ records ∧ record !! "file_name" = Some f)
  ∧ ∀ f u, (f, u) ∈ files →
      u = "https://host" ++ "/static/media/dataset/" ++ f
      ∧ ∃ content, fs w' !! Str.join "/store" f = Some (File content).
Proof.
  apply (listed_files_are_stored "https://host" "/store" Cases.get_json "42" false
           Cases.media_world).
  match goal with
  | |- ?run = _ =>
      assert (run.1 = Ok [("GLDS-1_out.txt", "https://host/static/media/dataset/GLDS-1_out.txt")])
        as <- by (vm_compute; reflexivity);
      by destruct run
  end.
Defined.
